(** * Crypto autoposting system: processing and publishing core

    A shallow embedding of the content pipeline
    ([src/processing/content_processor.py]), the publishing service
    ([src/publishing/publisher.py]), the similarity checker
    ([src/utils/similarity.py]), the Redis wrapper
    ([src/utils/redis_client.py]), the translation service
    ([src/utils/translator.py]) and the review endpoints ([src/main.py]),
    with the properties of the specification stated and settled against
    them.

    Conventions of the embedding:
    - Python [str] is [string], holding the UTF-8 encoding of the text;
      [len] counts characters, [s[:n]] keeps the first [n] characters,
      [x in s] on strings is the substring test [contains] and
      [s.lower()] is [lower], with the case tables of Unicode.
    - Python [float] is [Q]: comparisons, exact constants and the sums of
      the configured weights; the quotient of [update_engagement_score],
      which is rounded, is an input of the function.
    - [datetime] is [Z], a count of microseconds.
    - a Python [dict] decoded from JSON is a [gmap string jval].
    - a Python function that may raise returns an [option] (or a sum)
      whose failure case is the raised exception; the [try]/[except] of the
      source is the [match] that consumes it.
    - the relational store is a record of tables; a SQLAlchemy session is
      the committed store, the view of the open transaction and the mark
      of a transaction that failed and was not rolled back.
    - outcomes of external collaborators (LLM, Telegram, embedding model,
      store failures) are inputs of the functions, gathered in records. *)

From Stdlib Require Import ZArith QArith String Ascii List Bool Lia Lqa Sorted.
From stdpp Require Import gmap strings.
Import ListNotations.

Local Open Scope string_scope.
Local Open Scope Z_scope.

(** ** Python primitives

    A [str] is represented by its UTF-8 encoding: a character (code point)
    is one byte below 128, or a leading byte of 192 and more followed by one
    to three continuation bytes (128 to 191). [len], slicing and [lower] work
    on characters, as in Python; the substring test on the encodings is the
    substring test on the texts, because no encoding of a character occurs
    inside or across the encodings of others. *)

Module Py.

(** [needle in hay] for two strings. *)
Fixpoint contains (needle hay : string) : bool :=
  match hay with
  | EmptyString => String.prefix needle hay
  | String _ rest => String.prefix needle hay || contains needle rest
  end.

(** A continuation byte of a character of several bytes. *)
Definition continuation (c : ascii) : bool :=
  ((128 <=? N_of_ascii c) && (N_of_ascii c <? 192))%N.

(** Number of characters: every byte that is no continuation byte starts
    one. *)
Fixpoint chars (s : string) : nat :=
  match s with
  | EmptyString => 0%nat
  | String c rest => if continuation c then chars rest else S (chars rest)
  end.

(** [len(s)] *)
Definition len (s : string) : Z := Z.of_nat (chars s).

(** [s[:n]]: the first [n] characters of [s], all of [s] when it has
    fewer. *)
Fixpoint slice_to (n : nat) (s : string) : string :=
  match s with
  | EmptyString => EmptyString
  | String c rest =>
      if continuation c then String c (slice_to n rest)
      else
        match n with
        | O => EmptyString
        | S m => String c (slice_to m rest)
        end
  end.

(** The code points of a text. Bytes that do not form a well-formed
    sequence, which the encoding of a [str] never contains, are passed
    through. *)
Fixpoint decode (s : string) : list N :=
  match s with
  | EmptyString => []
  | String b0 rest =>
      let n0 := N_of_ascii b0 in
      if (n0 <? 192)%N then n0 :: decode rest
      else if (n0 <? 224)%N then
        match rest with
        | String b1 rest1 =>
            ((n0 - 192) * 64 + (N_of_ascii b1 - 128))%N :: decode rest1
        | _ => n0 :: decode rest
        end
      else if (n0 <? 240)%N then
        match rest with
        | String b1 (String b2 rest2) =>
            ((n0 - 224) * 4096 + (N_of_ascii b1 - 128) * 64
             + (N_of_ascii b2 - 128))%N :: decode rest2
        | _ => n0 :: decode rest
        end
      else
        match rest with
        | String b1 (String b2 (String b3 rest3)) =>
            ((n0 - 240) * 262144 + (N_of_ascii b1 - 128) * 4096
             + (N_of_ascii b2 - 128) * 64 + (N_of_ascii b3 - 128))%N
            :: decode rest3
        | _ => n0 :: decode rest
        end
  end.

(** The UTF-8 encoding of a code point. *)
Definition encode_char (c : N) : string :=
  if (c <? 128)%N then String (ascii_of_N c) EmptyString
  else if (c <? 2048)%N then
    String (ascii_of_N (192 + c / 64))
      (String (ascii_of_N (128 + c mod 64)) EmptyString)
  else if (c <? 65536)%N then
    String (ascii_of_N (224 + c / 4096))
      (String (ascii_of_N (128 + (c / 64) mod 64))
         (String (ascii_of_N (128 + c mod 64)) EmptyString))
  else
    String (ascii_of_N (240 + c / 262144))
      (String (ascii_of_N (128 + (c / 4096) mod 64))
         (String (ascii_of_N (128 + (c / 64) mod 64))
            (String (ascii_of_N (128 + c mod 64)) EmptyString))).

Definition encode (l : list N) : string :=
  fold_right (fun c rest => encode_char c ++ rest) EmptyString l.

(** The lower-case mappings of single characters (Unicode 14.0, the
    tables of CPython 3.11): [(first, last, step, image)] sends the
    characters [first], [first + step], ... up to [last] to [image],
    [image + step], ... *)
Definition lower_table : list (N * N * N * N) :=
  [   (65, 90, 1, 97); (192, 214, 1, 224); (216, 222, 1, 248); (256, 302, 2,
   257); (306, 310, 2, 307); (313, 327, 2, 314); (330, 374, 2, 331); (376,
   376, 1, 255); (377, 381, 2, 378); (385, 385, 1, 595); (386, 388, 2, 387);
   (390, 390, 1, 596); (391, 391, 1, 392); (393, 394, 1, 598); (395, 395, 1,
   396); (398, 398, 1, 477); (399, 399, 1, 601); (400, 400, 1, 603); (401,
   401, 1, 402); (403, 403, 1, 608); (404, 404, 1, 611); (406, 406, 1, 617);
   (407, 407, 1, 616); (408, 408, 1, 409); (412, 412, 1, 623); (413, 413, 1,
   626); (415, 415, 1, 629); (416, 420, 2, 417); (422, 422, 1, 640); (423,
   423, 1, 424); (425, 425, 1, 643); (428, 428, 1, 429); (430, 430, 1, 648);
   (431, 431, 1, 432); (433, 434, 1, 650); (435, 437, 2, 436); (439, 439, 1,
   658); (440, 440, 1, 441); (444, 444, 1, 445); (452, 452, 1, 454); (453,
   453, 1, 454); (455, 455, 1, 457); (456, 456, 1, 457); (458, 458, 1, 460);
   (459, 475, 2, 460); (478, 494, 2, 479); (497, 497, 1, 499); (498, 500, 2,
   499); (502, 502, 1, 405); (503, 503, 1, 447); (504, 542, 2, 505); (544,
   544, 1, 414); (546, 562, 2, 547); (570, 570, 1, 11365); (571, 571, 1,
   572); (573, 573, 1, 410); (574, 574, 1, 11366); (577, 577, 1, 578); (579,
   579, 1, 384); (580, 580, 1, 649); (581, 581, 1, 652); (582, 590, 2, 583);
   (880, 882, 2, 881); (886, 886, 1, 887); (895, 895, 1, 1011); (902, 902,
   1, 940); (904, 906, 1, 941); (908, 908, 1, 972); (910, 911, 1, 973);
   (913, 929, 1, 945); (931, 939, 1, 963); (975, 975, 1, 983); (984, 1006,
   2, 985); (1012, 1012, 1, 952); (1015, 1015, 1, 1016); (1017, 1017, 1,
   1010); (1018, 1018, 1, 1019); (1021, 1023, 1, 891); (1024, 1039, 1,
   1104); (1040, 1071, 1, 1072); (1120, 1152, 2, 1121); (1162, 1214, 2,
   1163); (1216, 1216, 1, 1231); (1217, 1229, 2, 1218); (1232, 1326, 2,
   1233); (1329, 1366, 1, 1377); (4256, 4293, 1, 11520); (4295, 4295, 1,
   11559); (4301, 4301, 1, 11565); (5024, 5103, 1, 43888); (5104, 5109, 1,
   5112); (7312, 7354, 1, 4304); (7357, 7359, 1, 4349); (7680, 7828, 2,
   7681); (7838, 7838, 1, 223); (7840, 7934, 2, 7841); (7944, 7951, 1,
   7936); (7960, 7965, 1, 7952); (7976, 7983, 1, 7968); (7992, 7999, 1,
   7984); (8008, 8013, 1, 8000); (8025, 8031, 2, 8017); (8040, 8047, 1,
   8032); (8072, 8079, 1, 8064); (8088, 8095, 1, 8080); (8104, 8111, 1,
   8096); (8120, 8121, 1, 8112); (8122, 8123, 1, 8048); (8124, 8124, 1,
   8115); (8136, 8139, 1, 8050); (8140, 8140, 1, 8131); (8152, 8153, 1,
   8144); (8154, 8155, 1, 8054); (8168, 8169, 1, 8160); (8170, 8171, 1,
   8058); (8172, 8172, 1, 8165); (8184, 8185, 1, 8056); (8186, 8187, 1,
   8060); (8188, 8188, 1, 8179); (8486, 8486, 1, 969); (8490, 8490, 1, 107);
   (8491, 8491, 1, 229); (8498, 8498, 1, 8526); (8544, 8559, 1, 8560);
   (8579, 8579, 1, 8580); (9398, 9423, 1, 9424); (11264, 11311, 1, 11312);
   (11360, 11360, 1, 11361); (11362, 11362, 1, 619); (11363, 11363, 1,
   7549); (11364, 11364, 1, 637); (11367, 11371, 2, 11368); (11373, 11373,
   1, 593); (11374, 11374, 1, 625); (11375, 11375, 1, 592); (11376, 11376,
   1, 594); (11378, 11378, 1, 11379); (11381, 11381, 1, 11382); (11390,
   11391, 1, 575); (11392, 11490, 2, 11393); (11499, 11501, 2, 11500);
   (11506, 11506, 1, 11507); (42560, 42604, 2, 42561); (42624, 42650, 2,
   42625); (42786, 42798, 2, 42787); (42802, 42862, 2, 42803); (42873,
   42875, 2, 42874); (42877, 42877, 1, 7545); (42878, 42886, 2, 42879);
   (42891, 42891, 1, 42892); (42893, 42893, 1, 613); (42896, 42898, 2,
   42897); (42902, 42920, 2, 42903); (42922, 42922, 1, 614); (42923, 42923,
   1, 604); (42924, 42924, 1, 609); (42925, 42925, 1, 620); (42926, 42926,
   1, 618); (42928, 42928, 1, 670); (42929, 42929, 1, 647); (42930, 42930,
   1, 669); (42931, 42931, 1, 43859); (42932, 42946, 2, 42933); (42948,
   42948, 1, 42900); (42949, 42949, 1, 642); (42950, 42950, 1, 7566);
   (42951, 42953, 2, 42952); (42960, 42960, 1, 42961); (42966, 42968, 2,
   42967); (42997, 42997, 1, 42998); (65313, 65338, 1, 65345); (66560,
   66599, 1, 66600); (66736, 66771, 1, 66776); (66928, 66964, 2, 66967);
   (66929, 66938, 1, 66968); (66941, 66954, 1, 66980); (66957, 66962, 1,
   66996); (66965, 66965, 1, 67004); (68736, 68786, 1, 68800); (71840,
   71871, 1, 71872); (93760, 93791, 1, 93792); (125184, 125217, 1, 125218)]%N.
(** Characters with a lower-case or upper-case form (property Cased),
    those of the next table left out. *)
Definition cased_table : list (N * N) :=
  [   (65, 90); (97, 122); (170, 170); (181, 181); (186, 186); (192, 214);
   (216, 246); (248, 442); (444, 447); (452, 659); (661, 687); (880, 883);
   (886, 887); (891, 893); (895, 895); (902, 902); (904, 906); (908, 908);
   (910, 929); (931, 1013); (1015, 1153); (1162, 1327); (1329, 1366); (1376,
   1416); (4256, 4293); (4295, 4295); (4301, 4301); (4304, 4346); (4349,
   4351); (5024, 5109); (5112, 5117); (7296, 7304); (7312, 7354); (7357,
   7359); (7424, 7467); (7531, 7543); (7545, 7578); (7680, 7957); (7960,
   7965); (7968, 8005); (8008, 8013); (8016, 8023); (8025, 8025); (8027,
   8027); (8029, 8029); (8031, 8061); (8064, 8116); (8118, 8124); (8126,
   8126); (8130, 8132); (8134, 8140); (8144, 8147); (8150, 8155); (8160,
   8172); (8178, 8180); (8182, 8188); (8450, 8450); (8455, 8455); (8458,
   8467); (8469, 8469); (8473, 8477); (8484, 8484); (8486, 8486); (8488,
   8488); (8490, 8493); (8495, 8500); (8505, 8505); (8508, 8511); (8517,
   8521); (8526, 8526); (8544, 8575); (8579, 8580); (9398, 9449); (11264,
   11387); (11390, 11492); (11499, 11502); (11506, 11507); (11520, 11557);
   (11559, 11559); (11565, 11565); (42560, 42605); (42624, 42651); (42786,
   42863); (42865, 42887); (42891, 42894); (42896, 42954); (42960, 42961);
   (42963, 42963); (42965, 42969); (42997, 42998); (43002, 43002); (43824,
   43866); (43872, 43880); (43888, 43967); (64256, 64262); (64275, 64279);
   (65313, 65338); (65345, 65370); (66560, 66639); (66736, 66771); (66776,
   66811); (66928, 66938); (66940, 66954); (66956, 66962); (66964, 66965);
   (66967, 66977); (66979, 66993); (66995, 67001); (67003, 67004); (68736,
   68786); (68800, 68850); (71840, 71903); (93760, 93823); (119808, 119892);
   (119894, 119964); (119966, 119967); (119970, 119970); (119973, 119974);
   (119977, 119980); (119982, 119993); (119995, 119995); (119997, 120003);
   (120005, 120069); (120071, 120074); (120077, 120084); (120086, 120092);
   (120094, 120121); (120123, 120126); (120128, 120132); (120134, 120134);
   (120138, 120144); (120146, 120485); (120488, 120512); (120514, 120538);
   (120540, 120570); (120572, 120596); (120598, 120628); (120630, 120654);
   (120656, 120686); (120688, 120712); (120714, 120744); (120746, 120770);
   (120772, 120779); (122624, 122633); (122635, 122654); (125184, 125251);
   (127280, 127305); (127312, 127337); (127344, 127369)]%N.
(** Characters that are skipped when the context of a capital sigma is
    examined (property Case_Ignorable). *)
Definition case_ignorable_table : list (N * N) :=
  [   (39, 39); (46, 46); (58, 58); (94, 94); (96, 96); (168, 168); (173, 173);
   (175, 175); (180, 180); (183, 184); (688, 879); (884, 885); (890, 890);
   (900, 901); (903, 903); (1155, 1161); (1369, 1369); (1375, 1375); (1425,
   1469); (1471, 1471); (1473, 1474); (1476, 1477); (1479, 1479); (1524,
   1524); (1536, 1541); (1552, 1562); (1564, 1564); (1600, 1600); (1611,
   1631); (1648, 1648); (1750, 1757); (1759, 1768); (1770, 1773); (1807,
   1807); (1809, 1809); (1840, 1866); (1958, 1968); (2027, 2037); (2042,
   2042); (2045, 2045); (2070, 2093); (2137, 2139); (2184, 2184); (2192,
   2193); (2200, 2207); (2249, 2306); (2362, 2362); (2364, 2364); (2369,
   2376); (2381, 2381); (2385, 2391); (2402, 2403); (2417, 2417); (2433,
   2433); (2492, 2492); (2497, 2500); (2509, 2509); (2530, 2531); (2558,
   2558); (2561, 2562); (2620, 2620); (2625, 2626); (2631, 2632); (2635,
   2637); (2641, 2641); (2672, 2673); (2677, 2677); (2689, 2690); (2748,
   2748); (2753, 2757); (2759, 2760); (2765, 2765); (2786, 2787); (2810,
   2815); (2817, 2817); (2876, 2876); (2879, 2879); (2881, 2884); (2893,
   2893); (2901, 2902); (2914, 2915); (2946, 2946); (3008, 3008); (3021,
   3021); (3072, 3072); (3076, 3076); (3132, 3132); (3134, 3136); (3142,
   3144); (3146, 3149); (3157, 3158); (3170, 3171); (3201, 3201); (3260,
   3260); (3263, 3263); (3270, 3270); (3276, 3277); (3298, 3299); (3328,
   3329); (3387, 3388); (3393, 3396); (3405, 3405); (3426, 3427); (3457,
   3457); (3530, 3530); (3538, 3540); (3542, 3542); (3633, 3633); (3636,
   3642); (3654, 3662); (3761, 3761); (3764, 3772); (3782, 3782); (3784,
   3789); (3864, 3865); (3893, 3893); (3895, 3895); (3897, 3897); (3953,
   3966); (3968, 3972); (3974, 3975); (3981, 3991); (3993, 4028); (4038,
   4038); (4141, 4144); (4146, 4151); (4153, 4154); (4157, 4158); (4184,
   4185); (4190, 4192); (4209, 4212); (4226, 4226); (4229, 4230); (4237,
   4237); (4253, 4253); (4348, 4348); (4957, 4959); (5906, 5908); (5938,
   5939); (5970, 5971); (6002, 6003); (6068, 6069); (6071, 6077); (6086,
   6086); (6089, 6099); (6103, 6103); (6109, 6109); (6155, 6159); (6211,
   6211); (6277, 6278); (6313, 6313); (6432, 6434); (6439, 6440); (6450,
   6450); (6457, 6459); (6679, 6680); (6683, 6683); (6742, 6742); (6744,
   6750); (6752, 6752); (6754, 6754); (6757, 6764); (6771, 6780); (6783,
   6783); (6823, 6823); (6832, 6862); (6912, 6915); (6964, 6964); (6966,
   6970); (6972, 6972); (6978, 6978); (7019, 7027); (7040, 7041); (7074,
   7077); (7080, 7081); (7083, 7085); (7142, 7142); (7144, 7145); (7149,
   7149); (7151, 7153); (7212, 7219); (7222, 7223); (7288, 7293); (7376,
   7378); (7380, 7392); (7394, 7400); (7405, 7405); (7412, 7412); (7416,
   7417); (7468, 7530); (7544, 7544); (7579, 7679); (8125, 8125); (8127,
   8129); (8141, 8143); (8157, 8159); (8173, 8175); (8189, 8190); (8203,
   8207); (8216, 8217); (8228, 8228); (8231, 8231); (8234, 8238); (8288,
   8292); (8294, 8303); (8305, 8305); (8319, 8319); (8336, 8348); (8400,
   8432); (11388, 11389); (11503, 11505); (11631, 11631); (11647, 11647);
   (11744, 11775); (11823, 11823); (12293, 12293); (12330, 12333); (12337,
   12341); (12347, 12347); (12441, 12446); (12540, 12542); (40981, 40981);
   (42232, 42237); (42508, 42508); (42607, 42610); (42612, 42621); (42623,
   42623); (42652, 42655); (42736, 42737); (42752, 42785); (42864, 42864);
   (42888, 42890); (42994, 42996); (43000, 43001); (43010, 43010); (43014,
   43014); (43019, 43019); (43045, 43046); (43052, 43052); (43204, 43205);
   (43232, 43249); (43263, 43263); (43302, 43309); (43335, 43345); (43392,
   43394); (43443, 43443); (43446, 43449); (43452, 43453); (43471, 43471);
   (43493, 43494); (43561, 43566); (43569, 43570); (43573, 43574); (43587,
   43587); (43596, 43596); (43632, 43632); (43644, 43644); (43696, 43696);
   (43698, 43700); (43703, 43704); (43710, 43711); (43713, 43713); (43741,
   43741); (43756, 43757); (43763, 43764); (43766, 43766); (43867, 43871);
   (43881, 43883); (44005, 44005); (44008, 44008); (44013, 44013); (64286,
   64286); (64434, 64450); (65024, 65039); (65043, 65043); (65056, 65071);
   (65106, 65106); (65109, 65109); (65279, 65279); (65287, 65287); (65294,
   65294); (65306, 65306); (65342, 65342); (65344, 65344); (65392, 65392);
   (65438, 65439); (65507, 65507); (65529, 65531); (66045, 66045); (66272,
   66272); (66422, 66426); (67456, 67461); (67463, 67504); (67506, 67514);
   (68097, 68099); (68101, 68102); (68108, 68111); (68152, 68154); (68159,
   68159); (68325, 68326); (68900, 68903); (69291, 69292); (69446, 69456);
   (69506, 69509); (69633, 69633); (69688, 69702); (69744, 69744); (69747,
   69748); (69759, 69761); (69811, 69814); (69817, 69818); (69821, 69821);
   (69826, 69826); (69837, 69837); (69888, 69890); (69927, 69931); (69933,
   69940); (70003, 70003); (70016, 70017); (70070, 70078); (70089, 70092);
   (70095, 70095); (70191, 70193); (70196, 70196); (70198, 70199); (70206,
   70206); (70367, 70367); (70371, 70378); (70400, 70401); (70459, 70460);
   (70464, 70464); (70502, 70508); (70512, 70516); (70712, 70719); (70722,
   70724); (70726, 70726); (70750, 70750); (70835, 70840); (70842, 70842);
   (70847, 70848); (70850, 70851); (71090, 71093); (71100, 71101); (71103,
   71104); (71132, 71133); (71219, 71226); (71229, 71229); (71231, 71232);
   (71339, 71339); (71341, 71341); (71344, 71349); (71351, 71351); (71453,
   71455); (71458, 71461); (71463, 71467); (71727, 71735); (71737, 71738);
   (71995, 71996); (71998, 71998); (72003, 72003); (72148, 72151); (72154,
   72155); (72160, 72160); (72193, 72202); (72243, 72248); (72251, 72254);
   (72263, 72263); (72273, 72278); (72281, 72283); (72330, 72342); (72344,
   72345); (72752, 72758); (72760, 72765); (72767, 72767); (72850, 72871);
   (72874, 72880); (72882, 72883); (72885, 72886); (73009, 73014); (73018,
   73018); (73020, 73021); (73023, 73029); (73031, 73031); (73104, 73105);
   (73109, 73109); (73111, 73111); (73459, 73460); (78896, 78904); (92912,
   92916); (92976, 92982); (92992, 92995); (94031, 94031); (94095, 94111);
   (94176, 94177); (94179, 94180); (110576, 110579); (110581, 110587);
   (110589, 110590); (113821, 113822); (113824, 113827); (118528, 118573);
   (118576, 118598); (119143, 119145); (119155, 119170); (119173, 119179);
   (119210, 119213); (119362, 119364); (121344, 121398); (121403, 121452);
   (121461, 121461); (121476, 121476); (121499, 121503); (121505, 121519);
   (122880, 122886); (122888, 122904); (122907, 122913); (122915, 122916);
   (122918, 122922); (123184, 123197); (123566, 123566); (123628, 123631);
   (125136, 125142); (125252, 125259); (127995, 127999); (917505, 917505);
   (917536, 917631); (917760, 917999)]%N.
Definition in_table (c : N) (table : list (N * N)) : bool :=
  existsb (fun range => (fst range <=? c) && (c <=? snd range))%N table.

Definition cased (c : N) : bool := in_table c cased_table.

Definition case_ignorable (c : N) : bool := in_table c case_ignorable_table.

(** Lower-case form of a character on its own; capital I with dot above
    becomes two characters. *)
Definition lower_char (c : N) : list N :=
  if (c =? 304)%N then [105; 775]%N
  else
    match find (fun entry =>
                  match entry with
                  | (first, last, step, _) =>
                      (first <=? c) && (c <=? last)
                      && ((c - first) mod step =? 0)
                  end)%N lower_table with
    | Some (first, _, _, image) => [(image + (c - first))%N]
    | None => [c]
    end.

(** The first character of a list that is not case-ignorable. *)
Definition first_considered (l : list N) : option N :=
  find (fun c => negb (case_ignorable c)) l.

(** A capital sigma (931) that ends a word becomes the final sigma (962):
    the nearest considered character before it is cased and the nearest one
    after it, if any, is not. [before] lists the characters before the
    sigma, the nearest first. *)
Definition final_sigma (before after : list N) : bool :=
  match first_considered before with
  | Some previous =>
      cased previous
      && match first_considered after with
         | Some next => negb (cased next)
         | None => true
         end
  | None => false
  end.

Fixpoint lower_chars (before l : list N) : list N :=
  match l with
  | [] => []
  | c :: rest =>
      (if (c =? 931)%N
       then [if final_sigma before rest then 962%N else 963%N]
       else lower_char c)
      ++ lower_chars (c :: before) rest
  end.

(** [s.lower()] *)
Definition lower (s : string) : string :=
  encode (lower_chars [] (decode s)).

(** [a > b] on floats. *)
Definition gt (a b : Q) : bool := negb (Qle_bool a b).

End Py.

(** ** JSON values and dictionaries *)

#[warnings="-register-all"]
Inductive jval : Type :=
| JNull
| JBool (b : bool)
| JNum (q : Q)
| JStr (s : string)
| JArr (items : list jval)
| JObj (fields : list (string * jval)).

Abbreviation dict := (gmap string jval).

(** [d.get(key, default)] *)
Definition get (d : dict) (key : string) (dflt : jval) : jval :=
  match d !! key with
  | Some v => v
  | None => dflt
  end.

(** Truth value of a decoded JSON value. *)
Definition truthy (v : jval) : bool :=
  match v with
  | JNull => false
  | JBool b => b
  | JNum q => negb (Qeq_bool q 0)
  | JStr s => negb (String.eqb s "")
  | JArr items => match items with [] => false | _ => true end
  | JObj fields => match fields with [] => false | _ => true end
  end.

(** [v == tag] for a string [tag]. *)
Definition is_str (tag : string) (v : jval) : bool :=
  match v with
  | JStr s => String.eqb tag s
  | _ => false
  end.

(** [tag in v]: membership in a list, substring of a string, key of an
    object, [TypeError] ([None]) on anything else. *)
Definition py_in (tag : string) (v : jval) : option bool :=
  match v with
  | JArr items => Some (existsb (is_str tag) items)
  | JStr s => Some (Py.contains tag s)
  | JObj fields => Some (existsb (fun kv => String.eqb tag (fst kv)) fields)
  | _ => None
  end.

(** [any(tag in v for tag in tags)], the generator consumed left to right. *)
Fixpoint any_in (tags : list string) (v : jval) : option bool :=
  match tags with
  | [] => Some false
  | tag :: rest =>
      match py_in tag v with
      | None => None
      | Some true => Some true
      | Some false => any_in rest v
      end
  end.

(** ** Configuration ([src/config.py]) *)

Record Settings : Type := {
  min_similarity_threshold : Q;
  affiliate_link_frequency : Z
}.

Definition default_settings : Settings :=
  {| min_similarity_threshold := 7 # 10; affiliate_link_frequency := 5 |}.

(** ** Rows of the store ([src/models.py]) *)

Module ContentStatus.
Definition PENDING := "pending".
Definition PROCESSING := "processing".
Definition READY := "ready".
Definition PUBLISHED := "published".
Definition REJECTED := "rejected".
Definition ARCHIVED := "archived".
End ContentStatus.

Record RawContent : Type := {
  rc_id : string;
  rc_source_username : string;
  rc_text : string;
  rc_language : option string;
  rc_processed : bool
}.

Record ProcessedContent : Type := {
  pc_id : string;
  pc_raw_content_id : string;
  pc_summary : jval;
  pc_key_points : jval;
  pc_content_type : string;
  pc_priority : jval;
  pc_risk_level : string;
  pc_risk_tags : jval;
  pc_original_language : jval;
  pc_translated_text : option string;
  pc_paraphrased_text : option string;
  pc_headline_short : option string;
  pc_headline_long : option string;
  pc_author_note : option string;
  pc_tags : list string;
  pc_similarity_score : option Q;
  pc_similar_content_ids : jval;
  pc_status : string;
  pc_requires_hitl : bool
}.

Record PublishedPost : Type := {
  pp_processed_content_id : string;
  pp_platform : string;
  pp_external_post_id : string;
  pp_final_text : string;
  pp_final_images : list string;
  pp_headline_used : string;
  pp_tags_used : list string;
  pp_contains_affiliate : bool;
  pp_affiliate_link_id : option string;
  pp_published_at : Z
}.

(** What the JSON column [content_embedding] of a row holds: SQL [NULL]
    (the attribute was never set), the JSON value [null] (the attribute was
    set to [None]), or a list of floats. *)
Inductive embedding_column : Type :=
| SqlNull
| JsonNull
| Embedding (vector : list Q).

Record ContentArchive : Type := {
  ca_processed_content_id : string;
  ca_title : string;
  (** [None] is SQL [NULL] *)
  ca_content_text : option string;
  ca_content_embedding : embedding_column;
  ca_published_at : option Z;
  ca_platform : string;
  ca_engagement_score : option Q
}.

(** ** Risk level and the review gate ([content_processor.py]) *)

Module Gate.

(** [ContentProcessor._calculate_risk_level]; [None] is the [TypeError]
    of a membership test on a value that is no container. *)
Definition _calculate_risk_level (analysis : dict) : option string :=
  let risk_tags := get analysis "risk_tags" (JArr []) in
  match any_in ["hack"; "scam"; "exploit"] risk_tags with
  | None => None
  | Some true => Some "high"
  | Some false =>
      match any_in ["rumor"; "regulation"] risk_tags with
      | None => None
      | Some true => Some "medium"
      | Some false => Some "low"
      end
  end.

Definition sensitive_keywords : list string :=
  ["hack"; "scam"; "regulation"; "sec"; "lawsuit"].

(** Body of the [try] block of [_check_hitl_requirements]; [None] is a
    raised exception. *)
Definition check_hitl_body (settings : Settings) (processed : ProcessedContent)
  : option bool :=
  if String.eqb (pc_risk_level processed) "high" then Some true
  else
    match pc_similarity_score processed with
    | None => None
    | Some score =>
        if Py.gt score (min_similarity_threshold settings) then Some true
        else
          match pc_translated_text processed with
          | None => None
          | Some translated =>
              if existsb (fun keyword => Py.contains keyword (Py.lower translated))
                   sensitive_keywords
              then Some true
              else
                match pc_paraphrased_text processed with
                | None => Some true
                | Some paraphrased =>
                    if String.eqb paraphrased "" || (Py.len paraphrased <? 100)
                    then Some true
                    else Some false
                end
          end
    end.

(** [ContentProcessor._check_hitl_requirements]: an exception defaults to
    requiring review. The [analysis] argument is not read. *)
Definition _check_hitl_requirements (settings : Settings)
    (processed : ProcessedContent) (analysis : dict) : bool :=
  match check_hitl_body settings processed with
  | Some verdict => verdict
  | None => true
  end.

End Gate.

(** ** The relational store and the session *)

Record DB : Type := {
  raw_content : gmap string RawContent;
  processed_content : gmap string ProcessedContent;
  (** rows of [published_posts], the most recently inserted first *)
  published_posts : list PublishedPost;
  (** rows of [content_archive], in the order the store returns them *)
  content_archive : list ContentArchive
}.

(** A session: the committed store and the store as the open transaction
    sees it (flushed rows and modified attributes included). [failed] is
    set by a commit that raised and was not followed by [rollback]: until
    the session is rolled back, every statement on it raises. Of the
    services modelled here only the publishing service leaves its session
    in that state ([_publish_to_telegram] catches the exception of its
    commit and returns), and only it reads the mark. *)
Record Session : Type := {
  committed : DB;
  pending : DB;
  failed : bool
}.

Definition commit (s : Session) : Session :=
  {| committed := pending s; pending := pending s; failed := false |}.

Definition rollback (s : Session) : Session :=
  {| committed := committed s; pending := committed s; failed := false |}.

(** A [commit] that raises: nothing reaches the store and the transaction
    stays as it is, waiting for a [rollback]. *)
Definition commit_fails (s : Session) : Session :=
  {| committed := committed s; pending := pending s; failed := true |}.

Definition set_raw (key : string) (raw : RawContent) (db : DB) : DB :=
  {| raw_content := <[key := raw]> (raw_content db);
     processed_content := processed_content db;
     published_posts := published_posts db;
     content_archive := content_archive db |}.

Definition set_processed (p : ProcessedContent) (db : DB) : DB :=
  {| raw_content := raw_content db;
     processed_content := <[pc_id p := p]> (processed_content db);
     published_posts := published_posts db;
     content_archive := content_archive db |}.

Definition add_published (post : PublishedPost) (db : DB) : DB :=
  {| raw_content := raw_content db;
     processed_content := processed_content db;
     published_posts := post :: published_posts db;
     content_archive := content_archive db |}.

Definition add_archive (entry : ContentArchive) (db : DB) : DB :=
  {| raw_content := raw_content db;
     processed_content := processed_content db;
     published_posts := published_posts db;
     content_archive := content_archive db ++ [entry] |}.

Definition in_transaction (f : DB -> DB) (s : Session) : Session :=
  {| committed := committed s; pending := f (pending s); failed := failed s |}.

(** ** Redis and its wrapper ([src/utils/redis_client.py]) *)

Module Redis.

(** Field of a flat JSON object put on a queue: a string, or the ISO
    rendering of a timestamp. *)
Inductive dval : Type :=
| DStr (s : string)
| DTime (t : Z).

Definition doc : Type := list (string * dval).

(** A string held by Redis: the text [json.dumps(d)] of an object [d], or
    a text that is no JSON. *)
Inductive rstr : Type :=
| Dumps (d : doc)
| Plain (s : string).

(** A Python value coming out of the wrapper: a [str] or a [dict]. *)
Inductive pyobj : Type :=
| PyStr (s : rstr)
| PyDict (d : doc).

Inductive loads_result : Type :=
| Loaded (v : pyobj)
| JSONDecodeError
| TypeError.

(** [json.loads(v)]: only a [str] can be decoded. *)
Definition json_loads (v : pyobj) : loads_result :=
  match v with
  | PyStr (Dumps d) => Loaded (PyDict d)
  | PyStr (Plain _) => JSONDecodeError
  | PyDict _ => TypeError
  end.

Inductive rval : Type :=
| RString (s : rstr)
| RList (items : list rstr)
| RSet (members : list rstr).

Abbreviation keyspace := (gmap string rval).

(** Commands of the server; [None] is the [WRONGTYPE] error reply, which
    the client library raises as an exception. *)
Definition cmd_lpush (key : string) (item : rstr) (r : keyspace)
  : option keyspace :=
  match r !! key with
  | None => Some (<[key := RList [item]]> r)
  | Some (RList items) => Some (<[key := RList (item :: items)]> r)
  | Some _ => None
  end.

Definition cmd_smembers (key : string) (r : keyspace) : option (list rstr) :=
  match r !! key with
  | None => Some []
  | Some (RSet members) => Some members
  | Some _ => None
  end.

Definition dval_eqb (a b : dval) : bool :=
  match a, b with
  | DStr u, DStr v => String.eqb u v
  | DTime u, DTime v => Z.eqb u v
  | _, _ => false
  end.

Fixpoint doc_eqb (x y : doc) : bool :=
  match x, y with
  | [], [] => true
  | (k, u) :: x', (l, v) :: y' => String.eqb k l && dval_eqb u v && doc_eqb x' y'
  | _, _ => false
  end.

Definition rstr_eqb (a b : rstr) : bool :=
  match a, b with
  | Plain x, Plain y => String.eqb x y
  | Dumps x, Dumps y => doc_eqb x y
  | _, _ => false
  end.

(** [SREM key member]; the client sends a [str] as it is and a [dict] as
    its [str()] rendering, which is no member text. *)
Definition cmd_srem (key : string) (member : pyobj) (r : keyspace)
  : option keyspace :=
  match r !! key with
  | None => Some r
  | Some (RSet members) =>
      match member with
      | PyStr text =>
          let rest := List.filter (fun m => negb (rstr_eqb m text)) members in
          Some (match rest with
                | [] => delete key r
                | _ => <[key := RSet rest]> r
                end)
      | PyDict _ => Some r
      end
  | Some _ => None
  end.

(** [RedisClient.lpush]: a [dict] is serialised first; an exception is
    logged and turned into [False]. *)
Definition lpush (queue : string) (item : pyobj) (r : keyspace)
  : bool * keyspace :=
  let text := match item with PyDict d => Dumps d | PyStr s => s end in
  match cmd_lpush queue text r with
  | Some r' => (true, r')
  | None => (false, r)
  end.

(** [RedisClient.smembers]: every member that decodes as JSON is returned
    decoded; an exception is logged and turned into the empty list. *)
Definition smembers (name : string) (r : keyspace) : list pyobj :=
  match cmd_smembers name r with
  | Some members =>
      map (fun member =>
             match json_loads (PyStr member) with
             | Loaded v => v
             | _ => PyStr member
             end) members
  | None => []
  end.

End Redis.

(** ** The processing pipeline ([content_processor.py]) *)

Module Processor.

(** What [_call_openai] and the decoding of its answer give: [None], a
    text that is no JSON (the empty text among them), or a text that
    decodes to an object. *)
Inductive llm_reply : Type :=
| NoReply
| NotJson (raw : string)
| JsonObject (d : dict).

(** Outcomes of the collaborators for one item. *)
Record Env : Type := {
  cached_analysis : option dict;
  llm_analysis : llm_reply;
  translator_result : option dict;
  similarity_checker_result : option dict;
  cached_paraphrase : option dict;
  llm_paraphrase : llm_reply;
  new_id : string;
  utcnow : Z;
  query_raises : bool;
  flush_raises : bool;
  commit_raises : bool
}.

Definition nonempty (d : dict) : bool := negb (bool_decide (d = ∅)).

Definition has_key (d : dict) (key : string) : bool :=
  match d !! key with Some _ => true | None => false end.

Definition required_fields : list string :=
  ["summary_2"; "key_points"; "risk_tags"; "priority"; "language"].

(** [ContentProcessor._analyze_content] *)
Definition _analyze_content (env : Env) (raw_content : RawContent)
  : option dict :=
  match cached_analysis env with
  | Some cached_result =>
      if nonempty cached_result then Some cached_result
      else
        match llm_analysis env with
        | NoReply => None
        | NotJson _ => None
        | JsonObject result =>
            if forallb (has_key result) required_fields then Some result
            else None
        end
  | None =>
      match llm_analysis env with
      | NoReply => None
      | NotJson _ => None
      | JsonObject result =>
          if forallb (has_key result) required_fields then Some result
          else None
      end
  end.

Definition opt_str (o : option string) : jval :=
  match o with Some s => JStr s | None => JNull end.

(** [ContentProcessor._translate_content] *)
Definition _translate_content (env : Env) (raw_content : RawContent)
    (analysis : dict) : dict :=
  let detected_lang := get analysis "language" (opt_str (rc_language raw_content)) in
  if is_str "ru" detected_lang || is_str "russian" detected_lang then
    {[ "original_language" := detected_lang;
       "translated_text" := JStr (rc_text raw_content);
       "human_translation" := JStr (rc_text raw_content);
       "summary" := get analysis "summary_2" (JStr "");
       "glossary" := JArr [] ]}
  else
    match translator_result env with
    | Some translation_result => translation_result
    | None =>
        {[ "original_language" :=
             JStr (match rc_language raw_content with
                   | Some l => if String.eqb l "" then "unknown" else l
                   | None => "unknown"
                   end);
           "translated_text" := JStr (rc_text raw_content);
           "human_translation" := JStr (rc_text raw_content);
           "summary" := JStr "";
           "glossary" := JArr [] ]}
    end.

(** [ContentProcessor._check_similarity] *)
Definition _check_similarity (env : Env) (raw_content : RawContent)
    (translation : dict) : dict :=
  match similarity_checker_result env with
  | Some similarity_result => similarity_result
  | None =>
      {[ "similarity_score" := JNum 0;
         "similar_content_ids" := JArr [];
         "is_duplicate" := JBool false ]}
  end.

(** [ContentProcessor._paraphrase_content]; [if not response] is true of
    [None] and of the empty text. *)
Definition _paraphrase_content (env : Env) : dict :=
  let call :=
    match llm_paraphrase env with
    | NoReply => ∅
    | JsonObject result => result
    | NotJson response =>
        if String.eqb response "" then ∅
        else
          {[ "headline_short" := JStr "";
             "headline_long" := JStr "";
             "body" := JStr response;
             "author_note" := JStr "";
             "tags" := JArr [];
             "plagiarism_check_hint" := JStr "" ]}
    end in
  match cached_paraphrase env with
  | Some cached_result => if nonempty cached_result then cached_result else call
  | None => call
  end.

(** [ContentProcessor._classify_content_type] *)
Definition _classify_content_type (analysis : dict) (text : string)
  : option string :=
  let risk_tags := get analysis "risk_tags" (JArr []) in
  match py_in "hack" risk_tags with
  | None => None
  | Some true => Some "hack"
  | Some false =>
      match py_in "regulation" risk_tags with
      | None => None
      | Some true => Some "regulatory"
      | Some false =>
          match py_in "rumor" risk_tags with
          | None => None
          | Some true => Some "leak"
          | Some false =>
              if existsb (fun word => Py.contains word (Py.lower text))
                   ["analysis"; "technical"; "whitepaper"]
              then Some "technical"
              else if existsb (fun word => Py.contains word (Py.lower text))
                        ["price"; "market"; "trading"]
              then Some "analysis"
              else Some "news"
          end
      end
  end.

(** Values a column of the store accepts; [None] is a value the store
    refuses when the row is flushed. *)
Definition as_text (v : jval) : option (option string) :=
  match v with
  | JNull => Some None
  | JStr s => Some (Some s)
  | _ => None
  end.

Definition as_float (v : jval) : option (option Q) :=
  match v with
  | JNull => Some None
  | JNum q => Some (Some q)
  | _ => None
  end.

Fixpoint as_strings (items : list jval) : option (list string) :=
  match items with
  | [] => Some []
  | JStr s :: rest =>
      match as_strings rest with
      | Some l => Some (s :: l)
      | None => None
      end
  | _ => None
  end.

Definition as_tags (v : jval) : option (list string) :=
  match v with
  | JNull => Some []
  | JArr items => as_strings items
  | _ => None
  end.

(** [ContentProcessor._create_processed_content]: builds the row, adds it
    to the session and flushes; [None] is the exception it re-raises. The
    column defaults ([status], [requires_hitl]) are those of the model. *)
Definition _create_processed_content (env : Env) (raw_content : RawContent)
    (analysis translation similarity paraphrase : dict) (s : Session)
  : option (ProcessedContent * Session) :=
  content_type ← _classify_content_type analysis (rc_text raw_content);
  risk_level ← Gate._calculate_risk_level analysis;
  translated_text ←
    as_text (get translation "human_translation" (JStr (rc_text raw_content)));
  paraphrased_text ← as_text (get paraphrase "body" (JStr ""));
  headline_short ← as_text (get paraphrase "headline_short" (JStr ""));
  headline_long ← as_text (get paraphrase "headline_long" (JStr ""));
  author_note ← as_text (get paraphrase "author_note" (JStr ""));
  tags ← as_tags (get paraphrase "tags" (JArr []));
  similarity_score ← as_float (get similarity "similarity_score" (JNum 0));
  let processed :=
    {| pc_id := new_id env;
       pc_raw_content_id := rc_id raw_content;
       pc_summary := get analysis "summary_2" (JStr "");
       pc_key_points := get analysis "key_points" (JArr []);
       pc_content_type := content_type;
       pc_priority := get analysis "priority" (JStr "medium");
       pc_risk_level := risk_level;
       pc_risk_tags := get analysis "risk_tags" (JArr []);
       pc_original_language := get translation "original_language" (JStr "unknown");
       pc_translated_text := translated_text;
       pc_paraphrased_text := paraphrased_text;
       pc_headline_short := headline_short;
       pc_headline_long := headline_long;
       pc_author_note := author_note;
       pc_tags := tags;
       pc_similarity_score := similarity_score;
       pc_similar_content_ids := get similarity "similar_content_ids" (JArr []);
       pc_status := ContentStatus.PENDING;
       pc_requires_hitl := false |} in
  if flush_raises env || bool_decide (is_Some (processed_content (pending s) !! new_id env))
  then None
  else Some (processed, in_transaction (set_processed processed) s).

(** [ContentProcessor._queue_for_publishing]; a failed push is logged. *)
Definition _queue_for_publishing (content_id : string) (now : Z)
    (r : Redis.keyspace) : Redis.keyspace :=
  snd (Redis.lpush "content_publishing_queue"
         (Redis.PyStr (Redis.Dumps [("content_id", Redis.DStr content_id);
                                    ("timestamp", Redis.DTime now)])) r).

Definition with_gate (requires_hitl : bool) (p : ProcessedContent)
  : ProcessedContent :=
  {| pc_id := pc_id p;
     pc_raw_content_id := pc_raw_content_id p;
     pc_summary := pc_summary p;
     pc_key_points := pc_key_points p;
     pc_content_type := pc_content_type p;
     pc_priority := pc_priority p;
     pc_risk_level := pc_risk_level p;
     pc_risk_tags := pc_risk_tags p;
     pc_original_language := pc_original_language p;
     pc_translated_text := pc_translated_text p;
     pc_paraphrased_text := pc_paraphrased_text p;
     pc_headline_short := pc_headline_short p;
     pc_headline_long := pc_headline_long p;
     pc_author_note := pc_author_note p;
     pc_tags := pc_tags p;
     pc_similarity_score := pc_similarity_score p;
     pc_similar_content_ids := pc_similar_content_ids p;
     pc_status := if requires_hitl then ContentStatus.PENDING
                  else ContentStatus.READY;
     pc_requires_hitl := requires_hitl |}.

Definition mark_processed (raw : RawContent) : RawContent :=
  {| rc_id := rc_id raw;
     rc_source_username := rc_source_username raw;
     rc_text := rc_text raw;
     rc_language := rc_language raw;
     rc_processed := true |}.

(** How a call of [process_single_content] ended. *)
Inductive outcome : Type :=
| NotFound
| AlreadyProcessed
| AnalysisFailed
| Raised
| Processed (processed_id : string) (requires_hitl : bool).

(** [ContentProcessor.process_single_content] *)
Definition process_single_content (settings : Settings) (env : Env)
    (content_id : string) (s : Session) (r : Redis.keyspace)
  : outcome * Session * Redis.keyspace :=
  if query_raises env then (Raised, rollback s, r)
  else
    match raw_content (pending s) !! content_id with
    | None => (NotFound, s, r)
    | Some raw =>
        if rc_processed raw then (AlreadyProcessed, s, r)
        else
          match _analyze_content env raw with
          | None => (AnalysisFailed, s, r)
          | Some analysis_result =>
              if negb (nonempty analysis_result) then (AnalysisFailed, s, r)
              else
                let translation_result := _translate_content env raw analysis_result in
                let similarity_result := _check_similarity env raw translation_result in
                let paraphrase_result := _paraphrase_content env in
                match _create_processed_content env raw analysis_result
                        translation_result similarity_result paraphrase_result s with
                | None => (Raised, rollback s, r)
                | Some (processed_content, s1) =>
                    let requires_hitl :=
                      Gate._check_hitl_requirements settings processed_content
                        analysis_result in
                    let s2 :=
                      in_transaction
                        (fun db => set_raw content_id (mark_processed raw)
                                     (set_processed
                                        (with_gate requires_hitl processed_content) db))
                        s1 in
                    if commit_raises env then (Raised, rollback s2, r)
                    else
                      let s3 := commit s2 in
                      let r' :=
                        if requires_hitl then r
                        else _queue_for_publishing (pc_id processed_content)
                               (utcnow env) r in
                      (Processed (pc_id processed_content) requires_hitl, s3, r')
                end
          end
    end.

End Processor.

(** ** The similarity checker ([src/utils/similarity.py]) *)

Module Similarity.

Record SimilarItem : Type := {
  si_content_id : string;
  si_similarity : Q;
  si_title : string;
  si_published_at : option Z;
  si_platform : string;
  si_engagement_score : Q;
  si_snippet : string
}.

(** Names bound at module level in [similarity.py] (imports, the logger,
    the class and the helper functions). *)
Definition module_globals : list string :=
  ["logging"; "json"; "np"; "Dict"; "List"; "Optional"; "Any"; "Tuple";
   "SentenceTransformer"; "cosine_similarity"; "openai"; "settings";
   "llm_config"; "SessionLocal"; "ContentArchive"; "RedisClient"; "logger";
   "SimilarityChecker"; "archive_published_content";
   "check_content_similarity"].

(** Resolution of a global name; an unbound name raises [NameError]. *)
Definition global_defined (name : string) : bool :=
  existsb (String.eqb name) module_globals.

(** Order of two items in a list sorted by decreasing similarity. *)
Definition by_similarity (a b : SimilarItem) : Prop :=
  (si_similarity b <= si_similarity a)%Q.

(** Stable sort by decreasing similarity
    ([sort(key=..., reverse=True)]). *)
Fixpoint insert_desc (x : SimilarItem) (l : list SimilarItem)
  : list SimilarItem :=
  match l with
  | [] => [x]
  | y :: rest =>
      if Py.gt (si_similarity y) (si_similarity x) then y :: insert_desc x rest
      else x :: l
  end.

Definition sort_desc (l : list SimilarItem) : list SimilarItem :=
  fold_right insert_desc [] l.

(** [max(...)] over a non-empty sequence; [0] stands for the
    [ValueError] on an empty one, which the caller excludes. *)
Definition py_max (l : list Q) : Q :=
  match l with
  | [] => 0%Q
  | x :: rest => fold_left (fun m y => if Py.gt y m then y else m) rest x
  end.

Definition snippet (content_text : string) : string :=
  if (200 <? Py.len content_text)
  then Py.slice_to 200 content_text ++ "..."
  else content_text.

Definition item_json (item : SimilarItem) : jval :=
  JObj [("content_id", JStr (si_content_id item));
        ("similarity", JNum (si_similarity item));
        ("title", JStr (si_title item));
        ("published_at",
         match si_published_at item with
         | Some t => JNum (inject_Z t)
         | None => JStr ""
         end);
        ("platform", JStr (si_platform item));
        ("engagement_score", JNum (si_engagement_score item));
        ("snippet", JStr (si_snippet item))].

(** [SimilarityChecker._default_similarity_result] *)
Definition _default_similarity_result : dict :=
  {[ "similarity_score" := JNum 0;
     "similar_content_ids" := JArr [];
     "similar_content_details" := JArr [];
     "is_duplicate" := JBool false;
     "embedding" := JNull ]}.

Section Checker.

(** [_get_embedding]: the embedding model ([None] when it fails). *)
Variable _get_embedding : string -> option (list Q).

(** [sklearn]'s [cosine_similarity] on two row vectors ([None] when it
    raises, as on vectors of different dimensions). *)
Variable cosine_similarity : list Q -> list Q -> option Q.

(** The loop of [_find_similar_content] over the rows read. A row is
    left out when its [try] block raises: [cosine_similarity] on a value
    that is no vector (the column holds [null]) or on vectors that do not
    fit, and [len] on a text that is [NULL], which is evaluated for a row
    above 0.3 only. *)
Fixpoint scan (embedding : list Q) (archive_entries : list ContentArchive)
  : list SimilarItem :=
  match archive_entries with
  | [] => []
  | entry :: rest =>
      match ca_content_embedding entry with
      | Embedding stored_embedding =>
          match cosine_similarity embedding stored_embedding with
          | None => scan embedding rest
          | Some similarity =>
              if Py.gt similarity (3 # 10) then
                match ca_content_text entry with
                | Some content_text =>
                    {| si_content_id := ca_processed_content_id entry;
                       si_similarity := similarity;
                       si_title := ca_title entry;
                       si_published_at := ca_published_at entry;
                       si_platform := ca_platform entry;
                       si_engagement_score :=
                         match ca_engagement_score entry with
                         | Some e => e
                         | None => 0%Q
                         end;
                       si_snippet := snippet content_text |}
                    :: scan embedding rest
                | None => scan embedding rest
                end
              else scan embedding rest
          end
      | _ => scan embedding rest
      end
  end.

(** [content_embedding IS NOT NULL]: true of every row whose column is
    not SQL [NULL], the JSON value [null] included. *)
Definition embedding_is_not_null (entry : ContentArchive) : bool :=
  match ca_content_embedding entry with
  | SqlNull => false
  | _ => true
  end.

(** The query of [_find_similar_content]: the rows that pass the filter,
    at most 1000 of them. *)
Definition archive_query (archive : list ContentArchive)
  : list ContentArchive :=
  firstn 1000 (List.filter embedding_is_not_null archive).

(** [SimilarityChecker._find_similar_content] *)
Definition _find_similar_content (query_raises : bool)
    (archive : list ContentArchive) (embedding : list Q) (text : string)
    (limit : nat) : list SimilarItem :=
  if query_raises then []
  else
    match archive_query archive with
    | [] => []
    | archive_entries => firstn limit (sort_desc (scan embedding archive_entries))
    end.

(** [SimilarityChecker.check_similarity]; [cached] is what
    [get_cached_similarity] returns. *)
Definition check_similarity (settings : Settings) (cached : option dict)
    (query_raises : bool) (archive : list ContentArchive)
    (text content_id : string) : dict :=
  let compute :=
    match _get_embedding text with
    | None => _default_similarity_result
    | Some embedding =>
        let similar_content :=
          _find_similar_content query_raises archive embedding text 10 in
        let max_similarity :=
          match similar_content with
          | [] => 0%Q
          | _ => py_max (map si_similarity similar_content)
          end in
        {[ "similarity_score" := JNum max_similarity;
           "similar_content_ids" :=
             JArr (map (fun item => JStr (si_content_id item)) similar_content);
           "similar_content_details" := JArr (map item_json similar_content);
           "is_duplicate" :=
             JBool (Py.gt max_similarity (min_similarity_threshold settings));
           "embedding" := JArr (map JNum embedding) ]}
    end in
  match cached with
  | Some cached_result =>
      if negb (bool_decide (cached_result = ∅)) then cached_result else compute
  | None => compute
  end.

(** [SimilarityChecker.add_to_archive]. Building the row evaluates
    [datetime.utcnow()], and [datetime] is not bound in this module: the
    [NameError] is caught, the session rolled back and [False]
    returned. *)
Definition add_to_archive (utcnow : Z) (processed_content_id title
    content_text platform : string) (s : Session) : bool * Session :=
  match _get_embedding content_text with
  | None => (false, s)
  | Some embedding =>
      if global_defined "datetime" then
        let archive_entry :=
          {| ca_processed_content_id := processed_content_id;
             ca_title := title;
             ca_content_text := Some content_text;
             ca_content_embedding := Embedding embedding;
             ca_published_at := Some utcnow;
             ca_platform := platform;
             ca_engagement_score := Some 0%Q |} in
        (true, commit (in_transaction (add_archive archive_entry) s))
      else (false, rollback s)
  end.

End Checker.

(** Cosine similarity of two vectors of Euclidean norm one: the
    normalisation divides by one and the result is the dot product. Used
    to run the checker on unit vectors. *)
Fixpoint dot (a b : list Q) : option Q :=
  match a, b with
  | [], [] => Some 0%Q
  | x :: a', y :: b' =>
      match dot a' b' with
      | Some d => Some (x * y + d)%Q
      | None => None
      end
  | _, _ => None
  end.

(** Every row of the first table has a row with the same embedding and the
    same text in the second. *)
Definition covered (rows rows' : list ContentArchive) : Prop :=
  forall entry, In entry rows ->
    exists entry', In entry' rows'
                   /\ ca_content_embedding entry' = ca_content_embedding entry
                   /\ ca_content_text entry' = ca_content_text entry.

End Similarity.

(** ** The publishing service ([src/publishing/publisher.py]) *)

Module Publisher.

Record AffiliateLink : Type := {
  link_name : string;
  link_url : string;
  link_text : string;
  link_weight : Q
}.

(** [AffiliateConfig] of [src/config.py]. *)
Record AffiliateConfig : Type := {
  AFFILIATE_LINKS : list AffiliateLink;
  DISCLOSURE_TEXT : string
}.

Definition affiliate_config : AffiliateConfig :=
  {| AFFILIATE_LINKS :=
       [ {| link_name := "Binance";
            link_url := "https://accounts.binance.com/register?ref=YOUR_REF";
            link_text := "Если хотите быстрее заходить на биржу — используйте партнёрскую ссылку";
            link_weight := 4 # 10 |};
         {| link_name := "ByBit";
            link_url := "https://www.bybit.com/register?affiliate_id=YOUR_ID";
            link_text := "Для торговли с бонусами — партнёрская ссылка в описании";
            link_weight := 3 # 10 |};
         {| link_name := "OKX";
            link_url := "https://www.okx.com/join/YOUR_CODE";
            link_text := "Хотите попробовать другую биржу? Ссылка с бонусом";
            link_weight := 3 # 10 |} ];
     DISCLOSURE_TEXT := "содержит партнёрскую ссылку" |}.

(** [timedelta(hours=24)] in microseconds. *)
Definition hours_24 : Z := 24 * 3600 * 1000000.

(** [order_by(PublishedPost.published_at.desc())], ties in table order. *)
Fixpoint insert_desc (p : PublishedPost) (l : list PublishedPost)
  : list PublishedPost :=
  match l with
  | [] => [p]
  | q :: rest =>
      if pp_published_at p <? pp_published_at q then q :: insert_desc p rest
      else p :: l
  end.

Definition order_by_published_at_desc (l : list PublishedPost)
  : list PublishedPost :=
  fold_right insert_desc [] l.

(** The query of [_should_add_affiliate_link]; [None] is the error of the
    store on a negative [LIMIT]. *)
Definition recent_posts_query (now frequency : Z) (posts : list PublishedPost)
  : option (list PublishedPost) :=
  if frequency <? 0 then None
  else
    Some (firstn (Z.to_nat frequency)
            (order_by_published_at_desc
               (List.filter (fun post => now - hours_24 <=? pp_published_at post)
                  posts))).

(** [sum(link["weight"] for link in AFFILIATE_LINKS)] *)
Definition total_weight (links : list AffiliateLink) : Q :=
  fold_left (fun acc link => (acc + link_weight link)%Q) links 0%Q.

(** The weighted choice: the first link whose cumulated weight reaches
    [random_value]. *)
Fixpoint choose_link (links : list AffiliateLink)
    (random_value current_weight : Q) : option AffiliateLink :=
  match links with
  | [] => None
  | link :: rest =>
      let current_weight := (current_weight + link_weight link)%Q in
      if Qle_bool random_value current_weight then Some link
      else choose_link rest random_value current_weight
  end.

(** The condition of the [if] of [_should_add_affiliate_link]; the
    remainder is only evaluated when some recent post carries a link,
    which needs a positive frequency. *)
Definition affiliate_due (frequency : Z) (recent_posts : list PublishedPost)
  : bool :=
  let affiliate_posts := List.filter pp_contains_affiliate recent_posts in
  (length affiliate_posts =? 0)%nat
  || (Z.of_nat (length recent_posts) mod frequency =? 0).

(** [PublishingService._should_add_affiliate_link]; [random_value] is the
    draw of [random.uniform(0, total_weight)]. *)
Definition _should_add_affiliate_link (settings : Settings)
    (config : AffiliateConfig) (query_raises : bool) (now : Z)
    (random_value : Q) (db : DB) : option AffiliateLink :=
  if query_raises then None
  else
    match recent_posts_query now (affiliate_link_frequency settings)
            (published_posts db) with
    | None => None
    | Some recent_posts =>
        if affiliate_due (affiliate_link_frequency settings) recent_posts
        then choose_link (AFFILIATE_LINKS config) random_value 0%Q
        else None
    end.

Definition nl : string := String (ascii_of_nat 10) EmptyString.

(** [a or b] on optional strings. *)
Definition str_or (a b : option string) : option string :=
  match a with
  | Some x => if String.eqb x "" then b else a
  | None => b
  end.

Definition default_headline : string := "Новости криптовалют".

Record FinalContent : Type := {
  fc_headline : string;
  fc_text : option string;
  fc_contains_affiliate : bool;
  fc_affiliate_link_id : option string
}.

(** [text += suffix]; [None] is the [TypeError] on a missing text. *)
Definition append (text : option string) (suffix : string) : option (option string) :=
  match text with
  | Some t => Some (Some (t ++ suffix))
  | None => None
  end.

Definition hashtags (tags : list string) : string :=
  String.concat " " (map (fun tag => "#" ++ tag) (firstn 3 tags)).

(** Body of the [try] block of [_prepare_final_content]. *)
Definition prepare_final_content_body (config : AffiliateConfig)
    (processed_content : ProcessedContent) (affiliate_info : option AffiliateLink)
  : option FinalContent :=
  let headline :=
    match str_or (str_or (pc_headline_short processed_content)
                         (pc_headline_long processed_content))
                 (Some default_headline) with
    | Some h => h
    | None => default_headline
    end in
  let main_text := str_or (pc_paraphrased_text processed_content)
                          (pc_translated_text processed_content) in
  main_text ←
    match str_or (pc_author_note processed_content) None with
    | Some note => append main_text (nl ++ nl ++ "💬 " ++ note)
    | None => Some main_text
    end;
  main_text ←
    match affiliate_info with
    | Some link =>
        t ← append main_text (nl ++ nl ++ link_text link);
        append t (nl ++ nl ++ "⚠️ " ++ DISCLOSURE_TEXT config)
    | None => Some main_text
    end;
  main_text ←
    match pc_tags processed_content with
    | [] => Some main_text
    | tags => append main_text (nl ++ nl ++ hashtags tags)
    end;
  Some {| fc_headline := headline;
          fc_text := main_text;
          fc_contains_affiliate :=
            match affiliate_info with Some _ => true | None => false end;
          fc_affiliate_link_id :=
            match affiliate_info with
            | Some link => Some (link_name link)
            | None => None
            end |}.

(** [PublishingService._prepare_final_content] *)
Definition _prepare_final_content (config : AffiliateConfig)
    (processed_content : ProcessedContent) (affiliate_info : option AffiliateLink)
  : FinalContent :=
  match prepare_final_content_body config processed_content affiliate_info with
  | Some final_content => final_content
  | None =>
      {| fc_headline := default_headline;
         fc_text :=
           match str_or (pc_translated_text processed_content)
                        (Some "Контент недоступен") with
           | Some t => Some t
           | None => Some "Контент недоступен"
           end;
         fc_contains_affiliate := false;
         fc_affiliate_link_id := None |}
  end.

(** What reached the Telegram channel. *)
Inductive sent_message : Type :=
| SentPhoto (image_url caption : string)
| SentText (text : string).

(** Outcomes of the collaborators for one call of [publish_content]. *)
Record Env : Type := {
  utcnow : Z;
  random_value : Q;
  (** result of [_prepare_images] *)
  image_urls : list string;
  (** [self.telegram_bot] is set *)
  bot_initialized : bool;
  (** message id of [send_photo], [None] when the download or the send
      fails *)
  photo_message_id : option string;
  (** message id of [send_message], [None] when it raises *)
  text_message_id : option string;
  query_raises : bool;
  recent_query_raises : bool;
  post_commit_raises : bool;
  status_commit_raises : bool
}.

Definition render (text : option string) : string :=
  match text with Some t => t | None => "None" end.

Definition message_text_of (final_content : FinalContent) : string :=
  let message_text :=
    "**" ++ fc_headline final_content ++ "**" ++ nl ++ nl
    ++ render (fc_text final_content) in
  if 4096 <? Py.len message_text
  then Py.slice_to 4093 message_text ++ "..."
  else message_text.

(** [PublishingService._publish_to_telegram]. A commit that raises is
    caught and [False] returned without [rollback]: nothing of the
    transaction is in the store and the session is left failed. *)
Definition _publish_to_telegram (settings : Settings) (env : Env)
    (processed_content : ProcessedContent) (final_content : FinalContent)
    (image_urls : list string) (s : Session) (channel : list sent_message)
  : bool * Session * list sent_message :=
  if negb (bot_initialized env) then (false, s, channel)
  else
    let message_text := message_text_of final_content in
    let '(message_id, channel) :=
      match image_urls with
      | image_url :: _ =>
          match photo_message_id env with
          | Some id => (Some id, SentPhoto image_url message_text :: channel)
          | None => (None, channel)
          end
      | [] => (None, channel)
      end in
    let sent :=
      match message_id with
      | Some id => Some (id, channel)
      | None =>
          match text_message_id env with
          | Some id => Some (id, SentText message_text :: channel)
          | None => None
          end
      end in
    match sent with
    | None => (false, s, channel)
    | Some (message_id, channel) =>
        let published_post :=
          {| pp_processed_content_id := pc_id processed_content;
             pp_platform := "telegram";
             pp_external_post_id := message_id;
             pp_final_text := render (fc_text final_content);
             pp_final_images := image_urls;
             pp_headline_used := fc_headline final_content;
             pp_tags_used := pc_tags processed_content;
             pp_contains_affiliate := fc_contains_affiliate final_content;
             pp_affiliate_link_id := fc_affiliate_link_id final_content;
             pp_published_at := utcnow env |} in
        let s := in_transaction (add_published published_post) s in
        if post_commit_raises env then (false, commit_fails s, channel)
        else (true, commit s, channel)
    end.

Definition with_status (status : string) (p : ProcessedContent)
  : ProcessedContent :=
  {| pc_id := pc_id p;
     pc_raw_content_id := pc_raw_content_id p;
     pc_summary := pc_summary p;
     pc_key_points := pc_key_points p;
     pc_content_type := pc_content_type p;
     pc_priority := pc_priority p;
     pc_risk_level := pc_risk_level p;
     pc_risk_tags := pc_risk_tags p;
     pc_original_language := pc_original_language p;
     pc_translated_text := pc_translated_text p;
     pc_paraphrased_text := pc_paraphrased_text p;
     pc_headline_short := pc_headline_short p;
     pc_headline_long := pc_headline_long p;
     pc_author_note := pc_author_note p;
     pc_tags := pc_tags p;
     pc_similarity_score := pc_similarity_score p;
     pc_similar_content_ids := pc_similar_content_ids p;
     pc_status := status;
     pc_requires_hitl := pc_requires_hitl p |}.

(** [query(PublishedPost).filter(processed_content_id == id).first()] *)
Definition existing_post (processed_content_id : string) (db : DB)
  : option PublishedPost :=
  find (fun post => String.eqb (pp_processed_content_id post) processed_content_id)
    (published_posts db).

(** [PublishingService.publish_content]: the returned boolean, the
    session and the channel afterwards. The first query raises when the
    store fails or when the session is still in a failed transaction. *)
Definition publish_content (settings : Settings) (config : AffiliateConfig)
    (env : Env) (processed_content_id : string) (s : Session)
    (channel : list sent_message) : bool * Session * list sent_message :=
  if query_raises env || failed s then (false, rollback s, channel)
  else
    match processed_content (pending s) !! processed_content_id with
    | None => (false, s, channel)
    | Some processed_content =>
        if negb (String.eqb (pc_status processed_content) ContentStatus.READY)
        then (false, s, channel)
        else
          match existing_post processed_content_id (pending s) with
          | Some _ => (true, s, channel)
          | None =>
              let affiliate_info :=
                _should_add_affiliate_link settings config (recent_query_raises env)
                  (utcnow env)
                  (random_value env) (pending s) in
              let final_content :=
                _prepare_final_content config processed_content affiliate_info in
              let image_urls := image_urls env in
              let '(success, s, channel) :=
                _publish_to_telegram settings env processed_content final_content
                  image_urls s channel in
              if success then
                let s :=
                  in_transaction
                    (set_processed
                       (with_status ContentStatus.PUBLISHED processed_content)) s in
                if status_commit_raises env then (false, rollback s, channel)
                else (true, commit s, channel)
              else (false, s, channel)
          end
    end.

(** [PublishingService.schedule_post] *)
Definition schedule_post (now : Z) (processed_content_id : string)
    (publish_at : Z) (r : Redis.keyspace) : bool * Redis.keyspace :=
  (true,
   snd (Redis.lpush "scheduled_posts_queue"
          (Redis.PyStr
             (Redis.Dumps [("content_id", Redis.DStr processed_content_id);
                           ("publish_at", Redis.DTime publish_at);
                           ("scheduled_at", Redis.DTime now)])) r)).

(** [post_info[key]] *)
Fixpoint item (post_info : Redis.doc) (key : string) : option Redis.dval :=
  match post_info with
  | [] => None
  | (k, v) :: rest => if String.eqb k key then Some v else item rest key
  end.

(** Methods the class [RedisClient] defines; calling any other attribute
    raises [AttributeError]. *)
Definition redis_client_methods : list string :=
  ["set"; "get"; "delete"; "exists"; "lpush"; "rpop"; "brpop"; "llen";
   "hset"; "hget"; "hgetall"; "sadd"; "sismember"; "smembers";
   "cache_content_similarity"; "get_cached_similarity"; "cache_llm_response";
   "get_cached_llm_response"; "rate_limit_check"; "close"].

Definition has_method (name : string) : bool :=
  existsb (String.eqb name) redis_client_methods.

(** Body of the loop of [process_scheduled_posts] for one member; [None]
    is the exception that the loop logs before going on. *)
Definition scheduled_post_body (current_time : Z) (post_data : Redis.pyobj)
    (r : Redis.keyspace) : option Redis.keyspace :=
  match Redis.json_loads post_data with
  | Redis.Loaded (Redis.PyDict post_info) =>
      match item post_info "publish_at" with
      | Some (Redis.DTime publish_time) =>
          if publish_time <=? current_time then
            if has_method "srem" then
              match Redis.cmd_srem "scheduled_posts_queue" post_data r with
              | None => None
              | Some r =>
                  match item post_info "content_id" with
                  | None => None
                  | Some content_id =>
                      Some (snd (Redis.lpush "content_publishing_queue"
                                   (Redis.PyStr
                                      (Redis.Dumps [("content_id", content_id);
                                                    ("timestamp",
                                                     Redis.DTime current_time)]))
                                   r))
                  end
              end
            else None
          else Some r
      | _ => None
      end
  | _ => None
  end.

(** [PublishingService.process_scheduled_posts] *)
Definition process_scheduled_posts (current_time : Z) (r : Redis.keyspace)
  : Redis.keyspace :=
  fold_left
    (fun r post_data =>
       match scheduled_post_body current_time post_data r with
       | Some r' => r'
       | None => r
       end)
    (Redis.smembers "scheduled_posts_queue" r) r.

(** *** A run of publishes, as the affiliate rule sees it

    One publish at time [now] with draw [random_value]: the rule is
    evaluated on the store, then the post is recorded with the flag the
    rule gave, as [_prepare_final_content] and [_publish_to_telegram] do
    for a send that succeeds. *)
Definition affiliate_flag (affiliate_info : option AffiliateLink) : bool :=
  match affiliate_info with Some _ => true | None => false end.

Definition record_publish (settings : Settings) (config : AffiliateConfig)
    (now : Z) (random_value : Q) (db : DB) : bool * DB :=
  let affiliate_info :=
    _should_add_affiliate_link settings config false now random_value db in
  (affiliate_flag affiliate_info,
   add_published
     {| pp_processed_content_id := "";
        pp_platform := "telegram";
        pp_external_post_id := "";
        pp_final_text := "";
        pp_final_images := [];
        pp_headline_used := "";
        pp_tags_used := [];
        pp_contains_affiliate := affiliate_flag affiliate_info;
        pp_affiliate_link_id :=
          match affiliate_info with
          | Some link => Some (link_name link)
          | None => None
          end;
        pp_published_at := now |} db).

(** The flags of a run of publishes at the given times and draws, and the
    store afterwards. *)
Fixpoint run (settings : Settings) (config : AffiliateConfig)
    (publishes : list (Z * Q)) (db : DB) : list bool * DB :=
  match publishes with
  | [] => ([], db)
  | (now, random_value) :: rest =>
      let '(flag, db) := record_publish settings config now random_value db in
      let '(flags, db) := run settings config rest db in
      (flag :: flags, db)
  end.

(** Order of the rows of [published_posts] in a store that lists the most
    recent post first. *)
Definition newest_first (p q : PublishedPost) : Prop :=
  pp_published_at q <= pp_published_at p.

Definition count_affiliate (flags : list bool) : nat :=
  length (List.filter (fun flag => flag) flags).

(** Closed form of the flag of publish number [k] (from 0) of a run that
    starts on an empty history and stays within 24 hours: the first
    publish, and every publish once the window of [frequency] posts is
    full. *)
Definition expected_flag (frequency : Z) (k : nat) : bool :=
  (k =? 0)%nat || (frequency <=? Z.of_nat k).

(** Consecutive calls of [publish_content], as the queue loop makes them. *)
Fixpoint publish_all (settings : Settings) (config : AffiliateConfig)
    (calls : list (Env * string)) (s : Session) (channel : list sent_message)
  : Session * list sent_message :=
  match calls with
  | [] => (s, channel)
  | (env, processed_content_id) :: rest =>
      let '(_, s, channel) :=
        publish_content settings config env processed_content_id s channel in
      publish_all settings config rest s channel
  end.

(** The published records of one processed item. *)
Definition records_of (processed_content_id : string) (db : DB)
  : list PublishedPost :=
  List.filter
    (fun post => String.eqb (pp_processed_content_id post) processed_content_id)
    (published_posts db).

(** Every row of [processed_content] sits under its own primary key, and
    no processed item has two published records. *)
Definition store_ok (db : DB) : Prop :=
  (forall key p, processed_content db !! key = Some p -> pc_id p = key)
  /\ (forall processed_content_id,
         (length (records_of processed_content_id db) <= 1)%nat).

Definition session_ok (s : Session) : Prop :=
  store_ok (committed s) /\ store_ok (pending s).

End Publisher.

(** ** Concrete stores and items used to run the model *)

Module Examples.

Definition empty_db : DB :=
  {| raw_content := ∅;
     processed_content := ∅;
     published_posts := [];
     content_archive := [] |}.

Definition clean (db : DB) : Session :=
  {| committed := db; pending := db; failed := false |}.

Definition long_text : string :=
  "Bitcoin climbed above fifty thousand dollars today while optimism about exchange traded funds lifted the whole market.".

(** A processed item of low risk and low similarity with the given
    translated and rewritten texts. *)
Definition text_item (id status : string) (translated paraphrased : option string)
  : ProcessedContent :=
  {| pc_id := id;
     pc_raw_content_id := "raw-" ++ id;
     pc_summary := JStr "Bitcoin above 50k.";
     pc_key_points := JArr [];
     pc_content_type := "analysis";
     pc_priority := JStr "medium";
     pc_risk_level := "low";
     pc_risk_tags := JArr [];
     pc_original_language := JStr "en";
     pc_translated_text := translated;
     pc_paraphrased_text := paraphrased;
     pc_headline_short := Some "Bitcoin at 50k";
     pc_headline_long := Some "";
     pc_author_note := Some "";
     pc_tags := ["btc"; "etf"];
     pc_similarity_score := Some (1 # 10);
     pc_similar_content_ids := JArr [];
     pc_status := status;
     pc_requires_hitl := false |}.

(** Such an item whose rewritten text is long and free of sensitive
    keywords. *)
Definition item (id status : string) (translated : option string)
  : ProcessedContent :=
  text_item id status translated (Some long_text).

(** A rewrite in Russian of 62 characters, 116 bytes in UTF-8. *)
Definition short_russian_rewrite : string :=
  "Биткоин вырос выше пятидесяти тысяч долларов на фоне оптимизма".

Definition russian_translation : string :=
  "Биткоин вырос выше пятидесяти тысяч долларов.".

(** An item translated and rewritten in Russian whose rewrite is short. *)
Definition russian_item : ProcessedContent :=
  text_item "c1" ContentStatus.PENDING (Some russian_translation)
    (Some short_russian_rewrite).

(** A text in Russian of 2990 characters, 5525 bytes in UTF-8. *)
Definition long_russian_text : string :=
  String.concat ""
    (repeat "Биткоин вырос выше пятидесяти тысяч долларов. " 65).

(** A store holding one item ready to be published, rewritten in Russian
    at that length. *)
Definition russian_ready_db : DB :=
  set_processed
    (text_item "c1" ContentStatus.READY (Some russian_translation)
       (Some long_russian_text))
    empty_db.

Definition hack_analysis : dict :=
  {[ "summary_2" := JStr "An exchange was hacked.";
     "key_points" := JArr [];
     "risk_tags" := JArr [JStr "rumor"; JStr "hack"];
     "priority" := JStr "high";
     "language" := JStr "en" ]}.

Definition raw_item (id : string) (text : string) : RawContent :=
  {| rc_id := id;
     rc_source_username := "@CoinDesk";
     rc_text := text;
     rc_language := Some "en";
     rc_processed := false |}.

Definition raw_db : DB :=
  set_raw "r1" (raw_item "r1" "Bitcoin hits $50k amid ETF optimism") empty_db.

Definition good_analysis : dict :=
  {[ "summary_2" := JStr "Bitcoin rose. Funds are optimistic.";
     "key_points" := JArr [JStr "price"; JStr "funds"; JStr "market"];
     "risk_tags" := JArr [];
     "priority" := JStr "medium";
     "language" := JStr "en" ]}.

(** Collaborators of a run in which every stage answers. *)
Definition env_ok : Processor.Env :=
  {| Processor.cached_analysis := None;
     Processor.llm_analysis := Processor.JsonObject good_analysis;
     Processor.translator_result :=
       Some {[ "original_language" := JStr "en";
               "translated_text" := JStr "Bitcoin dostig 50k";
               "human_translation" := JStr "Bitcoin dostig 50k na fone optimizma";
               "summary" := JStr "Bitcoin vyros.";
               "glossary" := JArr [] ]};
     Processor.similarity_checker_result :=
       Some {[ "similarity_score" := JNum (1 # 10);
               "similar_content_ids" := JArr [];
               "is_duplicate" := JBool false ]};
     Processor.cached_paraphrase := None;
     Processor.llm_paraphrase :=
       Processor.JsonObject
         {[ "headline_short" := JStr "Bitcoin at 50k";
            "headline_long" := JStr "Bitcoin climbs above 50k";
            "body" := JStr long_text;
            "author_note" := JStr "";
            "tags" := JArr [JStr "btc"; JStr "etf"] ]};
     Processor.new_id := "p1";
     Processor.utcnow := 1000;
     Processor.query_raises := false;
     Processor.flush_raises := false;
     Processor.commit_raises := false |}.

(** The same run with an analysis answer that lacks the field
    [priority]. *)
Definition env_missing_field : Processor.Env :=
  {| Processor.cached_analysis := None;
     Processor.llm_analysis :=
       Processor.JsonObject (delete "priority" good_analysis);
     Processor.translator_result := Processor.translator_result env_ok;
     Processor.similarity_checker_result :=
       Processor.similarity_checker_result env_ok;
     Processor.cached_paraphrase := None;
     Processor.llm_paraphrase := Processor.llm_paraphrase env_ok;
     Processor.new_id := "p1";
     Processor.utcnow := 1000;
     Processor.query_raises := false;
     Processor.flush_raises := false;
     Processor.commit_raises := false |}.

(** A store holding one item ready to be published. *)
Definition ready_db : DB :=
  set_processed (item "c1" ContentStatus.READY (Some "Bitcoin dostig 50k"))
    empty_db.

(** Collaborators of a publish whose text send succeeds. *)
Definition send_ok : Publisher.Env :=
  {| Publisher.utcnow := 5000;
     Publisher.random_value := 1 # 2;
     Publisher.image_urls := [];
     Publisher.bot_initialized := true;
     Publisher.photo_message_id := None;
     Publisher.text_message_id := Some "4711";
     Publisher.query_raises := false;
     Publisher.recent_query_raises := false;
     Publisher.post_commit_raises := false;
     Publisher.status_commit_raises := false |}.

(** The store after that publish. *)
Definition published_session : Session :=
  snd (fst (Publisher.publish_content default_settings
              Publisher.affiliate_config send_ok "c1" (clean ready_db) [])).

(** An embedding model that maps every text to the first unit vector. *)
Definition embed_e1 (text : string) : option (list Q) := Some [1%Q; 0%Q].

Definition frequency_2 : Settings :=
  {| min_similarity_threshold := 7 # 10; affiliate_link_frequency := 2 |}.

(** [count] publishes one microsecond apart from time [start] on, each
    with the draw 0.5. *)
Definition publishes_from (start count : nat) : list (Z * Q) :=
  map (fun i => (Z.of_nat i, 1 # 2)) (seq start count).

(** The store after two publishes on an empty history. *)
Definition after_two_publishes : DB :=
  snd (Publisher.run frequency_2 Publisher.affiliate_config
         (publishes_from 0 2) empty_db).

Definition archive_entry (id : string) (embedding : list Q) : ContentArchive :=
  {| ca_processed_content_id := id;
     ca_title := "Bitcoin at 50k";
     ca_content_text := Some long_text;
     ca_content_embedding := Embedding embedding;
     ca_published_at := Some 5000;
     ca_platform := "telegram";
     ca_engagement_score := Some 0%Q |}.

(** An archive of 1001 rows: a thousand rows whose embedding is the
    second unit vector, then one row whose embedding is the first. *)
Definition large_archive : list ContentArchive :=
  repeat (archive_entry "old" [0%Q; 1%Q]) 1000
  ++ [archive_entry "same" [1%Q; 0%Q]].

(** The run of [env_ok] with an analysis answer whose [risk_tags] is
    null. *)
Definition env_null_tags : Processor.Env :=
  {| Processor.cached_analysis := None;
     Processor.llm_analysis :=
       Processor.JsonObject (<["risk_tags" := JNull]> good_analysis);
     Processor.translator_result := Processor.translator_result env_ok;
     Processor.similarity_checker_result :=
       Processor.similarity_checker_result env_ok;
     Processor.cached_paraphrase := None;
     Processor.llm_paraphrase := Processor.llm_paraphrase env_ok;
     Processor.new_id := "p1";
     Processor.utcnow := 1000;
     Processor.query_raises := false;
     Processor.flush_raises := false;
     Processor.commit_raises := false |}.

(** The run of [env_ok] with a rewrite call that gives no answer. *)
Definition env_no_rewrite : Processor.Env :=
  {| Processor.cached_analysis := None;
     Processor.llm_analysis := Processor.llm_analysis env_ok;
     Processor.translator_result := Processor.translator_result env_ok;
     Processor.similarity_checker_result :=
       Processor.similarity_checker_result env_ok;
     Processor.cached_paraphrase := None;
     Processor.llm_paraphrase := Processor.NoReply;
     Processor.new_id := "p1";
     Processor.utcnow := 1000;
     Processor.query_raises := false;
     Processor.flush_raises := false;
     Processor.commit_raises := false |}.

(** The run of [env_ok] with a rewrite call that answers the short Russian
    text as it is, not as JSON. *)
Definition env_short_rewrite : Processor.Env :=
  {| Processor.cached_analysis := None;
     Processor.llm_analysis := Processor.llm_analysis env_ok;
     Processor.translator_result := Processor.translator_result env_ok;
     Processor.similarity_checker_result :=
       Processor.similarity_checker_result env_ok;
     Processor.cached_paraphrase := None;
     Processor.llm_paraphrase := Processor.NotJson short_russian_rewrite;
     Processor.new_id := "p1";
     Processor.utcnow := 1000;
     Processor.query_raises := false;
     Processor.flush_raises := false;
     Processor.commit_raises := false |}.

(** The run of [env_ok] with a translator that raises. *)
Definition env_no_translator : Processor.Env :=
  {| Processor.cached_analysis := None;
     Processor.llm_analysis := Processor.llm_analysis env_ok;
     Processor.translator_result := None;
     Processor.similarity_checker_result :=
       Processor.similarity_checker_result env_ok;
     Processor.cached_paraphrase := None;
     Processor.llm_paraphrase := Processor.llm_paraphrase env_ok;
     Processor.new_id := "p1";
     Processor.utcnow := 1000;
     Processor.query_raises := false;
     Processor.flush_raises := false;
     Processor.commit_raises := false |}.

Definition okx_link : Publisher.AffiliateLink :=
  {| Publisher.link_name := "OKX";
     Publisher.link_url := "https://www.okx.com/join/YOUR_CODE";
     Publisher.link_text := "Try another exchange with a bonus";
     Publisher.link_weight := 3 # 10 |}.

Definition frequency_1 : Settings :=
  {| min_similarity_threshold := 7 # 10; affiliate_link_frequency := 1 |}.

(** The publish of [send_ok] with a failing commit of the record. *)
Definition send_lost_record : Publisher.Env :=
  {| Publisher.utcnow := 4000;
     Publisher.random_value := 1 # 2;
     Publisher.image_urls := [];
     Publisher.bot_initialized := true;
     Publisher.photo_message_id := None;
     Publisher.text_message_id := Some "4710";
     Publisher.query_raises := false;
     Publisher.recent_query_raises := false;
     Publisher.post_commit_raises := true;
     Publisher.status_commit_raises := false |}.

(** The publish of [send_ok] with a failing commit of the status. *)
Definition send_lost_status : Publisher.Env :=
  {| Publisher.utcnow := 5000;
     Publisher.random_value := 1 # 2;
     Publisher.image_urls := [];
     Publisher.bot_initialized := true;
     Publisher.photo_message_id := None;
     Publisher.text_message_id := Some "4711";
     Publisher.query_raises := false;
     Publisher.recent_query_raises := false;
     Publisher.post_commit_raises := false;
     Publisher.status_commit_raises := true |}.

Definition threshold_low : Settings :=
  {| min_similarity_threshold := 5 # 100; affiliate_link_frequency := 5 |}.

(** A Redis in which the key of the publishing queue holds a plain string,
    so that every push on it is refused. *)
Definition blocked_queue : Redis.keyspace :=
  {[ "content_publishing_queue" := Redis.RString (Redis.Plain "maintenance") ]}.

End Examples.

(** ** More of the Redis wrapper ([src/utils/redis_client.py]) *)

Module RedisClient.

(** What the wrapper hands back for a stored text: the decoded object when
    the text is JSON, the text itself otherwise. *)
Definition decode (value : Redis.rstr) : Redis.pyobj :=
  match Redis.json_loads (Redis.PyStr value) with
  | Redis.Loaded v => v
  | _ => Redis.PyStr value
  end.

(** The text the wrapper stores for an item: [json.dumps] of a [dict], a
    [str] as it is. *)
Definition encode (item : Redis.pyobj) : Redis.rstr :=
  match item with
  | Redis.PyDict d => Redis.Dumps d
  | Redis.PyStr text => text
  end.

(** [RPOP key]: the item at the right end of the list, [None] as the reply
    on a missing key; a list that loses its last item is removed. The outer
    [None] is the [WRONGTYPE] error. *)
Definition cmd_rpop (key : string) (r : Redis.keyspace)
  : option (option Redis.rstr * Redis.keyspace) :=
  match r !! key with
  | None => Some (None, r)
  | Some (Redis.RList items) =>
      match rev items with
      | [] => Some (None, r)
      | value :: [] => Some (Some value, delete key r)
      | value :: before => Some (Some value, <[key := Redis.RList (rev before)]> r)
      end
  | Some _ => None
  end.

(** [LLEN key] *)
Definition cmd_llen (key : string) (r : Redis.keyspace) : option Z :=
  match r !! key with
  | None => Some 0
  | Some (Redis.RList items) => Some (Z.of_nat (length items))
  | Some _ => None
  end.

(** [RedisClient.rpop] *)
Definition rpop (queue : string) (r : Redis.keyspace)
  : option Redis.pyobj * Redis.keyspace :=
  match cmd_rpop queue r with
  | Some (Some value, r') => (Some (decode value), r')
  | Some (None, r') => (None, r')
  | None => (None, r)
  end.

(** [RedisClient.brpop], as it returns: the item popped, or [None] when the
    queue stayed empty for the whole timeout. *)
Definition brpop (queue : string) (timeout : Z) (r : Redis.keyspace)
  : option Redis.pyobj * Redis.keyspace :=
  match cmd_rpop queue r with
  | Some (Some value, r') => (Some (decode value), r')
  | Some (None, r') => (None, r')
  | None => (None, r)
  end.

(** [RedisClient.llen] *)
Definition llen (queue : string) (r : Redis.keyspace) : Z :=
  match cmd_llen queue r with
  | Some n => n
  | None => 0
  end.

End RedisClient.

(** ** The translation service ([src/utils/translator.py]) *)

Module Translator.

(** Outcomes of the collaborators for one call of [translate_with_llm]. *)
Record Env : Type := {
  (** what [redis_client.get] returns for the cache key *)
  cached_translation : option dict;
  (** [self.deepl_translator] is set *)
  deepl_initialized : bool;
  (** text of [translate_text], [None] when it raises *)
  deepl_text : option string;
  (** answer of the enhancement call *)
  llm_enhancement : Processor.llm_reply
}.

Definition deepl_codes : list (string * string) :=
  [("en", "EN"); ("ru", "RU"); ("de", "DE"); ("fr", "FR"); ("es", "ES");
   ("it", "IT"); ("ja", "JA"); ("ko", "KO"); ("zh", "ZH"); ("pt", "PT");
   ("pl", "PL"); ("nl", "NL")].

(** [mapping.get(key)] *)
Fixpoint assoc (key : string) (mapping : list (string * string))
  : option string :=
  match mapping with
  | [] => None
  | (k, v) :: rest => if String.eqb k key then Some v else assoc key rest
  end.

(** [TranslationService._map_lang_code_for_deepl] *)
Definition _map_lang_code_for_deepl (lang_code : string) : option string :=
  assoc (Py.lower lang_code) deepl_codes.

(** [TranslationService._get_machine_translation] *)
Definition _get_machine_translation (env : Env)
    (text source_lang target_lang : string) : string :=
  if deepl_initialized env && negb (String.eqb source_lang target_lang) then
    match _map_lang_code_for_deepl source_lang,
          _map_lang_code_for_deepl target_lang with
    | Some deepl_source, Some deepl_target =>
        match deepl_text env with
        | Some result => result
        | None => text
        end
    | _, _ => text
    end
  else text.

(** [TranslationService._enhance_translation_with_llm]; [if not response]
    is true of [None] and of the empty text. *)
Definition _enhance_translation_with_llm (env : Env)
    (original_text machine_translation source_lang target_lang : string)
  : dict :=
  match llm_enhancement env with
  | Processor.NoReply => {[ "human_translation" := JStr machine_translation ]}
  | Processor.JsonObject result => result
  | Processor.NotJson response =>
      if String.eqb response ""
      then {[ "human_translation" := JStr machine_translation ]}
      else
        {[ "human_translation" := JStr response;
           "summary" := JStr "";
           "glossary" := JArr [] ]}
  end.

(** [TranslationService.translate_with_llm] *)
Definition translate_with_llm (env : Env) (text source_lang target_lang : string)
  : dict :=
  let compute :=
    let machine_translation :=
      _get_machine_translation env text source_lang target_lang in
    let enhanced_translation :=
      _enhance_translation_with_llm env text machine_translation source_lang
        target_lang in
    {[ "original_language" := JStr source_lang;
       "machine_translation" := JStr machine_translation;
       "human_translation" :=
         get enhanced_translation "human_translation" (JStr machine_translation);
       "summary" := get enhanced_translation "summary" (JStr "");
       "glossary" := get enhanced_translation "glossary" (JArr []);
       "quality_score" := get enhanced_translation "quality_score" (JNum (8 # 10)) ]} in
  match cached_translation env with
  | Some cached_result =>
      if Processor.nonempty cached_result then cached_result else compute
  | None => compute
  end.

End Translator.

(** ** Archive upkeep ([src/utils/similarity.py]) *)

Module Archive.

Definition topic_keywords : list (string * list string) :=
  [("price", ["price"; "cost"; "value"; "expensive"; "cheap"; "pump"; "dump"]);
   ("trading", ["trading"; "trade"; "buy"; "sell"; "exchange"; "market"]);
   ("technology", ["technology"; "tech"; "blockchain"; "protocol"; "network"]);
   ("regulation", ["regulation"; "legal"; "law"; "government"; "sec"; "compliance"]);
   ("defi", ["defi"; "decentralized"; "yield"; "farming"; "liquidity"; "pool"]);
   ("nft", ["nft"; "non-fungible"; "collectible"; "art"; "opensea"]);
   ("security", ["hack"; "security"; "exploit"; "vulnerability"; "attack"]);
   ("partnership", ["partnership"; "collaboration"; "integration"; "alliance"]);
   ("development", ["development"; "update"; "upgrade"; "release"; "launch"])].

(** The loop of [_extract_topics] over the topic table. *)
Fixpoint topics_of (text_lower : string) (table : list (string * list string))
  : list string :=
  match table with
  | [] => []
  | (topic, keywords) :: rest =>
      if existsb (fun keyword => Py.contains keyword text_lower) keywords
      then topic :: topics_of text_lower rest
      else topics_of text_lower rest
  end.

(** [SimilarityChecker._extract_topics] *)
Definition _extract_topics (text : string) : list string :=
  topics_of (Py.lower text) topic_keywords.

Definition with_engagement (score : Q) (entry : ContentArchive) : ContentArchive :=
  {| ca_processed_content_id := ca_processed_content_id entry;
     ca_title := ca_title entry;
     ca_content_text := ca_content_text entry;
     ca_content_embedding := ca_content_embedding entry;
     ca_published_at := ca_published_at entry;
     ca_platform := ca_platform entry;
     ca_engagement_score := Some score |}.

(** The table after the [UPDATE] of the row that
    [query(...).filter(...).first()] returns. *)
Fixpoint update_first (content_id : string) (score : Q)
    (archive : list ContentArchive) : list ContentArchive :=
  match archive with
  | [] => []
  | entry :: rest =>
      if String.eqb (ca_processed_content_id entry) content_id
      then with_engagement score entry :: rest
      else entry :: update_first content_id score rest
  end.

Definition set_archive (archive : list ContentArchive) (db : DB) : DB :=
  {| raw_content := raw_content db;
     processed_content := processed_content db;
     published_posts := published_posts db;
     content_archive := archive |}.

Section Update.

(** The arithmetic of [update_engagement_score] on the numbers of
    [engagement_data], [(likes * 2 + shares * 3 + comments * 2) /
    max(views, 1)]: the float it yields, [None] when it raises (a value
    that is no number, an integer quotient too large for a float). *)
Variable engagement_score_of : dict -> option Q.

(** The order in which the store returns the rows of [content_archive]
    once a row has been updated: the queries have no [ORDER BY], and an
    updated row need not keep its place. *)
Variable store_order : list ContentArchive -> list ContentArchive.

(** [SimilarityChecker.update_engagement_score] *)
Definition update_engagement_score (query_raises commit_raises : bool)
    (content_id : string) (engagement_data : dict) (s : Session) : Session :=
  if query_raises then rollback s
  else
    match find (fun entry => String.eqb (ca_processed_content_id entry) content_id)
            (content_archive (pending s)) with
    | None => s
    | Some archive_entry =>
        match engagement_score_of engagement_data with
        | None => rollback s
        | Some engagement_score =>
            let s :=
              in_transaction
                (fun db => set_archive
                             (store_order
                                (update_first content_id engagement_score
                                   (content_archive db))) db) s in
            if commit_raises then rollback s else commit s
        end
    end.

End Update.

(** An engagement score that is one fifth for every data, and a store that
    returns an updated table last row first. *)
Definition one_fifth (engagement_data : dict) : option Q := Some (1 # 5).

Definition last_first (rows : list ContentArchive) : list ContentArchive :=
  rev rows.

End Archive.

(** ** The review endpoints ([src/main.py]) *)

Module Api.

Inductive response : Type :=
| Ok200 (message : string)
| NotFound404
| BadRequest400
| Error500.

(** Outcomes of the collaborators for one request. *)
Record Env : Type := {
  utcnow : Z;
  query_raises : bool;
  commit_raises : bool;
  (** [RedisClient()] cannot connect *)
  redis_raises : bool
}.

(** The row loaded under [content_id], written back. *)
Definition put_processed (content_id : string) (p : ProcessedContent) (db : DB)
  : DB :=
  {| raw_content := raw_content db;
     processed_content := <[content_id := p]> (processed_content db);
     published_posts := published_posts db;
     content_archive := content_archive db |}.

(** [approve_content]: each request opens a session of its own on the
    committed store. *)
Definition approve_content (env : Env) (content_id : string) (db : DB)
    (r : Redis.keyspace) : response * DB * Redis.keyspace :=
  if query_raises env then (Error500, db, r)
  else
    match processed_content db !! content_id with
    | None => (NotFound404, db, r)
    | Some content =>
        if negb (pc_requires_hitl content) then (BadRequest400, db, r)
        else if commit_raises env then (Error500, db, r)
        else
          let db := put_processed content_id (Processor.with_gate false content) db in
          if redis_raises env then (Error500, db, r)
          else
            (Ok200 "Content approved and queued for publishing", db,
             snd (Redis.lpush "content_publishing_queue"
                    (Redis.PyDict [("content_id", Redis.DStr content_id);
                                   ("timestamp", Redis.DTime (utcnow env))]) r))
    end.

(** [reject_content] *)
Definition reject_content (env : Env) (content_id : string) (db : DB)
  : response * DB :=
  if query_raises env then (Error500, db)
  else
    match processed_content db !! content_id with
    | None => (NotFound404, db)
    | Some content =>
        if commit_raises env then (Error500, db)
        else
          (Ok200 "Content rejected",
           put_processed content_id
             (Publisher.with_status ContentStatus.REJECTED
                (Processor.with_gate false content)) db)
    end.

End Api.

(** ** The Telegram channel *)

Module Channel.

(** The text of a message as the channel shows it: the caption of a photo,
    the body of a text message. *)
Definition sent_text (message : Publisher.sent_message) : string :=
  match message with
  | Publisher.SentPhoto _ caption => caption
  | Publisher.SentText text => text
  end.

End Channel.

(** ** Concrete review requests *)

Module Review.

(** A request whose collaborators all answer. *)
Definition api_ok : Api.Env :=
  {| Api.utcnow := 3000;
     Api.query_raises := false;
     Api.commit_raises := false;
     Api.redis_raises := false |}.

(** The item of [Examples.item], held for review. *)
Definition held_item : ProcessedContent :=
  Processor.with_gate true
    (Examples.item "c1" ContentStatus.PENDING (Some "The SEC opened a case")).

Definition held_db : DB := set_processed held_item Examples.empty_db.

(** A translation call with DeepL raising and an empty answer of the
    LLM. *)
Definition translator_down : Translator.Env :=
  {| Translator.cached_translation := None;
     Translator.deepl_initialized := true;
     Translator.deepl_text := None;
     Translator.llm_enhancement := Processor.NotJson "" |}.

End Review.

(** * Properties *)

(** ** The gate *)

Lemma any_in_arr_true (tags : list string) (items : list jval) (tag : string) :
  In tag tags -> In (JStr tag) items -> any_in tags (JArr items) = Some true.
Proof.
  induction tags as [|t tags IH]; intros Htag Hin; [destruct Htag|].
  cbn [any_in py_in].
  destruct (existsb (is_str t) items) eqn:E; [reflexivity|].
  destruct Htag as [->|Htag]; [|auto].
  exfalso. apply Bool.not_true_iff_false in E. apply E.
  apply existsb_exists. exists (JStr tag). split; [assumption|].
  cbn. apply String.eqb_refl.
Qed.

Lemma calculate_risk_level_high (analysis : dict) (items : list jval) (tag : string) :
  analysis !! "risk_tags" = Some (JArr items) ->
  In tag ["hack"; "scam"; "exploit"] ->
  In (JStr tag) items ->
  Gate._calculate_risk_level analysis = Some "high".
Proof.
  intros Hget Htag Hin. unfold Gate._calculate_risk_level, get.
  rewrite Hget. rewrite (any_in_arr_true _ _ tag Htag Hin). reflexivity.
Qed.

Lemma gate_high_risk (settings : Settings) (processed : ProcessedContent)
    (analysis : dict) :
  pc_risk_level processed = "high" ->
  Gate._check_hitl_requirements settings processed analysis = true.
Proof.
  intros H. unfold Gate._check_hitl_requirements, Gate.check_hitl_body.
  rewrite H. reflexivity.
Qed.

Lemma bind_some {A B : Type} (m : option A) (f : A -> option B) (b : B) :
  m ≫= f = Some b -> exists a, m = Some a /\ f a = Some b.
Proof. destruct m as [a|]; cbn; [eauto | discriminate]. Qed.

Lemma create_processed_risk_level (env : Processor.Env) (raw : RawContent)
    (analysis translation similarity paraphrase : dict) (s s1 : Session)
    (processed : ProcessedContent) :
  Processor._create_processed_content env raw analysis translation similarity
    paraphrase s = Some (processed, s1) ->
  Gate._calculate_risk_level analysis = Some (pc_risk_level processed).
Proof.
  unfold Processor._create_processed_content. intros H.
  repeat (apply bind_some in H; destruct H as [? [? H]]).
  destruct (_ || _) in H; [discriminate|].
  inversion H; subst; cbn. assumption.
Qed.

(** C8. If the risk tags of an analysis result contain "hack", "scam" or
    "exploit", the derived risk level is high, and the gate holds every
    processed item carrying that level, whatever its similarity score,
    rewritten text and headlines; this is in particular so for the item the
    pipeline builds from that analysis. *)
Theorem C8_high_risk_tag_is_held :
  forall (settings : Settings) (analysis : dict) (items : list jval),
    analysis !! "risk_tags" = Some (JArr items) ->
    In (JStr "hack") items \/ In (JStr "scam") items \/ In (JStr "exploit") items ->
    Gate._calculate_risk_level analysis = Some "high"
    /\ (forall processed : ProcessedContent,
           pc_risk_level processed = "high" ->
           Gate._check_hitl_requirements settings processed analysis = true)
    /\ (forall env raw translation similarity paraphrase s processed s1,
           Processor._create_processed_content env raw analysis translation
             similarity paraphrase s = Some (processed, s1) ->
           Gate._check_hitl_requirements settings processed analysis = true).
Proof.
  intros settings analysis items Hget Htags.
  assert (Hhigh : Gate._calculate_risk_level analysis = Some "high").
  { destruct Htags as [H|[H|H]];
      eapply calculate_risk_level_high; eauto; cbn; tauto. }
  split; [exact Hhigh|]. split.
  - intros processed H. apply gate_high_risk; assumption.
  - intros env raw translation similarity paraphrase s processed s1 Hc.
    apply gate_high_risk.
    apply create_processed_risk_level in Hc. congruence.
Qed.

Lemma C8_witness :
  Gate._calculate_risk_level Examples.hack_analysis = Some "high"
  /\ (forall processed : ProcessedContent,
         pc_risk_level processed = "high" ->
         Gate._check_hitl_requirements default_settings processed
           Examples.hack_analysis = true)
  /\ (forall env raw translation similarity paraphrase s processed s1,
         Processor._create_processed_content env raw Examples.hack_analysis
           translation similarity paraphrase s = Some (processed, s1) ->
         Gate._check_hitl_requirements default_settings processed
           Examples.hack_analysis = true).
Proof.
  apply (C8_high_risk_tag_is_held default_settings Examples.hack_analysis
           [JStr "rumor"; JStr "hack"]).
  - vm_compute. reflexivity.
  - left. right. left. reflexivity.
Defined.

Lemma gt_false_iff (a b : Q) : Py.gt a b = false <-> (a <= b)%Q.
Proof.
  unfold Py.gt. rewrite Bool.negb_false_iff. apply Qle_bool_iff.
Qed.

Lemma gt_true_iff (a b : Q) : Py.gt a b = true <-> (b < a)%Q.
Proof.
  unfold Py.gt. rewrite Bool.negb_true_iff.
  split; intros H.
  - apply Qnot_le_lt. intros Hle. apply Qle_bool_iff in Hle. congruence.
  - destruct (Qle_bool a b) eqn:E; [|reflexivity].
    apply Qle_bool_iff in E. exfalso. exact (Qlt_not_le _ _ H E).
Qed.

Lemma sensitive_keyword_iff (text : string) :
  existsb (fun keyword => Py.contains keyword (Py.lower text))
    Gate.sensitive_keywords = true
  <-> exists keyword, In keyword Gate.sensitive_keywords
                      /\ Py.contains keyword (Py.lower text) = true.
Proof. apply existsb_exists. Qed.

(** The claim C3 as the specification words it fails: an item of low risk
    and low similarity whose rewritten text is long and free of sensitive
    keywords is held as soon as its translated text contains "sec". *)
Lemma C3_counterexample :
  ~ (forall (settings : Settings) (processed : ProcessedContent) (analysis : dict)
            (score : Q) (rewritten : string),
        pc_risk_level processed <> "high" ->
        pc_similarity_score processed = Some score ->
        (score <= min_similarity_threshold settings)%Q ->
        pc_paraphrased_text processed = Some rewritten ->
        (Gate._check_hitl_requirements settings processed analysis = true
         <-> ((exists keyword, In keyword Gate.sensitive_keywords
                               /\ Py.contains keyword (Py.lower rewritten) = true)
              \/ rewritten = "" \/ Py.len rewritten < 100))).
Proof.
  intros claim.
  specialize (claim default_settings
                (Examples.item "c1" ContentStatus.PENDING (Some "The SEC opened a case"))
                ∅ (1 # 10)%Q Examples.long_text).
  destruct claim as [Hhold _]; try reflexivity.
  - cbn. discriminate.
  - cbn. unfold Qle. cbn. lia.
  - destruct Hhold as [Hkw|[Hempty|Hshort]].
    + vm_compute. reflexivity.
    + apply sensitive_keyword_iff in Hkw. vm_compute in Hkw. discriminate.
    + discriminate.
    + vm_compute in Hshort. discriminate.
Qed.

(** C3 (amended). For an item whose risk level is not high and whose
    similarity score does not exceed the duplicate threshold, the gate holds
    if and only if the lower-cased translated text contains a keyword of the
    sensitive set (or the translated text is missing), or the rewritten text
    is missing, empty or shorter than 100 characters: the keyword test reads
    the translated text, the length test the rewritten text. *)
Theorem C3_gate_reads_translated_text :
  forall (settings : Settings) (processed : ProcessedContent) (analysis : dict)
         (score : Q),
    pc_risk_level processed <> "high" ->
    pc_similarity_score processed = Some score ->
    (score <= min_similarity_threshold settings)%Q ->
    (Gate._check_hitl_requirements settings processed analysis = true
     <-> (match pc_translated_text processed with
          | None => True
          | Some translated =>
              exists keyword, In keyword Gate.sensitive_keywords
                              /\ Py.contains keyword (Py.lower translated) = true
          end
          \/ match pc_paraphrased_text processed with
             | None => True
             | Some rewritten => rewritten = "" \/ Py.len rewritten < 100
             end)).
Proof.
  intros settings processed analysis score Hrisk Hscore Hle.
  unfold Gate._check_hitl_requirements, Gate.check_hitl_body.
  apply String.eqb_neq in Hrisk. rewrite Hrisk, Hscore.
  apply gt_false_iff in Hle. rewrite Hle.
  destruct (pc_translated_text processed) as [translated|]; [|tauto].
  destruct (existsb _ Gate.sensitive_keywords) eqn:Ekw.
  - apply sensitive_keyword_iff in Ekw. tauto.
  - assert (Hno : ~ exists keyword, In keyword Gate.sensitive_keywords
                     /\ Py.contains keyword (Py.lower translated) = true).
    { intros H. apply sensitive_keyword_iff in H. congruence. }
    destruct (pc_paraphrased_text processed) as [rewritten|]; [|tauto].
    destruct (String.eqb rewritten "") eqn:Eempty; cbn [orb].
    + apply String.eqb_eq in Eempty. tauto.
    + apply String.eqb_neq in Eempty.
      destruct (Py.len rewritten <? 100) eqn:Elen.
      * apply Z.ltb_lt in Elen. tauto.
      * apply Z.ltb_ge in Elen. split; [discriminate|].
        intros [H|[H|H]]; [tauto | tauto | lia].
Qed.

Lemma C3_witness :
  Gate._check_hitl_requirements default_settings Examples.russian_item ∅ = true
  <-> (match pc_translated_text Examples.russian_item with
       | None => True
       | Some translated =>
           exists keyword, In keyword Gate.sensitive_keywords
                           /\ Py.contains keyword (Py.lower translated) = true
       end
       \/ match pc_paraphrased_text Examples.russian_item with
          | None => True
          | Some rewritten => rewritten = "" \/ Py.len rewritten < 100
          end).
Proof.
  apply (C3_gate_reads_translated_text default_settings Examples.russian_item
           ∅ (1 # 10)%Q).
  - cbn. discriminate.
  - reflexivity.
  - unfold Qle. cbn. lia.
Defined.

(** The rewrite of [Examples.russian_item] has 62 characters, and the item
    is held for it. *)
Lemma short_russian_rewrite_is_held :
  Py.len Examples.short_russian_rewrite = 62
  /\ Gate._check_hitl_requirements default_settings Examples.russian_item ∅
     = true.
Proof. split; vm_compute; reflexivity. Qed.

(** ** The pipeline *)

Lemma analyze_content_fails (env : Processor.Env) (raw : RawContent) :
  Processor.cached_analysis env = None ->
  (Processor.llm_analysis env = Processor.NoReply
   \/ (exists text, Processor.llm_analysis env = Processor.NotJson text)
   \/ (exists result field,
          Processor.llm_analysis env = Processor.JsonObject result
          /\ In field Processor.required_fields
          /\ result !! field = None)) ->
  Processor._analyze_content env raw = None.
Proof.
  intros Hcache Hfail. unfold Processor._analyze_content. rewrite Hcache.
  destruct Hfail as [->|[[text ->]|[result [field [-> [Hin Hnone]]]]]];
    try reflexivity.
  destruct (forallb (Processor.has_key result) Processor.required_fields) eqn:E;
    [|reflexivity].
  rewrite forallb_forall in E. specialize (E field Hin).
  unfold Processor.has_key in E. rewrite Hnone in E. discriminate.
Qed.

(** The claim C2 as the specification words it fails: with an analysis
    answer that lacks a required field, no processed item is persisted for
    the raw item. *)
Lemma C2_counterexample :
  ~ (forall (settings : Settings) (env : Processor.Env) (content_id : string)
            (s : Session) (r : Redis.keyspace) (raw : RawContent),
        Processor.query_raises env = false ->
        raw_content (pending s) !! content_id = Some raw ->
        rc_processed raw = false ->
        Processor._analyze_content env raw = None ->
        exists pid p,
          processed_content
            (committed (snd (fst (Processor.process_single_content settings env
                                    content_id s r)))) !! pid = Some p
          /\ pc_raw_content_id p = content_id).
Proof.
  intros claim.
  destruct (claim default_settings Examples.env_missing_field "r1"
              (Examples.clean Examples.raw_db) ∅
              (Examples.raw_item "r1" "Bitcoin hits $50k amid ETF optimism"))
    as [pid [p [Hp _]]]; try reflexivity.
  vm_compute in Hp. discriminate.
Qed.

(** C2 (amended). When the analysis of a raw item fails on a cache miss (no
    answer of the collaborator, an answer that is no JSON, or an answer
    lacking a required field), processing of the item stops there: no later
    stage runs, no processed item is created, the gate is not evaluated, the
    raw item is not marked consumed and nothing is queued; the session and
    the queues are left as they were. *)
Theorem C2_analysis_failure_stops_the_item :
  forall (settings : Settings) (env : Processor.Env) (content_id : string)
         (s : Session) (r : Redis.keyspace) (raw : RawContent),
    Processor.query_raises env = false ->
    raw_content (pending s) !! content_id = Some raw ->
    rc_processed raw = false ->
    Processor.cached_analysis env = None ->
    (Processor.llm_analysis env = Processor.NoReply
     \/ (exists text, Processor.llm_analysis env = Processor.NotJson text)
     \/ (exists result field,
            Processor.llm_analysis env = Processor.JsonObject result
            /\ In field Processor.required_fields
            /\ result !! field = None)) ->
    Processor.process_single_content settings env content_id s r
    = (Processor.AnalysisFailed, s, r).
Proof.
  intros settings env content_id s r raw Hq Hraw Hproc Hcache Hfail.
  unfold Processor.process_single_content.
  rewrite Hq, Hraw, Hproc.
  rewrite (analyze_content_fails env raw Hcache Hfail). reflexivity.
Qed.

Lemma C2_witness :
  Processor.process_single_content default_settings Examples.env_missing_field
    "r1" (Examples.clean Examples.raw_db) ∅
  = (Processor.AnalysisFailed, Examples.clean Examples.raw_db, ∅).
Proof.
  apply (C2_analysis_failure_stops_the_item default_settings
           Examples.env_missing_field "r1" (Examples.clean Examples.raw_db) ∅
           (Examples.raw_item "r1" "Bitcoin hits $50k amid ETF optimism")).
  - reflexivity.
  - vm_compute. reflexivity.
  - reflexivity.
  - reflexivity.
  - right. right.
    exists (delete "priority" Examples.good_analysis), "priority".
    split; [reflexivity|]. split; [cbn; tauto|]. vm_compute. reflexivity.
Defined.

Lemma create_processed_spec (env : Processor.Env) (raw : RawContent)
    (analysis translation similarity paraphrase : dict) (s s1 : Session)
    (processed : ProcessedContent) :
  Processor._create_processed_content env raw analysis translation similarity
    paraphrase s = Some (processed, s1) ->
  s1 = in_transaction (set_processed processed) s
  /\ pc_id processed = Processor.new_id env
  /\ pc_raw_content_id processed = rc_id raw
  /\ Processor.flush_raises env = false.
Proof.
  unfold Processor._create_processed_content. intros H.
  repeat (apply bind_some in H; destruct H as [? [? H]]).
  destruct (Processor.flush_raises env) eqn:Ef; [discriminate|].
  cbn [orb] in H. destruct (bool_decide _) in H; [discriminate|].
  inversion H; subst; cbn. auto.
Qed.

Ltac nothing_committed :=
  repeat split;
  try congruence; try discriminate;
  try (intros [?|[?|?]]; discriminate).

(** The claim C5 as the specification words it fails: not every failing
    step keeps the item uncommitted. When the translator raises, the stage
    falls back to the raw text; when the push on the publishing queue fails
    after the commit, the failure is logged and nothing else happens. At the
    input below every push on the queue is refused: the processed item and
    the consumed mark are committed all the same. *)
Lemma C5_counterexample :
  ~ (forall (settings : Settings) (env : Processor.Env) (content_id : string)
            (s s' : Session) (r r' : Redis.keyspace) (out : Processor.outcome),
        pending s = committed s ->
        Processor.process_single_content settings env content_id s r
        = (out, s', r') ->
        Processor.query_raises env = true
        \/ Processor.flush_raises env = true
        \/ Processor.commit_raises env = true
        \/ Processor.translator_result env = None
        \/ (forall item,
               fst (Redis.lpush "content_publishing_queue" item r) = false) ->
        committed s' = committed s).
Proof.
  intros claim.
  set (run := Processor.process_single_content default_settings Examples.env_ok
                "r1" (Examples.clean Examples.raw_db) Examples.blocked_queue).
  assert (H : committed (snd (fst run)) = committed (Examples.clean Examples.raw_db)).
  { apply (claim default_settings Examples.env_ok "r1"
             (Examples.clean Examples.raw_db) (snd (fst run))
             Examples.blocked_queue (snd run) (fst (fst run))).
    - reflexivity.
    - fold run. destruct run as [[out s'] r']. reflexivity.
    - do 4 right. intros item.
      unfold Redis.lpush, Redis.cmd_lpush, Examples.blocked_queue.
      rewrite lookup_singleton_eq. reflexivity. }
  apply (f_equal (fun db => rc_processed <$> raw_content db !! "r1")) in H.
  vm_compute in H. discriminate.
Qed.

(** C5 (amended). Starting from a session without pending changes, a call
    of the orchestrator either commits nothing (the committed store and the
    queues are as before: the item was absent or already consumed, its
    analysis failed, or a step raised and the transaction was rolled back),
    or commits in one transaction both the processed item and the consumed
    mark of the raw item. When the query for the raw item, the building and
    flush of the processed item, or the commit raises, the call never yields
    the second case, and the session has no pending change afterwards. *)
Theorem C5_consumed_mark_commits_with_processed_item :
  forall (settings : Settings) (env : Processor.Env) (content_id : string)
         (s s' : Session) (r r' : Redis.keyspace) (out : Processor.outcome),
    pending s = committed s ->
    Processor.process_single_content settings env content_id s r = (out, s', r') ->
    pending s' = committed s'
    /\ ((forall pid hitl, out <> Processor.Processed pid hitl) ->
        committed s' = committed s /\ r' = r)
    /\ (Processor.query_raises env = true \/ Processor.flush_raises env = true
        \/ Processor.commit_raises env = true ->
        forall pid hitl, out <> Processor.Processed pid hitl)
    /\ (forall raw analysis,
           raw_content (pending s) !! content_id = Some raw ->
           Processor._analyze_content env raw = Some analysis ->
           Processor._create_processed_content env raw analysis
             (Processor._translate_content env raw analysis)
             (Processor._check_similarity env raw
                (Processor._translate_content env raw analysis))
             (Processor._paraphrase_content env) s = None ->
           forall pid hitl, out <> Processor.Processed pid hitl)
    /\ (out = Processor.Raised -> s' = rollback s)
    /\ (forall pid hitl, out = Processor.Processed pid hitl ->
        exists raw p,
          raw_content (committed s) !! content_id = Some raw
          /\ rc_processed raw = false
          /\ raw_content (committed s') !! content_id
             = Some (Processor.mark_processed raw)
          /\ processed_content (committed s') !! pid = Some p
          /\ pc_raw_content_id p = rc_id raw
          /\ pc_requires_hitl p = hitl).
Proof.
  intros settings env content_id s s' r r' out Hclean Hrun.
  unfold Processor.process_single_content in Hrun.
  destruct (Processor.query_raises env) eqn:Eq.
  { inversion Hrun; subst. cbn. nothing_committed. }
  destruct (raw_content (pending s) !! content_id) as [raw|] eqn:Eraw.
  2:{ inversion Hrun; subst. nothing_committed. }
  destruct (rc_processed raw) eqn:Eproc.
  { inversion Hrun; subst. nothing_committed. }
  destruct (Processor._analyze_content env raw) as [analysis|] eqn:Ean.
  2:{ inversion Hrun; subst. nothing_committed. }
  destruct (negb (Processor.nonempty analysis)).
  { inversion Hrun; subst. nothing_committed. }
  destruct (Processor._create_processed_content _ _ _ _ _ _ _)
    as [[processed s1]|] eqn:Ecreate.
  2:{ inversion Hrun; subst. cbn. nothing_committed. }
  pose proof Ecreate as Hcreated.
  apply create_processed_spec in Ecreate.
  destruct Ecreate as [-> [Hid [Hraw Hflush]]].
  destruct (Processor.commit_raises env) eqn:Ec.
  { inversion Hrun; subst. cbn. nothing_committed. }
  inversion Hrun; subst. cbn.
  split; [reflexivity|]. split.
  { intros H. exfalso. eapply H. reflexivity. }
  split.
  { intros [H|[H|H]]; congruence. }
  split.
  { intros raw0 analysis0 Hraw0 Han0 Hnone. congruence. }
  split; [discriminate|].
  intros pid hitl Hout. inversion Hout; subst.
  exists raw, (Processor.with_gate
                 (Gate._check_hitl_requirements settings processed analysis)
                 processed).
  rewrite <- Hclean. split; [exact Eraw|]. split; [exact Eproc|].
  split; [apply lookup_insert_eq|]. split; [apply lookup_insert_eq|].
  split; [exact Hraw | reflexivity].
Qed.

Lemma C5_witness :
  pending (snd (fst (Processor.process_single_content default_settings
                       Examples.env_ok "r1" (Examples.clean Examples.raw_db) ∅)))
  = committed (snd (fst (Processor.process_single_content default_settings
                           Examples.env_ok "r1" (Examples.clean Examples.raw_db) ∅))).
Proof.
  set (run := Processor.process_single_content default_settings Examples.env_ok
                "r1" (Examples.clean Examples.raw_db) ∅).
  apply (C5_consumed_mark_commits_with_processed_item default_settings
           Examples.env_ok "r1" (Examples.clean Examples.raw_db) (snd (fst run))
           ∅ (snd run) (fst (fst run))).
  - reflexivity.
  - fold run. destruct run as [[out s'] r']. reflexivity.
Defined.

(** ** Publishing *)

(** The ways a call of [publish_content] can end. *)
Lemma publish_content_outcome (settings : Settings)
    (config : Publisher.AffiliateConfig) (env : Publisher.Env) (id : string)
    (s s' : Session) (channel channel' : list Publisher.sent_message) (ok : bool) :
  Publisher.publish_content settings config env id s channel = (ok, s', channel') ->
  ((Publisher.query_raises env = true \/ failed s = true)
   /\ ok = false /\ s' = rollback s /\ channel' = channel)
  \/ (Publisher.query_raises env = false /\ failed s = false
      /\ ((processed_content (pending s) !! id = None
           /\ ok = false /\ s' = s /\ channel' = channel)
          \/ (exists p, processed_content (pending s) !! id = Some p
                        /\ pc_status p <> ContentStatus.READY
                        /\ ok = false /\ s' = s /\ channel' = channel)
          \/ (exists p, processed_content (pending s) !! id = Some p
                        /\ pc_status p = ContentStatus.READY
                        /\ Publisher.existing_post id (pending s) <> None
                        /\ ok = true /\ s' = s /\ channel' = channel)
          \/ (exists p, processed_content (pending s) !! id = Some p
                        /\ pc_status p = ContentStatus.READY
                        /\ Publisher.existing_post id (pending s) = None
                        /\ ((ok = false /\ s' = s /\ channel' = channel)
                            \/ (exists message post,
                                   pp_processed_content_id post = pc_id p
                                   /\ channel' = message :: channel
                                   /\ ((ok = false
                                        /\ s' = commit_fails
                                                  (in_transaction
                                                     (add_published post) s))
                                       \/ (ok = false
                                           /\ s' = Examples.clean
                                                     (add_published post
                                                        (pending s)))
                                       \/ (ok = true
                                           /\ s' = Examples.clean
                                                     (set_processed
                                                        (Publisher.with_status
                                                           ContentStatus.PUBLISHED p)
                                                        (add_published post
                                                           (pending s)))))))))).
Proof.
  unfold Publisher.publish_content. intros H.
  destruct (Publisher.query_raises env) eqn:Eq; cbn [orb] in H.
  { inversion H; subst. left. auto. }
  destruct (failed s) eqn:Ef.
  { inversion H; subst. left. auto. }
  right. split; [reflexivity|]. split; [reflexivity|].
  destruct (processed_content (pending s) !! id) as [p|] eqn:Ep.
  2:{ inversion H; subst. left. auto. }
  right.
  destruct (String.eqb (pc_status p) ContentStatus.READY) eqn:Est; cbn [negb] in H.
  2:{ inversion H; subst. left. exists p. apply String.eqb_neq in Est. auto. }
  right. apply String.eqb_eq in Est.
  destruct (Publisher.existing_post id (pending s)) as [post0|] eqn:Eex.
  { inversion H; subst. left. exists p. repeat split; auto; discriminate. }
  right. exists p. do 3 (split; [assumption || reflexivity|]).
  unfold Publisher._publish_to_telegram in H.
  destruct (Publisher.bot_initialized env); cbn [negb] in H.
  2:{ inversion H; subst. left. auto. }
  destruct (Publisher.image_urls env) as [|image_url urls];
    [|destruct (Publisher.photo_message_id env) as [photo_id|]];
    (destruct (Publisher.text_message_id env) as [text_id|]);
    cbn beta iota zeta in H;
    try (inversion H; subst; left; auto; fail);
    (destruct (Publisher.post_commit_raises env);
     [ inversion H; subst; right; do 2 eexists;
       (split; [|split; [reflexivity|]; left; split; reflexivity]); reflexivity
     | destruct (Publisher.status_commit_raises env);
       inversion H; subst; right; do 2 eexists;
       (split;
        [| split; [reflexivity|];
           ((right; left; split; reflexivity)
            || (right; right; split; reflexivity)) ]);
       reflexivity ]).
Qed.

(** C10. A call of the publish operation on an item whose status is not
    "ready" returns [False] without sending anything and without committing
    anything (so without creating a published record); conversely, whenever a
    call sends a message or changes the committed store, the item it was
    called on is in status "ready". *)
Theorem C10_only_ready_items_are_sent :
  forall (settings : Settings) (config : Publisher.AffiliateConfig)
         (env : Publisher.Env) (id : string) (s s' : Session)
         (channel channel' : list Publisher.sent_message) (ok : bool),
    Publisher.publish_content settings config env id s channel = (ok, s', channel') ->
    (forall p, processed_content (pending s) !! id = Some p ->
               pc_status p <> ContentStatus.READY ->
               ok = false /\ channel' = channel
               /\ committed s' = committed s /\ (s' = s \/ s' = rollback s))
    /\ (channel' <> channel \/ committed s' <> committed s ->
        exists p, processed_content (pending s) !! id = Some p
                  /\ pc_status p = ContentStatus.READY).
Proof.
  intros settings config env id s s' channel channel' ok H.
  apply publish_content_outcome in H.
  destruct H as [[Hq [-> [-> ->]]]
               |[Hq [Hf [[Hnone [-> [-> ->]]]
                       |[[p [Hp [Hst [-> [-> ->]]]]]
                       |[[p [Hp [Hst [Hex [-> [-> ->]]]]]]
                       |[p [Hp [Hst [Hex Hsend]]]]]]]]]].
  - split; [intros; cbn; auto | intros [H|H]; exfalso; apply H; reflexivity].
  - split; [intros; auto | intros [H|H]; exfalso; apply H; reflexivity].
  - split; [intros; auto | intros [H|H]; exfalso; apply H; reflexivity].
  - split; [intros q Hq' Hne; congruence | intros _; eauto].
  - split; [intros q Hq' Hne; congruence | intros _; eauto].
Qed.

Lemma C10_witness :
  fst (fst (Publisher.publish_content default_settings Publisher.affiliate_config
              Examples.send_ok "c1" Examples.published_session [])) = false.
Proof.
  set (call := Publisher.publish_content default_settings
                 Publisher.affiliate_config Examples.send_ok "c1"
                 Examples.published_session []).
  assert (Hcall : call = (fst (fst call), snd (fst call), snd call))
    by (destruct call as [[ok s'] channel']; reflexivity).
  apply (proj1 (C10_only_ready_items_are_sent _ _ _ _ _ _ _ _ _ Hcall))
    with (p := Examples.item "c1" ContentStatus.PUBLISHED (Some "Bitcoin dostig 50k")).
  - vm_compute. reflexivity.
  - cbn. discriminate.
Defined.

Lemma existing_post_none (id : string) (db : DB) :
  Publisher.existing_post id db = None -> Publisher.records_of id db = [].
Proof.
  unfold Publisher.existing_post, Publisher.records_of.
  induction (published_posts db) as [|post posts IH]; cbn; [reflexivity|].
  destruct (String.eqb (pp_processed_content_id post) id); [discriminate | exact IH].
Qed.

Lemma store_ok_add_published (db : DB) (post : PublishedPost) :
  Publisher.store_ok db ->
  Publisher.existing_post (pp_processed_content_id post) db = None ->
  Publisher.store_ok (add_published post db).
Proof.
  intros [Hkey Hone] Hex. split; [exact Hkey|].
  intros id. unfold Publisher.records_of. cbn.
  destruct (String.eqb (pp_processed_content_id post) id) eqn:E.
  - apply String.eqb_eq in E. subst id.
    apply existing_post_none in Hex. unfold Publisher.records_of in Hex.
    cbn. rewrite Hex. cbn. lia.
  - apply Hone.
Qed.

Lemma store_ok_set_processed (db : DB) (p : ProcessedContent) :
  Publisher.store_ok db -> Publisher.store_ok (set_processed p db).
Proof.
  intros [Hkey Hone]. split; [|exact Hone].
  intros key q. cbn. intros Hq.
  destruct (decide (pc_id p = key)) as [Heq|Hne].
  - subst key. rewrite lookup_insert_eq in Hq. congruence.
  - rewrite lookup_insert_ne in Hq by assumption. apply Hkey. assumption.
Qed.

(** The claim C4 as the specification words it fails: on an item already
    published, whose status the first publish set to "published", a second
    call does not return success. *)
Lemma C4_counterexample :
  ~ (forall (settings : Settings) (config : Publisher.AffiliateConfig)
            (env : Publisher.Env) (id : string) (s : Session)
            (channel : list Publisher.sent_message),
        Publisher.existing_post id (pending s) <> None ->
        fst (fst (Publisher.publish_content settings config env id s channel))
        = true).
Proof.
  intros claim.
  specialize (claim default_settings Publisher.affiliate_config Examples.send_ok
                "c1" Examples.published_session []).
  assert (Hex : Publisher.existing_post "c1" (pending Examples.published_session)
                <> None) by (vm_compute; discriminate).
  specialize (claim Hex). vm_compute in claim. discriminate.
Qed.

(** C4 (amended). When a published record already exists for a processed
    item, a call of the publish operation on it sends nothing and creates no
    record: the channel is unchanged and the session is as before (or rolled
    back when the first query raises, because the store fails or the
    session is in a failed transaction). The call returns [True] only if the
    item is still in status "ready", and [False] otherwise, as for an item
    already in status "published". Any call keeps the store well formed: no
    processed item has more than one published record. *)
Theorem C4_publish_is_idempotent :
  forall (settings : Settings) (config : Publisher.AffiliateConfig)
         (env : Publisher.Env) (id : string) (s s' : Session)
         (channel channel' : list Publisher.sent_message) (ok : bool),
    Publisher.session_ok s ->
    Publisher.publish_content settings config env id s channel = (ok, s', channel') ->
    Publisher.session_ok s'
    /\ (Publisher.existing_post id (pending s) <> None ->
        channel' = channel
        /\ (s' = s \/ s' = rollback s)
        /\ (ok = true <->
            Publisher.query_raises env = false /\ failed s = false
            /\ exists p, processed_content (pending s) !! id = Some p
                         /\ pc_status p = ContentStatus.READY)).
Proof.
  intros settings config env id s s' channel channel' ok [Hc Hp] H.
  assert (Hrb : Publisher.session_ok (rollback s)) by (split; exact Hc).
  apply publish_content_outcome in H.
  destruct H as [[Hq [-> [-> ->]]]
               |[Hq [Hf [[Hnone [-> [-> ->]]]
                       |[[p [Hlk [Hst [-> [-> ->]]]]]
                       |[[p [Hlk [Hst [Hex [-> [-> ->]]]]]]
                       |[p [Hlk [Hst [Hex Hsend]]]]]]]]]].
  - split; [exact Hrb|]. intros _. split; [reflexivity|]. split; [auto|].
    split; [discriminate|]. intros [Hq' [Hf' _]].
    destruct Hq as [Hq|Hq]; congruence.
  - split; [split; assumption|]. intros _. split; [reflexivity|]. split; [auto|].
    split; [discriminate | intros [_ [_ [p [Hp' _]]]]; congruence].
  - split; [split; assumption|]. intros _. split; [reflexivity|]. split; [auto|].
    split; [discriminate | intros [_ [_ [q [Hq' Hst']]]]; congruence].
  - split; [split; assumption|]. intros _. split; [reflexivity|]. split; [auto|].
    split; [|reflexivity]. intros _. eauto.
  - split; [|intros Hne; congruence].
    destruct Hsend as [[-> [-> ->]]|[message [post [Hid [-> Hs']]]]].
    + split; assumption.
    + assert (Hkeyed : pc_id p = id) by (apply (proj1 Hp); assumption).
      assert (Hadd : Publisher.store_ok (add_published post (pending s))).
      { apply store_ok_add_published; [exact Hp|]. congruence. }
      destruct Hs' as [[-> ->]|[[-> ->]|[-> ->]]].
      * split; [exact Hc | exact Hadd].
      * split; exact Hadd.
      * split; apply store_ok_set_processed; exact Hadd.
Qed.

Lemma store_ok_ready_db : Publisher.store_ok Examples.ready_db.
Proof.
  split.
  - intros key p. unfold Examples.ready_db, set_processed. cbn. intros Hp.
    destruct (decide ("c1" = key)) as [<-|Hne].
    + rewrite lookup_insert_eq in Hp. inversion Hp. reflexivity.
    + rewrite lookup_insert_ne in Hp by assumption. rewrite lookup_empty in Hp.
      discriminate.
  - intros id. cbn. lia.
Qed.

Lemma C4_witness :
  Publisher.session_ok
    (snd (fst (Publisher.publish_content default_settings
                 Publisher.affiliate_config Examples.send_ok "c1"
                 (Examples.clean Examples.ready_db) []))).
Proof.
  set (call := Publisher.publish_content default_settings
                 Publisher.affiliate_config Examples.send_ok "c1"
                 (Examples.clean Examples.ready_db) []).
  assert (Hcall : call = (fst (fst call), snd (fst call), snd call))
    by (destruct call as [[ok s'] channel']; reflexivity).
  apply (C4_publish_is_idempotent default_settings Publisher.affiliate_config
           Examples.send_ok "c1" (Examples.clean Examples.ready_db) _ [] _ _
           (conj store_ok_ready_db store_ok_ready_db) Hcall).
Defined.

(** Over any sequence of calls the store stays well formed. *)
Lemma publish_all_session_ok (settings : Settings)
    (config : Publisher.AffiliateConfig)
    (calls : list (Publisher.Env * string)) :
  forall (s : Session) (channel : list Publisher.sent_message),
    Publisher.session_ok s ->
    Publisher.session_ok
      (fst (Publisher.publish_all settings config calls s channel)).
Proof.
  induction calls as [|[env id] calls IH]; intros s channel Hs; [exact Hs|].
  cbn [Publisher.publish_all].
  destruct (Publisher.publish_content settings config env id s channel)
    as [[ok s1] channel1] eqn:E.
  apply IH.
  destruct (publish_content_outcome _ _ _ _ _ _ _ _ _ E)
    as [[_ [_ [-> _]]]
       |[_ [_ [[_ [_ [-> _]]]
             |[[p [_ [_ [_ [-> _]]]]]
             |[[p [_ [_ [_ [_ [-> _]]]]]]
             |[p [Hlk [_ [Hex Hsend]]]]]]]]]]; try exact Hs.
  - destruct Hs as [Hc _]. split; exact Hc.
  - destruct Hs as [Hc Hp].
    destruct Hsend as [[_ [-> _]]|[message [post [Hid [_ Hs']]]]].
    + split; assumption.
    + assert (Hkeyed : pc_id p = id) by (apply (proj1 Hp); assumption).
      assert (Hadd : Publisher.store_ok (add_published post (pending s))).
      { apply store_ok_add_published; [exact Hp|]. congruence. }
      destruct Hs' as [[_ ->]|[[_ ->]|[_ ->]]].
      * split; [exact Hc | exact Hadd].
      * split; exact Hadd.
      * split; apply store_ok_set_processed; exact Hadd.
Qed.

Lemma publish_content_archive (settings : Settings)
    (config : Publisher.AffiliateConfig) (env : Publisher.Env) (id : string)
    (db : DB) (channel : list Publisher.sent_message) :
  content_archive
    (committed (snd (fst (Publisher.publish_content settings config env id
                            (Examples.clean db) channel))))
  = content_archive db
  /\ content_archive
       (pending (snd (fst (Publisher.publish_content settings config env id
                             (Examples.clean db) channel))))
     = content_archive db.
Proof.
  destruct (Publisher.publish_content settings config env id (Examples.clean db)
              channel) as [[ok s'] channel'] eqn:E.
  apply publish_content_outcome in E. cbn [fst snd].
  destruct E as [[_ [_ [-> _]]]
                |[_ [_ [[_ [_ [-> _]]]
                      |[[p [_ [_ [_ [-> _]]]]]
                      |[[p [_ [_ [_ [_ [-> _]]]]]]
                      |[p [_ [_ [_ Hsend]]]]]]]]]]; try (split; reflexivity).
  destruct Hsend as [[_ [-> _]]
                    |[message [post [_ [_ [[_ ->]|[[_ ->]|[_ ->]]]]]]]];
    split; reflexivity.
Qed.

Lemma add_to_archive_never_adds (_get_embedding : string -> option (list Q))
    (utcnow : Z) (id title text platform : string) (db : DB) :
  Similarity.add_to_archive _get_embedding utcnow id title text platform
    (Examples.clean db)
  = (false, Examples.clean db).
Proof.
  unfold Similarity.add_to_archive.
  destruct (_get_embedding text); reflexivity.
Qed.

(** C1 (the code departs from the claim). The publish operation never
    touches the archive: after any call on a session without pending changes
    the archive is what it was. At the concrete store [Examples.ready_db]
    the send succeeds, the published record is created and the status set to
    "published", yet the archive stays empty and a later similarity check of
    a text with the same embedding reports no duplicate. The helper
    [add_to_archive], which no publishing path calls, cannot add a row
    either. *)
Theorem C1_publish_appends_no_archive_entry :
  (forall (settings : Settings) (config : Publisher.AffiliateConfig)
          (env : Publisher.Env) (id : string) (db : DB)
          (channel : list Publisher.sent_message),
      content_archive
        (committed (snd (fst (Publisher.publish_content settings config env id
                                (Examples.clean db) channel))))
      = content_archive db)
  /\ (forall (_get_embedding : string -> option (list Q)) (utcnow : Z)
             (id title text platform : string) (db : DB),
         Similarity.add_to_archive _get_embedding utcnow id title text platform
           (Examples.clean db)
         = (false, Examples.clean db))
  /\ fst (fst (Publisher.publish_content default_settings
                 Publisher.affiliate_config Examples.send_ok "c1"
                 (Examples.clean Examples.ready_db) [])) = true
  /\ length (snd (Publisher.publish_content default_settings
                    Publisher.affiliate_config Examples.send_ok "c1"
                    (Examples.clean Examples.ready_db) [])) = 1%nat
  /\ length (Publisher.records_of "c1" (committed Examples.published_session))
     = 1%nat
  /\ pc_status <$> processed_content (committed Examples.published_session) !! "c1"
     = Some ContentStatus.PUBLISHED
  /\ content_archive (committed Examples.published_session) = []
  /\ Similarity.check_similarity Examples.embed_e1 Similarity.dot
       default_settings None false
       (content_archive (committed Examples.published_session))
       Examples.long_text "c2" !! "is_duplicate"
     = Some (JBool false).
Proof.
  split.
  { intros. apply publish_content_archive. }
  split.
  { intros. apply add_to_archive_never_adds. }
  repeat split; vm_compute; reflexivity.
Qed.

(** ** The scheduled-send sweep *)

Lemma scheduled_post_body_keeps (current_time : Z) (post_data : Redis.pyobj)
    (r : Redis.keyspace) :
  Publisher.scheduled_post_body current_time post_data r = None
  \/ Publisher.scheduled_post_body current_time post_data r = Some r.
Proof.
  unfold Publisher.scheduled_post_body.
  destruct (Redis.json_loads post_data) as [[text|post_info]| |]; auto.
  destruct (Publisher.item post_info "publish_at") as [[text|publish_time]|]; auto.
  destruct (publish_time <=? current_time); auto.
Qed.

Lemma process_scheduled_posts_moves_nothing (current_time : Z)
    (r : Redis.keyspace) :
  Publisher.process_scheduled_posts current_time r = r.
Proof.
  unfold Publisher.process_scheduled_posts.
  induction (Redis.smembers "scheduled_posts_queue" r) as [|post_data rest IH];
    [reflexivity|].
  cbn [fold_left].
  destruct (scheduled_post_body_keeps current_time post_data r) as [->| ->];
    exact IH.
Qed.

Lemma smembers_of_list (key : string) (items : list Redis.rstr)
    (r : Redis.keyspace) :
  r !! key = Some (Redis.RList items) -> Redis.smembers key r = [].
Proof.
  intros H. unfold Redis.smembers, Redis.cmd_smembers. rewrite H. reflexivity.
Qed.

(** C7 (the code departs from the claim). The sweep never moves a deferred
    item: whatever the time and the state of Redis, [process_scheduled_posts]
    leaves every key as it is. An item deferred by [schedule_post] sits in a
    Redis list, which the sweep reads with the set command [SMEMBERS] (the
    error reply becomes an empty result), so the sweep does not even see it;
    at the concrete input, the item scheduled for time 50 is still in the
    delayed structure after the sweep at time 100 and the publishing queue
    does not exist. *)
Theorem C7_sweep_moves_nothing :
  (forall (current_time : Z) (r : Redis.keyspace),
      Publisher.process_scheduled_posts current_time r = r)
  /\ (forall (now publish_at : Z) (id : string),
         Redis.smembers "scheduled_posts_queue"
           (snd (Publisher.schedule_post now id publish_at ∅)) = [])
  /\ Publisher.process_scheduled_posts 100
       (snd (Publisher.schedule_post 0 "c1" 50 ∅)) !! "scheduled_posts_queue"
     = Some (Redis.RList
               [Redis.Dumps [("content_id", Redis.DStr "c1");
                             ("publish_at", Redis.DTime 50);
                             ("scheduled_at", Redis.DTime 0)]])
  /\ Publisher.process_scheduled_posts 100
       (snd (Publisher.schedule_post 0 "c1" 50 ∅)) !! "content_publishing_queue"
     = None.
Proof.
  split; [exact process_scheduled_posts_moves_nothing|].
  split.
  { intros now publish_at id. eapply smembers_of_list.
    cbn. apply lookup_insert_eq. }
  rewrite process_scheduled_posts_moves_nothing.
  split; vm_compute; reflexivity.
Qed.

(** ** The affiliate rule over a run of publishes *)

Lemma choose_link_some (links : list Publisher.AffiliateLink) :
  forall (random_value acc : Q),
    links <> [] ->
    (random_value
     <= fold_left (fun acc link => acc + Publisher.link_weight link) links acc)%Q ->
    Publisher.choose_link links random_value acc <> None.
Proof.
  induction links as [|link rest IH]; intros random_value acc Hne Hle;
    [congruence|].
  cbn [Publisher.choose_link].
  destruct (Qle_bool random_value (acc + Publisher.link_weight link)) eqn:E;
    [discriminate|].
  destruct rest as [|link' rest'].
  - cbn in Hle. apply Qle_bool_iff in Hle. congruence.
  - apply IH; [discriminate | exact Hle].
Qed.

Lemma filter_all {A : Type} (f : A -> bool) (l : list A) :
  (forall x, In x l -> f x = true) -> List.filter f l = l.
Proof.
  induction l as [|x l IH]; intros H; [reflexivity|].
  cbn. rewrite (H x (or_introl eq_refl)). f_equal. apply IH.
  intros y Hy. apply H. right. exact Hy.
Qed.

Lemma order_by_sorted (l : list PublishedPost) :
  StronglySorted Publisher.newest_first l -> Publisher.order_by_published_at_desc l = l.
Proof.
  unfold Publisher.order_by_published_at_desc.
  induction 1 as [|p l Hs IH Hall]; [reflexivity|].
  cbn [fold_right]. rewrite IH.
  destruct l as [|q rest]; [reflexivity|].
  cbn [Publisher.insert_desc].
  inversion Hall as [|? ? Hq _]; subst. unfold Publisher.newest_first in Hq.
  destruct (pp_published_at p <? pp_published_at q) eqn:E; [|reflexivity].
  apply Z.ltb_lt in E. lia.
Qed.

Lemma recent_posts_of_run (now frequency : Z) (posts : list PublishedPost) :
  0 <= frequency ->
  StronglySorted Publisher.newest_first posts ->
  (forall post, In post posts -> now - Publisher.hours_24 <= pp_published_at post) ->
  Publisher.recent_posts_query now frequency posts
  = Some (firstn (Z.to_nat frequency) posts).
Proof.
  intros Hf Hs Hw. unfold Publisher.recent_posts_query.
  destruct (frequency <? 0) eqn:E; [apply Z.ltb_lt in E; lia|].
  rewrite filter_all; [rewrite order_by_sorted by assumption; reflexivity|].
  intros post Hin. apply Z.leb_le. apply Hw. exact Hin.
Qed.

Lemma filter_nonempty {A : Type} (f : A -> bool) (l : list A) :
  existsb f l = true -> length (List.filter f l) <> 0%nat.
Proof.
  induction l as [|x l IH]; cbn; [discriminate|].
  destruct (f x); cbn; [discriminate | exact IH].
Qed.

Lemma affiliate_due_of_run (frequency : Z) (posts : list PublishedPost) :
  1 <= frequency ->
  (posts <> [] -> existsb pp_contains_affiliate posts = true) ->
  Publisher.affiliate_due frequency (firstn (Z.to_nat frequency) posts)
  = Publisher.expected_flag frequency (length posts).
Proof.
  intros Hf Haff. unfold Publisher.affiliate_due, Publisher.expected_flag.
  destruct posts as [|post rest].
  { rewrite firstn_nil. reflexivity. }
  cbn [length Nat.eqb orb].
  destruct (frequency <=? Z.of_nat (S (length rest))) eqn:E.
  - apply Z.leb_le in E.
    rewrite length_firstn, Nat.min_l by (cbn [length]; lia).
    rewrite Z2Nat.id by lia. rewrite Z.mod_same by lia.
    apply Bool.orb_true_r.
  - apply Z.leb_gt in E.
    rewrite firstn_all2 by (cbn [length]; lia).
    assert (Hne : length (List.filter pp_contains_affiliate (post :: rest)) <> 0%nat).
    { apply filter_nonempty. apply Haff. discriminate. }
    apply Nat.eqb_neq in Hne. rewrite Hne. cbn [orb].
    rewrite Z.mod_small by (cbn [length]; lia).
    apply Z.eqb_neq. cbn [length]. lia.
Qed.

Lemma should_add_of_run (settings : Settings) (config : Publisher.AffiliateConfig)
    (now : Z) (random_value : Q) (db : DB) :
  1 <= affiliate_link_frequency settings ->
  Publisher.AFFILIATE_LINKS config <> [] ->
  (random_value <= Publisher.total_weight (Publisher.AFFILIATE_LINKS config))%Q ->
  StronglySorted Publisher.newest_first (published_posts db) ->
  (forall post, In post (published_posts db) ->
                now - Publisher.hours_24 <= pp_published_at post) ->
  (published_posts db <> [] ->
   existsb pp_contains_affiliate (published_posts db) = true) ->
  Publisher.affiliate_flag
    (Publisher._should_add_affiliate_link settings config false now random_value db)
  = Publisher.expected_flag (affiliate_link_frequency settings)
      (length (published_posts db)).
Proof.
  intros Hf Hlinks Hdraw Hs Hw Haff.
  unfold Publisher._should_add_affiliate_link.
  rewrite recent_posts_of_run by (assumption || lia).
  rewrite affiliate_due_of_run by assumption.
  destruct (Publisher.expected_flag _ _); [|reflexivity].
  pose proof (choose_link_some _ random_value 0%Q Hlinks Hdraw) as Hsome.
  destruct (Publisher.choose_link _ _ _); [reflexivity | congruence].
Qed.

Section Run.

Variable settings : Settings.
Variable config : Publisher.AffiliateConfig.

Let frequency : Z := affiliate_link_frequency settings.

Hypothesis frequency_positive : 1 <= frequency.
Hypothesis links_configured : Publisher.AFFILIATE_LINKS config <> [].

(** The flags of a run are those of the closed form, as long as the store
    lists its posts newest first, every post lies within 24 hours before
    every publish of the run and not after it, and the store already holds
    an affiliate post unless it is empty. *)
Lemma run_flags (publishes : list (Z * Q)) :
  forall db : DB,
    StronglySorted Z.le (map fst publishes) ->
    Forall (fun publish =>
              (snd publish
               <= Publisher.total_weight (Publisher.AFFILIATE_LINKS config))%Q)
      publishes ->
    (forall t t', In t (map fst publishes) -> In t' (map fst publishes) ->
                  t' - Publisher.hours_24 <= t) ->
    StronglySorted Publisher.newest_first (published_posts db) ->
    (forall post t, In post (published_posts db) -> In t (map fst publishes) ->
                    t - Publisher.hours_24 <= pp_published_at post <= t) ->
    (published_posts db <> [] ->
     existsb pp_contains_affiliate (published_posts db) = true) ->
    fst (Publisher.run settings config publishes db)
    = map (Publisher.expected_flag frequency)
        (seq (length (published_posts db)) (length publishes)).
Proof.
  induction publishes as [|[now random_value] rest IH];
    intros db Htimes Hdraws Hwindow Hsorted Hposts Haff; [reflexivity|].
  cbn [Publisher.run].
  unfold Publisher.record_publish.
  set (flag := Publisher.affiliate_flag
                 (Publisher._should_add_affiliate_link settings config false
                    now random_value db)).
  assert (Hflag : flag = Publisher.expected_flag frequency
                           (length (published_posts db))).
  { apply should_add_of_run; try assumption.
    - inversion Hdraws; subst. assumption.
    - intros post Hin. apply (Hposts post now Hin). left. reflexivity. }
  match goal with
  | |- context [Publisher.run settings config rest ?d] => set (db' := d)
  end.
  cbn [map] in Htimes. inversion Htimes as [|? ? Hrest Hnow]; subst.
  inversion Hdraws as [|? ? _ Hdraws']; subst.
  rewrite List.Forall_forall in Hnow.
  specialize (IH db' Hrest Hdraws').
  destruct (Publisher.run settings config rest db') as [flags db''] eqn:Erun.
  cbn [fst] in IH |- *. cbn [length seq map]. rewrite Hflag. f_equal.
  apply IH.
  - intros t t' Ht Ht'. apply Hwindow; right; assumption.
  - try subst db'. cbn. constructor; [assumption|].
    apply List.Forall_forall. intros post Hin. unfold Publisher.newest_first. cbn.
    apply (Hposts post now Hin). left. reflexivity.
  - try subst db'. cbn. intros post t [<-|Hin] Ht.
    + cbn. split; [|apply Hnow; assumption].
      apply Hwindow; [left; reflexivity | right; assumption].
    + apply Hposts; [assumption | right; assumption].
  - try subst db'. cbn. intros _.
    destruct (published_posts db) as [|post posts] eqn:Eposts.
    + rewrite Hflag. reflexivity.
    + rewrite Haff by discriminate. apply Bool.orb_true_r.
Qed.

End Run.

Lemma count_affiliate_app (l1 l2 : list bool) :
  Publisher.count_affiliate (l1 ++ l2)
  = (Publisher.count_affiliate l1 + Publisher.count_affiliate l2)%nat.
Proof.
  unfold Publisher.count_affiliate. rewrite List.filter_app, length_app.
  reflexivity.
Qed.

Lemma count_affiliate_const (f : nat -> bool) (b : bool) (l : list nat) :
  (forall k, In k l -> f k = b) ->
  Publisher.count_affiliate (map f l) = if b then length l else 0%nat.
Proof.
  unfold Publisher.count_affiliate.
  induction l as [|k l IH]; intros H; [destruct b; reflexivity|].
  cbn [map List.filter]. rewrite (H k (or_introl eq_refl)).
  specialize (IH (fun j Hj => H j (or_intror Hj))).
  destruct b; cbn [length]; rewrite IH; reflexivity.
Qed.

Lemma count_expected_flags (frequency : Z) (n : nat) :
  Z.of_nat n = frequency -> (1 <= n)%nat ->
  Publisher.count_affiliate
    (map (Publisher.expected_flag frequency) (seq 0 (5 * n)))
  = (4 * n + 1)%nat.
Proof.
  intros Hn Hpos.
  replace (5 * n)%nat with (1 + ((n - 1) + 4 * n))%nat by lia.
  rewrite !seq_app, !map_app, !count_affiliate_app.
  rewrite (count_affiliate_const _ true (seq 0 1)).
  2:{ intros k Hk. apply in_seq in Hk. unfold Publisher.expected_flag.
      replace k with 0%nat by lia. reflexivity. }
  rewrite (count_affiliate_const _ false (seq (0 + 1) (n - 1))).
  2:{ intros k Hk. apply in_seq in Hk. unfold Publisher.expected_flag.
      apply Bool.orb_false_iff. split; [apply Nat.eqb_neq; lia|].
      apply Z.leb_gt. lia. }
  rewrite (count_affiliate_const _ true (seq (0 + 1 + (n - 1)) (4 * n))).
  2:{ intros k Hk. apply in_seq in Hk. unfold Publisher.expected_flag.
      apply Bool.orb_true_iff. right. apply Z.leb_le. lia. }
  rewrite !length_seq. lia.
Qed.

(** The claim C6 as the specification words it fails for runs that do not
    start on an empty history: with frequency 2, the ten publishes that
    follow two earlier ones all carry an affiliate block. *)
Lemma C6_counterexample :
  ~ (forall (settings : Settings) (config : Publisher.AffiliateConfig)
            (publishes : list (Z * Q)) (db : DB),
        2 <= affiliate_link_frequency settings ->
        Publisher.AFFILIATE_LINKS config <> [] ->
        Z.of_nat (length publishes) = 5 * affiliate_link_frequency settings ->
        StronglySorted Z.le (map fst publishes) ->
        (forall t t', In t (map fst publishes) -> In t' (map fst publishes) ->
                      t' - Publisher.hours_24 <= t) ->
        Forall (fun publish =>
                  (snd publish
                   <= Publisher.total_weight (Publisher.AFFILIATE_LINKS config))%Q)
          publishes ->
        (0 < Publisher.count_affiliate
               (fst (Publisher.run settings config publishes db))
         < length (fst (Publisher.run settings config publishes db)))%nat).
Proof.
  intros claim.
  specialize (claim Examples.frequency_2 Publisher.affiliate_config
                (Examples.publishes_from 2 10) Examples.after_two_publishes).
  assert (H : (Publisher.count_affiliate
                 (fst (Publisher.run Examples.frequency_2 Publisher.affiliate_config
                         (Examples.publishes_from 2 10)
                         Examples.after_two_publishes))
               = length (fst (Publisher.run Examples.frequency_2
                                Publisher.affiliate_config
                                (Examples.publishes_from 2 10)
                                Examples.after_two_publishes)))%nat)
    by (vm_compute; reflexivity).
  rewrite H in claim.
  enough (Hlt : (length (fst (Publisher.run Examples.frequency_2
                                Publisher.affiliate_config
                                (Examples.publishes_from 2 10)
                                Examples.after_two_publishes))
                 < length (fst (Publisher.run Examples.frequency_2
                                  Publisher.affiliate_config
                                  (Examples.publishes_from 2 10)
                                  Examples.after_two_publishes)))%nat) by lia.
  apply claim.
  - cbn. lia.
  - discriminate.
  - reflexivity.
  - cbn. repeat (constructor; try lia).
  - unfold Publisher.hours_24. cbn. intros t t' Ht Ht'. intuition lia.
  - cbn. repeat constructor; unfold Qle; cbn; lia.
Qed.

(** What the rule does on a run of 5×N publishes with affiliate frequency
    N ≥ 2 that starts on an empty history of published records and whose
    publishes all lie within one 24-hour window: it tags 4×N+1 posts, the
    first one and every one from number N+1 on. *)
Lemma affiliate_count_from_empty_history :
  forall (settings : Settings) (config : Publisher.AffiliateConfig)
         (publishes : list (Z * Q)) (db : DB),
    2 <= affiliate_link_frequency settings ->
    Publisher.AFFILIATE_LINKS config <> [] ->
    published_posts db = [] ->
    Z.of_nat (length publishes) = 5 * affiliate_link_frequency settings ->
    StronglySorted Z.le (map fst publishes) ->
    (forall t t', In t (map fst publishes) -> In t' (map fst publishes) ->
                  t' - Publisher.hours_24 <= t) ->
    Forall (fun publish =>
              (snd publish
               <= Publisher.total_weight (Publisher.AFFILIATE_LINKS config))%Q)
      publishes ->
    fst (Publisher.run settings config publishes db)
    = map (Publisher.expected_flag (affiliate_link_frequency settings))
        (seq 0 (length publishes))
    /\ Z.of_nat (Publisher.count_affiliate
                   (fst (Publisher.run settings config publishes db)))
       = 4 * affiliate_link_frequency settings + 1
    /\ (0 < Publisher.count_affiliate
              (fst (Publisher.run settings config publishes db))
        < length (fst (Publisher.run settings config publishes db)))%nat.
Proof.
  intros settings config publishes db Hf Hlinks Hempty Hlen Htimes Hwindow Hdraws.
  assert (Hflags : fst (Publisher.run settings config publishes db)
                   = map (Publisher.expected_flag (affiliate_link_frequency settings))
                       (seq 0 (length publishes))).
  { assert (Hpos : 1 <= affiliate_link_frequency settings) by lia.
    pose proof (run_flags settings config Hpos Hlinks publishes db Htimes Hdraws
                  Hwindow) as Hrun.
    rewrite Hempty in Hrun.
    apply Hrun; [constructor | intros post t [] | congruence]. }
  split; [exact Hflags|].
  rewrite Hflags, length_map, length_seq.
  set (n := Z.to_nat (affiliate_link_frequency settings)).
  assert (Hn : Z.of_nat n = affiliate_link_frequency settings)
    by (subst n; lia).
  replace (length publishes) with (5 * n)%nat by lia.
  rewrite (count_expected_flags _ n Hn) by lia.
  lia.
Qed.

Lemma count_affiliate_repeat (n : nat) :
  Publisher.count_affiliate (repeat true n) = n.
Proof.
  unfold Publisher.count_affiliate.
  induction n as [|n IH]; [reflexivity|]. cbn. rewrite IH. reflexivity.
Qed.

Lemma expected_flags_of_full_window (frequency : Z) (n : nat) :
  forall start : nat,
    frequency <= Z.of_nat start ->
    map (Publisher.expected_flag frequency) (seq start n) = repeat true n.
Proof.
  induction n as [|n IH]; intros start Hfull; [reflexivity|].
  cbn [seq map repeat]. f_equal.
  - unfold Publisher.expected_flag. apply Bool.orb_true_iff. right.
    apply Z.leb_le. exact Hfull.
  - apply IH. lia.
Qed.

(** C6 (the code departs from the claim). Once N published records lie in
    the window of the last 24 hours, the rule of frequency N tags every
    post: the query returns N rows and N is a multiple of N, so the second
    test of the condition always holds. Every publish of a run that follows
    N or more recent publishes carries an affiliate block, and the count of
    tagged posts is the number of posts, whereas the comment on the
    condition reads "if less than 1 in N posts have affiliate links, add
    one". The run is one whose publishes are in time order and lie within
    24 hours of each other and of the records of the store, with draws
    within the total weight of a non-empty list of links and a store that
    lists its records newest first and holds a tagged one. *)
Theorem C6_full_window_tags_every_post :
  forall (settings : Settings) (config : Publisher.AffiliateConfig)
         (publishes : list (Z * Q)) (db : DB),
    1 <= affiliate_link_frequency settings ->
    Publisher.AFFILIATE_LINKS config <> [] ->
    affiliate_link_frequency settings <= Z.of_nat (length (published_posts db)) ->
    existsb pp_contains_affiliate (published_posts db) = true ->
    StronglySorted Publisher.newest_first (published_posts db) ->
    StronglySorted Z.le (map fst publishes) ->
    (forall t t', In t (map fst publishes) -> In t' (map fst publishes) ->
                  t' - Publisher.hours_24 <= t) ->
    (forall post t, In post (published_posts db) -> In t (map fst publishes) ->
                    t - Publisher.hours_24 <= pp_published_at post <= t) ->
    Forall (fun publish =>
              (snd publish
               <= Publisher.total_weight (Publisher.AFFILIATE_LINKS config))%Q)
      publishes ->
    fst (Publisher.run settings config publishes db)
    = repeat true (length publishes)
    /\ Publisher.count_affiliate (fst (Publisher.run settings config publishes db))
       = length (fst (Publisher.run settings config publishes db)).
Proof.
  intros settings config publishes db Hf Hlinks Hfull Haff Hsorted Htimes
         Hwindow Hposts Hdraws.
  assert (Hflags : fst (Publisher.run settings config publishes db)
                   = repeat true (length publishes)).
  { rewrite (run_flags settings config Hf Hlinks publishes db Htimes Hdraws
               Hwindow Hsorted Hposts (fun _ => Haff)).
    apply expected_flags_of_full_window. exact Hfull. }
  split; [exact Hflags|].
  rewrite Hflags, count_affiliate_repeat, repeat_length. reflexivity.
Qed.

Lemma C6_witness :
  fst (Publisher.run Examples.frequency_2 Publisher.affiliate_config
         (Examples.publishes_from 2 10) Examples.after_two_publishes)
  = repeat true 10
  /\ Publisher.count_affiliate
       (fst (Publisher.run Examples.frequency_2 Publisher.affiliate_config
               (Examples.publishes_from 2 10) Examples.after_two_publishes))
     = length (fst (Publisher.run Examples.frequency_2 Publisher.affiliate_config
                      (Examples.publishes_from 2 10)
                      Examples.after_two_publishes)).
Proof.
  apply (C6_full_window_tags_every_post Examples.frequency_2
           Publisher.affiliate_config (Examples.publishes_from 2 10)
           Examples.after_two_publishes).
  - cbn. lia.
  - discriminate.
  - vm_compute. discriminate.
  - vm_compute. reflexivity.
  - vm_compute. repeat constructor; discriminate.
  - cbn. repeat (constructor; try lia).
  - unfold Publisher.hours_24. cbn. intros t t' Ht Ht'. intuition lia.
  - intros post t Hpost Ht.
    assert (Hp : 0 <= pp_published_at post <= 1).
    { vm_compute in Hpost.
      destruct Hpost as [<-|[<-|[]]]; vm_compute; split; discriminate. }
    assert (Ht' : 2 <= t <= 11).
    { vm_compute in Ht.
      repeat (destruct Ht as [<-|Ht]; [lia|]). destruct Ht. }
    unfold Publisher.hours_24. lia.
  - cbn. repeat constructor; unfold Qle; cbn; lia.
Defined.

(** ** Deduplication *)

Lemma insert_desc_in (x y : Similarity.SimilarItem) (l : list Similarity.SimilarItem) :
  In y (Similarity.insert_desc x l) <-> y = x \/ In y l.
Proof.
  induction l as [|z l IH]; cbn; [intuition congruence|].
  destruct (Py.gt _ _); cbn; [rewrite IH|]; intuition congruence.
Qed.

Lemma sort_desc_in (y : Similarity.SimilarItem) (l : list Similarity.SimilarItem) :
  In y (Similarity.sort_desc l) <-> In y l.
Proof.
  unfold Similarity.sort_desc.
  induction l as [|x l IH]; cbn [fold_right]; [tauto|].
  rewrite insert_desc_in, IH. cbn. intuition congruence.
Qed.

Lemma insert_desc_sorted (x : Similarity.SimilarItem)
    (l : list Similarity.SimilarItem) :
  StronglySorted Similarity.by_similarity l ->
  StronglySorted Similarity.by_similarity (Similarity.insert_desc x l).
Proof.
  induction 1 as [|z l Hs IH Hall]; cbn; [repeat constructor|].
  destruct (Py.gt (Similarity.si_similarity z) (Similarity.si_similarity x)) eqn:E.
  - apply gt_true_iff in E. constructor; [exact IH|].
    apply List.Forall_forall. intros y Hy. apply insert_desc_in in Hy.
    destruct Hy as [->|Hy].
    + apply Qlt_le_weak. exact E.
    + rewrite List.Forall_forall in Hall. apply Hall. exact Hy.
  - apply gt_false_iff in E. constructor; [constructor; assumption|].
    constructor; [exact E|].
    rewrite List.Forall_forall in Hall |- *. intros y Hy.
    unfold Similarity.by_similarity in *. eapply Qle_trans; [apply Hall; exact Hy | exact E].
Qed.

Lemma sort_desc_sorted (l : list Similarity.SimilarItem) :
  StronglySorted Similarity.by_similarity (Similarity.sort_desc l).
Proof.
  unfold Similarity.sort_desc.
  induction l as [|x l IH]; cbn [fold_right]; [constructor|].
  apply insert_desc_sorted. exact IH.
Qed.

(** The first of the sorted items is at least as similar as any item. *)
Lemma sort_desc_head (l : list Similarity.SimilarItem) (x : Similarity.SimilarItem) :
  In x l ->
  exists h t, Similarity.sort_desc l = h :: t
              /\ (Similarity.si_similarity x <= Similarity.si_similarity h)%Q.
Proof.
  intros Hin. apply sort_desc_in in Hin.
  pose proof (sort_desc_sorted l) as Hs.
  destruct (Similarity.sort_desc l) as [|h t]; [destruct Hin|].
  exists h, t. split; [reflexivity|].
  destruct Hin as [->|Hin]; [apply Qle_refl|].
  inversion Hs as [|? ? _ Hall]; subst.
  rewrite List.Forall_forall in Hall. apply Hall. exact Hin.
Qed.

Lemma py_max_ge_first (x : Q) (rest : list Q) :
  (x <= Similarity.py_max (x :: rest))%Q.
Proof.
  cbn [Similarity.py_max]. revert x.
  induction rest as [|y rest IH]; intros x; cbn [fold_left]; [apply Qle_refl|].
  destruct (Py.gt y x) eqn:E.
  - apply gt_true_iff in E. eapply Qle_trans; [apply Qlt_le_weak; exact E | apply IH].
  - apply IH.
Qed.

Section Dedup.

Variable _get_embedding : string -> option (list Q).
Variable cosine_similarity : list Q -> list Q -> option Q.

Lemma scan_finds (embedding stored : list Q) (similarity : Q)
    (entry : ContentArchive) (entries : list ContentArchive) :
  In entry entries ->
  ca_content_embedding entry = Embedding stored ->
  ca_content_text entry <> None ->
  cosine_similarity embedding stored = Some similarity ->
  (3 # 10 < similarity)%Q ->
  exists item,
    In item (Similarity.scan cosine_similarity embedding entries)
    /\ Similarity.si_similarity item = similarity.
Proof.
  intros Hin Hstored Htext Hcos Hgt. apply gt_true_iff in Hgt.
  induction entries as [|e entries IH]; [destruct Hin|].
  cbn [Similarity.scan].
  destruct Hin as [->|Hin].
  - rewrite Hstored, Hcos, Hgt.
    destruct (ca_content_text entry) as [content_text|]; [|congruence].
    eexists. split; [left; reflexivity|]. reflexivity.
  - destruct (IH Hin) as [item [Hitem Hsim]].
    exists item. split; [|exact Hsim].
    destruct (ca_content_embedding e) as [| |v]; try exact Hitem.
    destruct (cosine_similarity embedding v) as [q|]; [|exact Hitem].
    destruct (Py.gt q (3 # 10)); [|exact Hitem].
    destruct (ca_content_text e); [right|]; exact Hitem.
Qed.

Lemma find_similar_content_head (archive : list ContentArchive)
    (embedding stored : list Q) (similarity : Q) (entry : ContentArchive)
    (text : string) :
  In entry (Similarity.archive_query archive) ->
  ca_content_embedding entry = Embedding stored ->
  ca_content_text entry <> None ->
  cosine_similarity embedding stored = Some similarity ->
  (3 # 10 < similarity)%Q ->
  exists h t,
    Similarity._find_similar_content cosine_similarity false archive embedding
      text 10 = h :: t
    /\ (similarity <= Similarity.si_similarity h)%Q.
Proof.
  intros Hin Hstored Htext Hcos Hgt. unfold Similarity._find_similar_content.
  destruct (Similarity.archive_query archive) as [|e entries] eqn:Eq;
    [destruct Hin|].
  destruct (scan_finds embedding stored similarity entry (e :: entries)
              Hin Hstored Htext Hcos Hgt) as [item [Hitem Hsim]].
  destruct (sort_desc_head _ item Hitem) as [h [t [Hsort Hle]]].
  rewrite Hsort. cbn [firstn]. exists h, (firstn 9 t).
  split; [reflexivity|]. rewrite <- Hsim. exact Hle.
Qed.

End Dedup.

(** The claim C9 as the specification words it fails on an archive of more
    than 1000 rows: the query reads the first 1000 rows only, and a row with
    the candidate's own embedding beyond them is not compared. *)
Lemma C9_counterexample :
  ~ (forall (_get_embedding : string -> option (list Q))
            (cosine_similarity : list Q -> list Q -> option Q)
            (settings : Settings) (archive : list ContentArchive)
            (text content_id : string) (E : list Q) (entry : ContentArchive)
            (similarity : Q),
        _get_embedding text = Some E ->
        In entry archive ->
        ca_content_embedding entry = Embedding E ->
        cosine_similarity E E = Some similarity ->
        (similarity == 1)%Q ->
        (min_similarity_threshold settings < 1)%Q ->
        Similarity.check_similarity _get_embedding cosine_similarity settings
          None false archive text content_id !! "is_duplicate"
        = Some (JBool true)).
Proof.
  intros claim.
  specialize (claim Examples.embed_e1 Similarity.dot default_settings
                Examples.large_archive Examples.long_text "c2" [1%Q; 0%Q]
                (Examples.archive_entry "same" [1%Q; 0%Q]) (1 * 1 + (0 * 0 + 0))%Q).
  assert (Hrun : Similarity.check_similarity Examples.embed_e1 Similarity.dot
                   default_settings None false Examples.large_archive
                   Examples.long_text "c2" !! "is_duplicate"
                 = Some (JBool false)) by (vm_compute; reflexivity).
  rewrite Hrun in claim.
  enough (H : Some (JBool false) = Some (JBool true)) by discriminate.
  apply claim.
  - reflexivity.
  - unfold Examples.large_archive. apply in_or_app. right. left. reflexivity.
  - reflexivity.
  - reflexivity.
  - reflexivity.
  - reflexivity.
Qed.

(** C9 (amended). On a cache miss with the embedding computed, if a row
    that has a text and whose embedding equals the candidate's embedding E is
    among the rows the archive query reads (the first 1000 rows whose
    embedding column is not SQL NULL) and the cosine similarity of E with
    itself is 1.0, then [is_duplicate] is true for every duplicate threshold
    strictly below 1.0: the row passes the 0.3 filter, the reported score is
    the maximum over the retained rows, and [is_duplicate] is the test
    score > threshold. *)
Theorem C9_identical_embedding_is_duplicate :
  forall (_get_embedding : string -> option (list Q))
         (cosine_similarity : list Q -> list Q -> option Q)
         (settings : Settings) (archive : list ContentArchive)
         (text content_id : string) (E : list Q) (entry : ContentArchive)
         (similarity : Q),
    _get_embedding text = Some E ->
    In entry (Similarity.archive_query archive) ->
    ca_content_embedding entry = Embedding E ->
    ca_content_text entry <> None ->
    cosine_similarity E E = Some similarity ->
    (similarity == 1)%Q ->
    (min_similarity_threshold settings < 1)%Q ->
    Similarity.check_similarity _get_embedding cosine_similarity settings
      None false archive text content_id !! "is_duplicate"
    = Some (JBool true).
Proof.
  intros _get_embedding cosine_similarity settings archive text content_id E
         entry similarity Hemb Hin Hstored Htext Hcos Hone Hthr.
  unfold Similarity.check_similarity. rewrite Hemb.
  assert (Hgt : (3 # 10 < similarity)%Q) by (rewrite Hone; reflexivity).
  destruct (find_similar_content_head cosine_similarity archive E E similarity
              entry text Hin Hstored Htext Hcos Hgt) as [h [t [-> Hle]]].
  cbn [map].
  assert (Hdup : Py.gt (Similarity.py_max
                          (Similarity.si_similarity h
                           :: map Similarity.si_similarity t))
                   (min_similarity_threshold settings) = true).
  { apply gt_true_iff.
    eapply Qlt_le_trans; [exact Hthr|]. rewrite <- Hone.
    eapply Qle_trans; [exact Hle | apply py_max_ge_first]. }
  rewrite Hdup.
  rewrite lookup_insert_ne by discriminate.
  rewrite lookup_insert_ne by discriminate.
  rewrite lookup_insert_ne by discriminate.
  apply lookup_insert_eq.
Qed.

Lemma C9_witness :
  Similarity.check_similarity Examples.embed_e1 Similarity.dot default_settings
    None false [Examples.archive_entry "same" [1%Q; 0%Q]] Examples.long_text "c2"
    !! "is_duplicate"
  = Some (JBool true).
Proof.
  apply (C9_identical_embedding_is_duplicate Examples.embed_e1 Similarity.dot
           default_settings [Examples.archive_entry "same" [1%Q; 0%Q]]
           Examples.long_text "c2" [1%Q; 0%Q]
           (Examples.archive_entry "same" [1%Q; 0%Q]) (1 * 1 + (0 * 0 + 0))%Q).
  - reflexivity.
  - left. reflexivity.
  - reflexivity.
  - discriminate.
  - reflexivity.
  - reflexivity.
  - reflexivity.
Defined.

(** * Further properties of the code *)

(** ** Risk level and pipeline *)

Lemma is_str_map_JStr (tag : string) (tags : list string) :
  existsb (is_str tag) (map JStr tags) = true <-> In tag tags.
Proof.
  rewrite existsb_exists. split.
  - intros [v [Hin Hv]]. apply in_map_iff in Hin. destruct Hin as [t [<- Ht]].
    cbn in Hv. apply String.eqb_eq in Hv. subst. exact Ht.
  - intros Hin. exists (JStr tag). split; [apply in_map; exact Hin|].
    cbn. apply String.eqb_refl.
Qed.

Lemma existsb_is_str_map (tag : string) (tags : list string) :
  existsb (is_str tag) (map JStr tags) = existsb (String.eqb tag) tags.
Proof.
  induction tags as [|t tags IH]; [reflexivity|].
  cbn. rewrite IH. reflexivity.
Qed.

Lemma any_in_map_JStr (wanted tags : list string) :
  any_in wanted (JArr (map JStr tags))
  = Some (existsb (fun tag => existsb (String.eqb tag) tags) wanted).
Proof.
  induction wanted as [|w wanted IH]; [reflexivity|].
  cbn [any_in py_in existsb].
  rewrite existsb_is_str_map. destruct (existsb (String.eqb w) tags); [reflexivity | exact IH].
Qed.

Lemma existsb_eqb_In (tag : string) (tags : list string) :
  existsb (String.eqb tag) tags = true <-> In tag tags.
Proof.
  rewrite existsb_exists. split.
  - intros [t [Hin Ht]]. apply String.eqb_eq in Ht. subst. exact Hin.
  - intros Hin. exists tag. split; [exact Hin | apply String.eqb_refl].
Qed.

(** X1. On risk tags that are a list of strings (or absent, which counts
    as the empty list), the risk level is always defined: it is "high"
    exactly when "hack", "scam" or "exploit" is among the tags, "medium"
    exactly when none of those is but "rumor" or "regulation" is, and "low"
    exactly when none of the five is. *)
Theorem X1_risk_level_by_membership :
  forall (analysis : dict) (tags : list string),
    get analysis "risk_tags" (JArr []) = JArr (map JStr tags) ->
    exists level,
      Gate._calculate_risk_level analysis = Some level
      /\ (level = "high"
          <-> In "hack" tags \/ In "scam" tags \/ In "exploit" tags)
      /\ (level = "medium"
          <-> ~ (In "hack" tags \/ In "scam" tags \/ In "exploit" tags)
              /\ (In "rumor" tags \/ In "regulation" tags))
      /\ (level = "low"
          <-> ~ (In "hack" tags \/ In "scam" tags \/ In "exploit" tags)
              /\ ~ (In "rumor" tags \/ In "regulation" tags)).
Proof.
  intros analysis tags Hget. unfold Gate._calculate_risk_level.
  rewrite Hget, !any_in_map_JStr. cbn [existsb].
  rewrite !Bool.orb_false_r.
  pose proof (existsb_eqb_In "hack" tags) as Hh.
  pose proof (existsb_eqb_In "scam" tags) as Hs.
  pose proof (existsb_eqb_In "exploit" tags) as He.
  pose proof (existsb_eqb_In "rumor" tags) as Hr.
  pose proof (existsb_eqb_In "regulation" tags) as Hg.
  destruct (existsb (String.eqb "hack") tags),
           (existsb (String.eqb "scam") tags),
           (existsb (String.eqb "exploit") tags);
    cbn [orb];
    try (eexists; split; [reflexivity|];
         repeat split; intros; try discriminate; tauto).
  destruct (existsb (String.eqb "rumor") tags),
           (existsb (String.eqb "regulation") tags);
    cbn [orb];
    eexists; (split; [reflexivity|]);
    repeat split; intros; try discriminate; try tauto;
    intuition discriminate.
Qed.

Lemma X1_witness :
  exists level,
    Gate._calculate_risk_level Examples.hack_analysis = Some level
    /\ (level = "high"
        <-> In "hack" ["rumor"; "hack"] \/ In "scam" ["rumor"; "hack"]
            \/ In "exploit" ["rumor"; "hack"])
    /\ (level = "medium"
        <-> ~ (In "hack" ["rumor"; "hack"] \/ In "scam" ["rumor"; "hack"]
               \/ In "exploit" ["rumor"; "hack"])
            /\ (In "rumor" ["rumor"; "hack"] \/ In "regulation" ["rumor"; "hack"]))
    /\ (level = "low"
        <-> ~ (In "hack" ["rumor"; "hack"] \/ In "scam" ["rumor"; "hack"]
               \/ In "exploit" ["rumor"; "hack"])
            /\ ~ (In "rumor" ["rumor"; "hack"] \/ In "regulation" ["rumor"; "hack"])).
Proof.
  apply (X1_risk_level_by_membership Examples.hack_analysis ["rumor"; "hack"]).
  vm_compute. reflexivity.
Defined.

(** What a successful call of the orchestrator went through. *)
Lemma process_processed_inv (settings : Settings) (env : Processor.Env)
    (content_id pid : string) (hitl : bool) (s s' : Session)
    (r r' : Redis.keyspace) :
  Processor.process_single_content settings env content_id s r
  = (Processor.Processed pid hitl, s', r') ->
  exists raw analysis processed,
    Processor.query_raises env = false
    /\ Processor.commit_raises env = false
    /\ raw_content (pending s) !! content_id = Some raw
    /\ rc_processed raw = false
    /\ Processor._analyze_content env raw = Some analysis
    /\ Processor._create_processed_content env raw analysis
         (Processor._translate_content env raw analysis)
         (Processor._check_similarity env raw
            (Processor._translate_content env raw analysis))
         (Processor._paraphrase_content env) s
       = Some (processed, in_transaction (set_processed processed) s)
    /\ pid = pc_id processed
    /\ hitl = Gate._check_hitl_requirements settings processed analysis
    /\ s' = commit
              (in_transaction
                 (fun db => set_raw content_id (Processor.mark_processed raw)
                              (set_processed (Processor.with_gate hitl processed) db))
                 (in_transaction (set_processed processed) s))
    /\ r' = (if hitl then r
             else Processor._queue_for_publishing pid (Processor.utcnow env) r).
Proof.
  unfold Processor.process_single_content. intros H.
  destruct (Processor.query_raises env) eqn:Eq; [discriminate|].
  destruct (raw_content (pending s) !! content_id) as [raw|] eqn:Eraw;
    [|discriminate].
  destruct (rc_processed raw) eqn:Eproc; [discriminate|].
  destruct (Processor._analyze_content env raw) as [analysis|] eqn:Ean;
    [|discriminate].
  destruct (negb (Processor.nonempty analysis)); [discriminate|].
  destruct (Processor._create_processed_content _ _ _ _ _ _ _)
    as [[processed s1]|] eqn:Ecreate; [|discriminate].
  destruct (Processor.commit_raises env) eqn:Ec; [discriminate|].
  pose proof (create_processed_spec _ _ _ _ _ _ _ _ _ Ecreate) as [Hs1 _].
  subst s1. inversion H; subst.
  exists raw, analysis, processed. repeat split; try reflexivity; assumption.
Qed.

Lemma create_processed_fields (env : Processor.Env) (raw : RawContent)
    (analysis translation similarity paraphrase : dict) (s s1 : Session)
    (processed : ProcessedContent) :
  Processor._create_processed_content env raw analysis translation similarity
    paraphrase s = Some (processed, s1) ->
  Processor.as_text (get translation "human_translation" (JStr (rc_text raw)))
  = Some (pc_translated_text processed)
  /\ Processor.as_text (get paraphrase "body" (JStr ""))
     = Some (pc_paraphrased_text processed)
  /\ Processor.as_float (get similarity "similarity_score" (JNum 0))
     = Some (pc_similarity_score processed)
  /\ pc_status processed = ContentStatus.PENDING
  /\ processed_content (pending s) !! pc_id processed = None.
Proof.
  unfold Processor._create_processed_content. intros H.
  repeat (apply bind_some in H; destruct H as [? [? H]]).
  destruct (Processor.flush_raises env); [discriminate|]. cbn [orb] in H.
  destruct (bool_decide _) eqn:Eb in H; [discriminate|].
  apply bool_decide_eq_false in Eb.
  inversion H; subst; cbn.
  repeat split; try assumption.
  destruct (processed_content (pending s) !! Processor.new_id env) eqn:E;
    [|reflexivity].
  exfalso. apply Eb. eauto.
Qed.

Lemma analyze_content_accepts (env : Processor.Env) (raw : RawContent)
    (result : dict) :
  Processor.cached_analysis env = None ->
  Processor.llm_analysis env = Processor.JsonObject result ->
  (forall field, In field Processor.required_fields -> is_Some (result !! field)) ->
  Processor._analyze_content env raw = Some result.
Proof.
  intros Hcache Hllm Hfields. unfold Processor._analyze_content.
  rewrite Hcache, Hllm.
  assert (H : forallb (Processor.has_key result) Processor.required_fields = true).
  { apply forallb_forall. intros field Hin. unfold Processor.has_key.
    destruct (Hfields field Hin) as [v ->]. reflexivity. }
  rewrite H. reflexivity.
Qed.

(** X2. The validation of the analysis answer checks that the five fields
    are present, not what they hold: an answer whose [risk_tags] is null, a
    boolean or a number is accepted by [_analyze_content], after which
    building the processed item raises; the orchestrator rolls back, and the
    raw item is left unconsumed with nothing committed and nothing queued. *)
Theorem X2_untyped_risk_tags_abort_the_item :
  forall (settings : Settings) (env : Processor.Env) (content_id : string)
         (s : Session) (r : Redis.keyspace) (raw : RawContent) (result : dict)
         (v : jval),
    Processor.query_raises env = false ->
    raw_content (pending s) !! content_id = Some raw ->
    rc_processed raw = false ->
    Processor.cached_analysis env = None ->
    Processor.llm_analysis env = Processor.JsonObject result ->
    (forall field, In field Processor.required_fields ->
                   is_Some (result !! field)) ->
    result !! "risk_tags" = Some v ->
    (v = JNull \/ (exists b, v = JBool b) \/ (exists q, v = JNum q)) ->
    Processor._analyze_content env raw = Some result
    /\ Processor.process_single_content settings env content_id s r
       = (Processor.Raised, rollback s, r).
Proof.
  intros settings env content_id s r raw result v Hq Hraw Hproc Hcache Hllm
         Hfields Htags Hv.
  pose proof (analyze_content_accepts env raw result Hcache Hllm Hfields) as Han.
  split; [exact Han|].
  unfold Processor.process_single_content. rewrite Hq, Hraw, Hproc, Han.
  assert (Hne : Processor.nonempty result = true).
  { unfold Processor.nonempty. apply Bool.negb_true_iff.
    apply bool_decide_eq_false. intros ->. rewrite lookup_empty in Htags.
    discriminate. }
  rewrite Hne. cbn [negb].
  assert (Hcreate : forall tr si pa,
             Processor._create_processed_content env raw result tr si pa s = None).
  { intros tr si pa. unfold Processor._create_processed_content,
      Processor._classify_content_type, get. rewrite Htags.
    destruct Hv as [->|[[b ->]|[q ->]]]; reflexivity. }
  rewrite Hcreate. reflexivity.
Qed.

Lemma X2_witness :
  Processor._analyze_content Examples.env_null_tags
    (Examples.raw_item "r1" "Bitcoin hits $50k amid ETF optimism")
  = Some (<["risk_tags" := JNull]> Examples.good_analysis)
  /\ Processor.process_single_content default_settings Examples.env_null_tags "r1"
       (Examples.clean Examples.raw_db) ∅
     = (Processor.Raised, rollback (Examples.clean Examples.raw_db), ∅).
Proof.
  apply (X2_untyped_risk_tags_abort_the_item default_settings
           Examples.env_null_tags "r1" (Examples.clean Examples.raw_db) ∅
           (Examples.raw_item "r1" "Bitcoin hits $50k amid ETF optimism")
           (<["risk_tags" := JNull]> Examples.good_analysis) JNull).
  - reflexivity.
  - vm_compute. reflexivity.
  - reflexivity.
  - reflexivity.
  - reflexivity.
  - intros field Hin. cbn in Hin.
    destruct Hin as [<-|[<-|[<-|[<-|[<-|[]]]]]]; vm_compute; eauto.
  - vm_compute. reflexivity.
  - left. reflexivity.
Defined.

Lemma gate_short_rewrite (settings : Settings) (processed : ProcessedContent)
    (analysis : dict) (body : string) :
  pc_paraphrased_text processed = Some body ->
  Py.len body < 100 ->
  Gate._check_hitl_requirements settings processed analysis = true.
Proof.
  intros Hbody Hlen. unfold Gate._check_hitl_requirements, Gate.check_hitl_body.
  rewrite Hbody. apply Z.ltb_lt in Hlen. rewrite Hlen, Bool.orb_true_r.
  destruct (String.eqb _ _); [reflexivity|].
  destruct (pc_similarity_score processed); [|reflexivity].
  destruct (Py.gt _ _); [reflexivity|].
  destruct (pc_translated_text processed); [|reflexivity].
  destruct (existsb _ _); reflexivity.
Qed.

Lemma processed_row_after (processed gated : ProcessedContent) (raw : RawContent)
    (content_id : string) (s : Session) :
  pc_id gated = pc_id processed ->
  processed_content
    (committed
       (commit
          (in_transaction
             (fun db => set_raw content_id raw (set_processed gated db))
             (in_transaction (set_processed processed) s))))
  !! pc_id processed = Some gated.
Proof.
  intros Hid. cbn. rewrite Hid. apply lookup_insert_eq.
Qed.

(** X3. A rewrite stage that delivers a body shorter than 100 characters
    (no answer at all and nothing cached gives the empty body) never leads to
    publication: the item is committed as held, with status "pending", and
    nothing is put on the publishing queue. *)
Theorem X3_degraded_rewrite_is_held :
  forall (settings : Settings) (env : Processor.Env) (content_id pid : string)
         (hitl : bool) (s s' : Session) (r r' : Redis.keyspace) (body : string),
    get (Processor._paraphrase_content env) "body" (JStr "") = JStr body ->
    Py.len body < 100 ->
    Processor.process_single_content settings env content_id s r
    = (Processor.Processed pid hitl, s', r') ->
    hitl = true /\ r' = r
    /\ exists p, processed_content (committed s') !! pid = Some p
                 /\ pc_paraphrased_text p = Some body
                 /\ pc_status p = ContentStatus.PENDING
                 /\ pc_requires_hitl p = true.
Proof.
  intros settings env content_id pid hitl s s' r r' body Hbody Hlen Hrun.
  apply process_processed_inv in Hrun.
  destruct Hrun as [raw [analysis [processed
    [Hq [Hc [Hraw [Hproc [Han [Hcreate [Hpid [Hhitl [Hs' Hr']]]]]]]]]]]].
  pose proof (create_processed_fields _ _ _ _ _ _ _ _ _ Hcreate)
    as [_ [Hpar _]].
  rewrite Hbody in Hpar. cbn in Hpar. inversion Hpar as [Hp].
  assert (Hgate : hitl = true).
  { rewrite Hhitl. eapply gate_short_rewrite; [symmetry; exact Hp | exact Hlen]. }
  subst hitl. rewrite Hgate in *. split; [reflexivity|]. split; [exact Hr'|].
  exists (Processor.with_gate true processed).
  subst pid s'. split; [apply processed_row_after; reflexivity|].
  cbn. auto.
Qed.

Lemma X3_witness :
  true = true /\ snd (Processor.process_single_content default_settings
                        Examples.env_short_rewrite "r1"
                        (Examples.clean Examples.raw_db) ∅) = ∅
  /\ exists p,
       processed_content
         (committed (snd (fst (Processor.process_single_content default_settings
                                 Examples.env_short_rewrite "r1"
                                 (Examples.clean Examples.raw_db) ∅))))
       !! "p1" = Some p
       /\ pc_paraphrased_text p = Some Examples.short_russian_rewrite
       /\ pc_status p = ContentStatus.PENDING
       /\ pc_requires_hitl p = true.
Proof.
  apply (X3_degraded_rewrite_is_held default_settings Examples.env_short_rewrite
           "r1" "p1" true (Examples.clean Examples.raw_db) _ ∅ _
           Examples.short_russian_rewrite).
  - vm_compute. reflexivity.
  - vm_compute. reflexivity.
  - vm_compute. reflexivity.
Defined.

(** X4. What the orchestrator commits and queues follows the verdict of the
    gate: a held item is stored with status "pending" and the hold flag set,
    and the queues are untouched; an item that is not held is stored with
    status "ready", and, when the publishing queue did not exist, the next
    blocking pop on it returns exactly the payload carrying the new item's
    id and empties the queue again. *)
Theorem X4_commit_and_queue_follow_the_gate :
  forall (settings : Settings) (env : Processor.Env) (content_id pid : string)
         (hitl : bool) (s s' : Session) (r r' : Redis.keyspace),
    Processor.process_single_content settings env content_id s r
    = (Processor.Processed pid hitl, s', r') ->
    (exists p, processed_content (committed s') !! pid = Some p
               /\ pc_requires_hitl p = hitl
               /\ pc_status p = (if hitl then ContentStatus.PENDING
                                 else ContentStatus.READY))
    /\ (hitl = true -> r' = r)
    /\ (hitl = false ->
        r !! "content_publishing_queue" = None ->
        RedisClient.brpop "content_publishing_queue" 30 r'
        = (Some (Redis.PyDict [("content_id", Redis.DStr pid);
                               ("timestamp", Redis.DTime (Processor.utcnow env))]),
           r)).
Proof.
  intros settings env content_id pid hitl s s' r r' Hrun.
  apply process_processed_inv in Hrun.
  destruct Hrun as [raw [analysis [processed
    [Hq [Hc [Hraw [Hproc [Han [Hcreate [Hpid [Hhitl [Hs' Hr']]]]]]]]]]]].
  split.
  { exists (Processor.with_gate hitl processed). subst pid s'.
    split; [apply processed_row_after; reflexivity|]. cbn. auto. }
  split.
  { intros ->. exact Hr'. }
  intros -> Hnone. subst r'.
  unfold Processor._queue_for_publishing, Redis.lpush, Redis.cmd_lpush.
  rewrite Hnone. cbn [snd].
  unfold RedisClient.brpop, RedisClient.cmd_rpop.
  rewrite lookup_insert_eq. cbn [rev app RedisClient.decode Redis.json_loads].
  rewrite delete_insert_id by exact Hnone. reflexivity.
Qed.

Lemma X4_witness :
  (exists p,
      processed_content
        (committed (snd (fst (Processor.process_single_content default_settings
                                Examples.env_ok "r1"
                                (Examples.clean Examples.raw_db) ∅))))
      !! "p1" = Some p
      /\ pc_requires_hitl p = false
      /\ pc_status p = ContentStatus.READY)
  /\ (false = true ->
      snd (Processor.process_single_content default_settings Examples.env_ok
             "r1" (Examples.clean Examples.raw_db) ∅) = ∅)
  /\ (false = false ->
      (∅ : Redis.keyspace) !! "content_publishing_queue" = None ->
      RedisClient.brpop "content_publishing_queue" 30
        (snd (Processor.process_single_content default_settings Examples.env_ok
                "r1" (Examples.clean Examples.raw_db) ∅))
      = (Some (Redis.PyDict [("content_id", Redis.DStr "p1");
                             ("timestamp",
                              Redis.DTime (Processor.utcnow Examples.env_ok))]),
         ∅)).
Proof.
  apply (X4_commit_and_queue_follow_the_gate default_settings Examples.env_ok
           "r1" "p1" false (Examples.clean Examples.raw_db) _ ∅ _).
  vm_compute. reflexivity.
Defined.

(** X5. The orchestrator is idempotent per raw item: after a call that
    processed the item, any further call for the same id (whatever the
    collaborators would answer) finds it consumed and changes neither the
    session nor the queues. *)
Theorem X5_second_delivery_is_a_no_op :
  forall (settings settings2 : Settings) (env env2 : Processor.Env)
         (content_id pid : string) (hitl : bool) (s s' : Session)
         (r r' : Redis.keyspace),
    Processor.process_single_content settings env content_id s r
    = (Processor.Processed pid hitl, s', r') ->
    Processor.query_raises env2 = false ->
    Processor.process_single_content settings2 env2 content_id s' r'
    = (Processor.AlreadyProcessed, s', r').
Proof.
  intros settings settings2 env env2 content_id pid hitl s s' r r' Hrun Hq2.
  apply process_processed_inv in Hrun.
  destruct Hrun as [raw [analysis [processed
    [Hq [Hc [Hraw [Hproc [Han [Hcreate [Hpid [Hhitl [Hs' Hr']]]]]]]]]]]].
  unfold Processor.process_single_content. rewrite Hq2.
  assert (Hlook : raw_content (pending s') !! content_id
                  = Some (Processor.mark_processed raw)).
  { subst s'. cbn. apply lookup_insert_eq. }
  rewrite Hlook. reflexivity.
Qed.

Lemma X5_witness :
  Processor.process_single_content Examples.frequency_2 Examples.env_no_rewrite
    "r1"
    (snd (fst (Processor.process_single_content default_settings Examples.env_ok
                 "r1" (Examples.clean Examples.raw_db) ∅)))
    (snd (Processor.process_single_content default_settings Examples.env_ok
            "r1" (Examples.clean Examples.raw_db) ∅))
  = (Processor.AlreadyProcessed,
     snd (fst (Processor.process_single_content default_settings Examples.env_ok
                 "r1" (Examples.clean Examples.raw_db) ∅)),
     snd (Processor.process_single_content default_settings Examples.env_ok
            "r1" (Examples.clean Examples.raw_db) ∅)).
Proof.
  apply (X5_second_delivery_is_a_no_op default_settings Examples.frequency_2
           Examples.env_ok Examples.env_no_rewrite "r1" "p1" false
           (Examples.clean Examples.raw_db) _ ∅ _).
  - vm_compute. reflexivity.
  - reflexivity.
Defined.

Lemma translate_content_fallback (env : Processor.Env) (raw : RawContent)
    (analysis : dict) :
  Processor.translator_result env = None ->
  get (Processor._translate_content env raw analysis) "human_translation"
    (JStr (rc_text raw))
  = JStr (rc_text raw).
Proof.
  intros Hnone. unfold Processor._translate_content, get. rewrite Hnone.
  destruct (_ || _); reflexivity.
Qed.

(** X6. When the translator raises, the item is not lost: the text stored as
    translation of the processed item is the raw text itself, whatever
    language the analysis detected. *)
Theorem X6_failed_translation_passes_the_raw_text :
  forall (settings : Settings) (env : Processor.Env) (content_id pid : string)
         (hitl : bool) (s s' : Session) (r r' : Redis.keyspace),
    Processor.translator_result env = None ->
    Processor.process_single_content settings env content_id s r
    = (Processor.Processed pid hitl, s', r') ->
    exists raw p,
      raw_content (pending s) !! content_id = Some raw
      /\ processed_content (committed s') !! pid = Some p
      /\ pc_translated_text p = Some (rc_text raw).
Proof.
  intros settings env content_id pid hitl s s' r r' Hnone Hrun.
  apply process_processed_inv in Hrun.
  destruct Hrun as [raw [analysis [processed
    [Hq [Hc [Hraw [Hproc [Han [Hcreate [Hpid [Hhitl [Hs' Hr']]]]]]]]]]]].
  pose proof (create_processed_fields _ _ _ _ _ _ _ _ _ Hcreate) as [Htr _].
  rewrite (translate_content_fallback env raw analysis Hnone) in Htr.
  cbn in Htr. inversion Htr as [Ht].
  exists raw, (Processor.with_gate hitl processed).
  split; [exact Hraw|]. subst pid s'.
  split; [apply processed_row_after; reflexivity|]. cbn. congruence.
Qed.

Lemma X6_witness :
  exists raw p,
    raw_content (pending (Examples.clean Examples.raw_db)) !! "r1" = Some raw
    /\ processed_content
         (committed (snd (fst (Processor.process_single_content default_settings
                                 Examples.env_no_translator "r1"
                                 (Examples.clean Examples.raw_db) ∅))))
       !! "p1" = Some p
    /\ pc_translated_text p = Some (rc_text raw).
Proof.
  apply (X6_failed_translation_passes_the_raw_text default_settings
           Examples.env_no_translator "r1" "p1" false
           (Examples.clean Examples.raw_db) _ ∅
           (snd (Processor.process_single_content default_settings
                   Examples.env_no_translator "r1"
                   (Examples.clean Examples.raw_db) ∅))).
  - reflexivity.
  - vm_compute. reflexivity.
Defined.

(** ** Publishing: messages, affiliate blocks, retries *)

Lemma chars_slice_to (n : nat) (s : string) :
  (Py.chars (Py.slice_to n s) <= n)%nat.
Proof.
  revert n. induction s as [|c s IH]; intros n; [cbn; lia|].
  cbn [Py.slice_to]. destruct (Py.continuation c) eqn:E.
  - cbn [Py.chars]. rewrite E. apply IH.
  - destruct n as [|n]; [cbn; lia|].
    cbn [Py.chars]. rewrite E. specialize (IH n). lia.
Qed.

Lemma chars_app (a b : string) :
  Py.chars (a ++ b) = (Py.chars a + Py.chars b)%nat.
Proof.
  induction a as [|c a IH]; [reflexivity|].
  change (String c a ++ b) with (String c (a ++ b)).
  cbn [Py.chars]. destruct (Py.continuation c); rewrite IH; reflexivity.
Qed.

(** A text cut to [n] characters and marked with three dots has at most
    [n + 3] characters. *)
Lemma len_cut (n : nat) (s : string) :
  Py.len (Py.slice_to n s ++ "...") <= Z.of_nat n + 3.
Proof.
  unfold Py.len. rewrite chars_app.
  change (Py.chars "...") with 3%nat.
  pose proof (chars_slice_to n s). lia.
Qed.

Lemma message_text_bound (final_content : Publisher.FinalContent) :
  Py.len (Publisher.message_text_of final_content) <= 4096.
Proof.
  unfold Publisher.message_text_of.
  match goal with
  | |- context [if 4096 <? Py.len ?m then _ else _] => set (message_text := m)
  end.
  destruct (4096 <? Py.len message_text) eqn:E.
  - pose proof (len_cut 4093 message_text) as H.
    assert (H4093 : Z.of_nat 4093 = 4093) by reflexivity. lia.
  - apply Z.ltb_ge in E. exact E.
Qed.

Lemma publish_to_telegram_sends (settings : Settings) (env : Publisher.Env)
    (processed : ProcessedContent) (final_content : Publisher.FinalContent)
    (image_urls : list string) (s s' : Session)
    (channel channel' : list Publisher.sent_message) (ok : bool) :
  Publisher._publish_to_telegram settings env processed final_content image_urls
    s channel = (ok, s', channel') ->
  (channel' = channel /\ ok = false)
  \/ (exists message,
        channel' = message :: channel
        /\ Channel.sent_text message = Publisher.message_text_of final_content).
Proof.
  unfold Publisher._publish_to_telegram. intros H.
  destruct (Publisher.bot_initialized env); cbn [negb] in H;
    [|inversion H; auto].
  destruct image_urls as [|image_url urls];
    [|destruct (Publisher.photo_message_id env) as [photo_id|]];
    (destruct (Publisher.text_message_id env) as [text_id|]);
    cbn beta iota zeta in H;
    try (inversion H; subst; left; auto; fail);
    (destruct (Publisher.post_commit_raises env);
     inversion H; subst; right; eexists; split; reflexivity).
Qed.

(** X7. A call of the publish operation sends at most one message, and the
    text of that message (caption of the photo or body of the text message)
    never exceeds the 4096 characters Telegram accepts. *)
Theorem X7_one_message_of_bounded_length :
  forall (settings : Settings) (config : Publisher.AffiliateConfig)
         (env : Publisher.Env) (id : string) (s s' : Session)
         (channel channel' : list Publisher.sent_message) (ok : bool),
    Publisher.publish_content settings config env id s channel
    = (ok, s', channel') ->
    channel' = channel
    \/ exists message,
         channel' = message :: channel
         /\ Py.len (Channel.sent_text message) <= 4096.
Proof.
  intros settings config env id s s' channel channel' ok H.
  unfold Publisher.publish_content in H.
  destruct (Publisher.query_raises env); cbn [orb] in H; [inversion H; auto|].
  destruct (failed s); [inversion H; auto|].
  destruct (processed_content (pending s) !! id) as [p|]; [|inversion H; auto].
  destruct (negb _); [inversion H; auto|].
  destruct (Publisher.existing_post id (pending s)); [inversion H; auto|].
  destruct (Publisher._publish_to_telegram _ _ _ _ _ _ _)
    as [[success s1] channel1] eqn:Esend.
  apply publish_to_telegram_sends in Esend.
  assert (Hch : channel' = channel1).
  { destruct success; [destruct (Publisher.status_commit_raises env)|];
      inversion H; reflexivity. }
  subst channel1.
  destruct Esend as [[-> _]|[message [-> Htext]]]; [auto|].
  right. exists message. split; [reflexivity|].
  rewrite Htext. apply message_text_bound.
Qed.

Lemma X7_witness :
  snd (Publisher.publish_content default_settings Publisher.affiliate_config
         Examples.send_ok "c1" (Examples.clean Examples.russian_ready_db) []) = []
  \/ exists message,
       snd (Publisher.publish_content default_settings Publisher.affiliate_config
              Examples.send_ok "c1" (Examples.clean Examples.russian_ready_db) [])
       = [message]
       /\ Py.len (Channel.sent_text message) <= 4096.
Proof.
  set (call := Publisher.publish_content default_settings
                 Publisher.affiliate_config Examples.send_ok "c1"
                 (Examples.clean Examples.russian_ready_db) []).
  assert (Hcall : call = (fst (fst call), snd (fst call), snd call))
    by (destruct call as [[ok s'] channel']; reflexivity).
  apply (X7_one_message_of_bounded_length _ _ _ _ _ _ _ _ _ Hcall).
Defined.

(** The message of that publish: the Russian text of 2990 characters is
    sent whole, although its encoding has more than 4096 bytes. *)
Lemma long_russian_post_is_sent_whole :
  exists message,
    snd (Publisher.publish_content default_settings Publisher.affiliate_config
           Examples.send_ok "c1" (Examples.clean Examples.russian_ready_db) [])
    = [message]
    /\ Py.contains Examples.long_russian_text (Channel.sent_text message) = true
    /\ Py.len (Channel.sent_text message) <= 4096
    /\ (4096 < String.length (Channel.sent_text message))%nat.
Proof.
  eexists. split; [vm_compute; reflexivity|].
  split; [vm_compute; reflexivity|].
  split; [vm_compute; discriminate|].
  apply Nat.ltb_lt. vm_compute. reflexivity.
Qed.

Lemma prefix_app (needle rest : string) :
  String.prefix needle (needle ++ rest) = true.
Proof.
  induction needle as [|c needle IH]; [destruct rest; reflexivity|].
  change (String c needle ++ rest) with (String c (needle ++ rest)).
  cbn [String.prefix]. destruct (ascii_dec c c); [exact IH | congruence].
Qed.

Lemma contains_here (needle rest : string) :
  Py.contains needle (needle ++ rest) = true.
Proof.
  destruct (needle ++ rest) eqn:E; cbn [Py.contains]; rewrite <- E;
    rewrite prefix_app; reflexivity.
Qed.

Lemma contains_skip (needle before hay : string) :
  Py.contains needle hay = true -> Py.contains needle (before ++ hay) = true.
Proof.
  intros H. induction before as [|c before IH]; [exact H|].
  change (String c before ++ hay) with (String c (before ++ hay)).
  cbn [Py.contains]. rewrite IH. apply Bool.orb_true_r.
Qed.

Lemma prefix_app_l (needle hay after : string) :
  String.prefix needle hay = true -> String.prefix needle (hay ++ after) = true.
Proof.
  revert hay. induction needle as [|c needle IH]; intros hay H.
  - destruct (hay ++ after); reflexivity.
  - destruct hay as [|d hay]; [discriminate|].
    change (String d hay ++ after) with (String d (hay ++ after)).
    cbn [String.prefix] in H |- *.
    destruct (ascii_dec c d); [apply IH; exact H | discriminate].
Qed.

Lemma contains_app_l (needle hay after : string) :
  Py.contains needle hay = true -> Py.contains needle (hay ++ after) = true.
Proof.
  induction hay as [|c hay IH]; intros H.
  - cbn [Py.contains] in H. destruct needle; [|discriminate].
    destruct ("" ++ after); reflexivity.
  - change (String c hay ++ after) with (String c (hay ++ after)).
    cbn [Py.contains] in H |- *.
    apply Bool.orb_true_iff in H. apply Bool.orb_true_iff.
    destruct H as [H|H].
    + left. change (String c (hay ++ after)) with (String c hay ++ after).
      apply prefix_app_l. exact H.
    + right. apply IH. exact H.
Qed.

Lemma contains_end (needle before : string) :
  Py.contains needle (before ++ needle) = true.
Proof.
  apply contains_skip.
  destruct needle as [|c needle]; [reflexivity|].
  cbn [Py.contains]. apply Bool.orb_true_iff. left.
  induction (String c needle) as [|d t IH]; [reflexivity|].
  cbn [String.prefix]. destruct (ascii_dec d d); [exact IH | congruence].
Qed.

Ltac find_contains :=
  first [ apply contains_here
        | apply contains_end
        | apply contains_skip; find_contains
        | apply contains_app_l; find_contains ].

(** X8. A post is flagged as carrying an affiliate block only when the text
    prepared for it really contains the block: if the final content built
    with a chosen link has the flag set, its text contains the text of that
    link and the disclosure text, and the recorded link id is the name of
    the link. Without a chosen link the flag is never set. *)
Theorem X8_flagged_content_carries_the_disclosure :
  forall (config : Publisher.AffiliateConfig) (processed : ProcessedContent)
         (link : Publisher.AffiliateLink),
    Publisher.fc_contains_affiliate
      (Publisher._prepare_final_content config processed (Some link)) = true ->
    (exists text,
        Publisher.fc_text
          (Publisher._prepare_final_content config processed (Some link))
        = Some text
        /\ Py.contains (Publisher.link_text link) text = true
        /\ Py.contains (Publisher.DISCLOSURE_TEXT config) text = true)
    /\ Publisher.fc_affiliate_link_id
         (Publisher._prepare_final_content config processed (Some link))
       = Some (Publisher.link_name link)
    /\ Publisher.fc_contains_affiliate
         (Publisher._prepare_final_content config processed None) = false.
Proof.
  intros config processed link.
  assert (Hnone : Publisher.fc_contains_affiliate
                    (Publisher._prepare_final_content config processed None)
                  = false).
  { unfold Publisher._prepare_final_content, Publisher.prepare_final_content_body.
    destruct (Publisher.str_or (pc_paraphrased_text processed)
                (pc_translated_text processed)) as [m|];
      destruct (Publisher.str_or (pc_author_note processed) None);
      destruct (pc_tags processed); reflexivity. }
  unfold Publisher._prepare_final_content, Publisher.prepare_final_content_body.
  destruct (Publisher.str_or (pc_paraphrased_text processed)
              (pc_translated_text processed)) as [m|];
    destruct (Publisher.str_or (pc_author_note processed) None) as [note|];
    destruct (pc_tags processed) as [|tag tags];
    cbn; intros Hflag; try discriminate;
    (split; [eexists; split; [reflexivity|]; split|split; [reflexivity | first [exact Hnone | reflexivity]]]).
  all: find_contains.
Qed.

Lemma X8_witness :
  (exists text,
      Publisher.fc_text
        (Publisher._prepare_final_content Publisher.affiliate_config
           (Examples.item "c1" ContentStatus.READY (Some "Bitcoin dostig 50k"))
           (Some Examples.okx_link))
      = Some text
      /\ Py.contains (Publisher.link_text Examples.okx_link) text = true
      /\ Py.contains (Publisher.DISCLOSURE_TEXT Publisher.affiliate_config) text
         = true).
Proof.
  apply (X8_flagged_content_carries_the_disclosure Publisher.affiliate_config
           (Examples.item "c1" ContentStatus.READY (Some "Bitcoin dostig 50k"))
           Examples.okx_link).
  reflexivity.
Defined.

Lemma choose_link_in (links : list Publisher.AffiliateLink) :
  forall (random_value acc : Q) (link : Publisher.AffiliateLink),
    Publisher.choose_link links random_value acc = Some link -> In link links.
Proof.
  induction links as [|l links IH]; intros random_value acc link H;
    [discriminate|].
  cbn [Publisher.choose_link] in H.
  destruct (Qle_bool random_value (acc + Publisher.link_weight l)).
  - inversion H. left. reflexivity.
  - right. eapply IH. exact H.
Qed.

(** X9. The affiliate rule only ever returns one of the configured links,
    and none at all when its query raises or the frequency is negative. With
    the configured weights 0.4, 0.3 and 0.3, a draw up to 0.4 selects
    Binance, a draw above 0.4 and up to 0.7 ByBit, a draw above 0.7 and up to
    1 OKX, and a draw above 1 selects nothing. *)
Theorem X9_affiliate_choice :
  (forall (settings : Settings) (config : Publisher.AffiliateConfig)
          (query_raises : bool) (now : Z) (random_value : Q) (db : DB)
          (link : Publisher.AffiliateLink),
      Publisher._should_add_affiliate_link settings config query_raises now
        random_value db = Some link ->
      In link (Publisher.AFFILIATE_LINKS config)
      /\ query_raises = false
      /\ 0 <= affiliate_link_frequency settings)
  /\ (forall random_value : Q,
         Publisher.link_name
           <$> Publisher.choose_link
                 (Publisher.AFFILIATE_LINKS Publisher.affiliate_config)
                 random_value 0%Q
         = if Qle_bool random_value (4 # 10) then Some "Binance"
           else if Qle_bool random_value (7 # 10) then Some "ByBit"
           else if Qle_bool random_value 1 then Some "OKX"
           else None).
Proof.
  split.
  - intros settings config query_raises now random_value db link H.
    unfold Publisher._should_add_affiliate_link in H.
    destruct query_raises; [discriminate|].
    unfold Publisher.recent_posts_query in H.
    destruct (affiliate_link_frequency settings <? 0) eqn:Ef; [discriminate|].
    apply Z.ltb_ge in Ef.
    destruct (Publisher.affiliate_due _ _); [|discriminate].
    split; [eapply choose_link_in; exact H|]. split; [reflexivity | exact Ef].
  - intros random_value. cbn [Publisher.affiliate_config Publisher.AFFILIATE_LINKS
                               Publisher.choose_link Publisher.link_weight].
    assert (H1 : Qle_bool random_value (0 + (4 # 10)) = Qle_bool random_value (4 # 10)).
    { apply Bool.eq_true_iff_eq. rewrite !Qle_bool_iff. split; intros; lra. }
    assert (H2 : Qle_bool random_value (0 + (4 # 10) + (3 # 10))
                 = Qle_bool random_value (7 # 10)).
    { apply Bool.eq_true_iff_eq. rewrite !Qle_bool_iff. split; intros; lra. }
    assert (H3 : Qle_bool random_value (0 + (4 # 10) + (3 # 10) + (3 # 10))
                 = Qle_bool random_value 1).
    { apply Bool.eq_true_iff_eq. rewrite !Qle_bool_iff. split; intros; lra. }
    rewrite H1, H2, H3.
    destruct (Qle_bool random_value (4 # 10)); [reflexivity|].
    destruct (Qle_bool random_value (7 # 10)); [reflexivity|].
    destruct (Qle_bool random_value 1); reflexivity.
Qed.

Lemma X9_witness :
  In (nth 2 (Publisher.AFFILIATE_LINKS Publisher.affiliate_config)
        Examples.okx_link)
     (Publisher.AFFILIATE_LINKS Publisher.affiliate_config)
  /\ false = false
  /\ 0 <= affiliate_link_frequency default_settings.
Proof.
  apply (proj1 X9_affiliate_choice default_settings Publisher.affiliate_config
           false 0 (9 # 10)%Q Examples.empty_db).
  vm_compute. reflexivity.
Defined.

Lemma affiliate_due_small_frequency (frequency : Z) (posts : list PublishedPost) :
  0 <= frequency <= 1 ->
  Publisher.affiliate_due frequency (firstn (Z.to_nat frequency) posts) = true.
Proof.
  intros Hf. unfold Publisher.affiliate_due.
  assert (Hcases : frequency = 0 \/ frequency = 1) by lia.
  destruct Hcases as [->| ->].
  - reflexivity.
  - change (Z.to_nat 1) with 1%nat.
    destruct posts as [|post rest]; [reflexivity|].
    cbn [firstn length]. apply Bool.orb_true_r.
Qed.

(** X10. With an affiliate frequency of 0 or 1 the rule inserts an affiliate
    link into every post: whatever the history of published records and the
    times of the publishes, every publish of a run is tagged (the draws being
    within the total weight of a non-empty list of links). *)
Theorem X10_frequency_up_to_one_tags_every_post :
  forall (settings : Settings) (config : Publisher.AffiliateConfig)
         (publishes : list (Z * Q)) (db : DB),
    0 <= affiliate_link_frequency settings <= 1 ->
    Publisher.AFFILIATE_LINKS config <> [] ->
    Forall (fun publish =>
              (snd publish
               <= Publisher.total_weight (Publisher.AFFILIATE_LINKS config))%Q)
      publishes ->
    fst (Publisher.run settings config publishes db)
    = repeat true (length publishes).
Proof.
  intros settings config publishes db Hf Hlinks.
  revert db. induction publishes as [|[now random_value] rest IH];
    intros db Hdraws; [reflexivity|].
  inversion Hdraws as [|? ? Hdraw Hrest]; subst.
  cbn [Publisher.run]. unfold Publisher.record_publish.
  assert (Hflag : Publisher.affiliate_flag
                    (Publisher._should_add_affiliate_link settings config false
                       now random_value db) = true).
  { unfold Publisher._should_add_affiliate_link, Publisher.recent_posts_query.
    destruct (affiliate_link_frequency settings <? 0) eqn:E;
      [apply Z.ltb_lt in E; lia|].
    rewrite affiliate_due_small_frequency by exact Hf.
    pose proof (choose_link_some _ random_value 0%Q Hlinks Hdraw) as Hsome.
    destruct (Publisher.choose_link _ _ _); [reflexivity | congruence]. }
  match goal with
  | |- context [Publisher.run settings config rest ?d] =>
      specialize (IH d Hrest);
      destruct (Publisher.run settings config rest d) as [flags db']
  end.
  cbn [fst length repeat] in IH |- *. rewrite Hflag, IH. reflexivity.
Qed.

Lemma X10_witness :
  fst (Publisher.run Examples.frequency_1 Publisher.affiliate_config
         (Examples.publishes_from 0 4) Examples.after_two_publishes)
  = repeat true (length (Examples.publishes_from 0 4)).
Proof.
  apply (X10_frequency_up_to_one_tags_every_post Examples.frequency_1
           Publisher.affiliate_config (Examples.publishes_from 0 4)
           Examples.after_two_publishes).
  - cbn. lia.
  - discriminate.
  - cbn. repeat constructor; unfold Qle; cbn; lia.
Defined.

(** The send of a call on an item that is ready, has no record yet and whose
    text send would succeed. *)
Lemma publish_to_telegram_sent (settings : Settings) (env : Publisher.Env)
    (processed : ProcessedContent) (final_content : Publisher.FinalContent)
    (image_urls : list string) (s : Session)
    (channel : list Publisher.sent_message) (text_id : string) :
  Publisher.bot_initialized env = true ->
  Publisher.text_message_id env = Some text_id ->
  exists message post,
    pp_processed_content_id post = pc_id processed
    /\ pp_platform post = "telegram"
    /\ pp_published_at post = Publisher.utcnow env
    /\ pp_contains_affiliate post = Publisher.fc_contains_affiliate final_content
    /\ Channel.sent_text message = Publisher.message_text_of final_content
    /\ Publisher._publish_to_telegram settings env processed final_content
         image_urls s channel
       = if Publisher.post_commit_raises env
         then (false, commit_fails (in_transaction (add_published post) s),
               message :: channel)
         else (true, Examples.clean (add_published post (pending s)),
               message :: channel).
Proof.
  intros Hbot Htext. unfold Publisher._publish_to_telegram.
  rewrite Hbot, Htext. cbn [negb].
  destruct image_urls as [|image_url urls];
    [|destruct (Publisher.photo_message_id env) as [photo_id|]];
    cbn beta iota zeta;
    do 2 eexists;
    (split; [|split; [|split; [|split; [|split]]]]);
    [ | | | | | destruct (Publisher.post_commit_raises env); reflexivity
      | | | | | | destruct (Publisher.post_commit_raises env); reflexivity
      | | | | | | destruct (Publisher.post_commit_raises env); reflexivity ];
    reflexivity.
Qed.

Lemma publish_content_sending (settings : Settings)
    (config : Publisher.AffiliateConfig) (env : Publisher.Env) (id : string)
    (s : Session) (channel : list Publisher.sent_message) (p : ProcessedContent)
    (text_id : string) :
  Publisher.query_raises env = false ->
  failed s = false ->
  processed_content (pending s) !! id = Some p ->
  pc_status p = ContentStatus.READY ->
  Publisher.existing_post id (pending s) = None ->
  Publisher.bot_initialized env = true ->
  Publisher.text_message_id env = Some text_id ->
  exists message post,
    pp_processed_content_id post = pc_id p
    /\ pp_published_at post = Publisher.utcnow env
    /\ Py.len (Channel.sent_text message) <= 4096
    /\ Publisher.publish_content settings config env id s channel
       = if Publisher.post_commit_raises env
         then (false, commit_fails (in_transaction (add_published post) s),
               message :: channel)
         else if Publisher.status_commit_raises env
         then (false, Examples.clean (add_published post (pending s)),
               message :: channel)
         else (true,
               Examples.clean
                 (set_processed (Publisher.with_status ContentStatus.PUBLISHED p)
                    (add_published post (pending s))),
               message :: channel).
Proof.
  intros Hq Hf Hp Hst Hex Hbot Htext.
  unfold Publisher.publish_content. rewrite Hq, Hf, Hp, Hst, Hex.
  cbn [String.eqb negb orb].
  match goal with
  | |- context [Publisher._publish_to_telegram settings env p ?fc ?urls s channel] =>
      destruct (publish_to_telegram_sent settings env p fc urls s channel text_id
                  Hbot Htext)
        as [message [post [Hid [_ [Hat [_ [Htxt Hsend]]]]]]];
      rewrite Hsend
  end.
  exists message, post. split; [exact Hid|]. split; [exact Hat|].
  split; [rewrite Htxt; apply message_text_bound|].
  destruct (Publisher.post_commit_raises env); [reflexivity|].
  destruct (Publisher.status_commit_raises env); reflexivity.
Qed.

(** X11. The successful path of the publish operation: on a session that
    is not in a failed transaction, for an item that is ready and has no
    published record, with the bot initialised, the text send succeeding and
    both commits going through, the call returns [True], sends exactly one
    message, commits one published record for the item (stamped with the
    current time) and sets the item's status to "published"; nothing is left
    pending in the session. *)
Theorem X11_successful_publish :
  forall (settings : Settings) (config : Publisher.AffiliateConfig)
         (env : Publisher.Env) (id : string) (s : Session)
         (channel : list Publisher.sent_message) (p : ProcessedContent)
         (text_id : string),
    Publisher.query_raises env = false ->
    failed s = false ->
    processed_content (pending s) !! id = Some p ->
    pc_status p = ContentStatus.READY ->
    Publisher.existing_post id (pending s) = None ->
    Publisher.bot_initialized env = true ->
    Publisher.text_message_id env = Some text_id ->
    Publisher.post_commit_raises env = false ->
    Publisher.status_commit_raises env = false ->
    exists message post s',
      Publisher.publish_content settings config env id s channel
      = (true, s', message :: channel)
      /\ pending s' = committed s' /\ failed s' = false
      /\ published_posts (committed s') = post :: published_posts (pending s)
      /\ pp_processed_content_id post = pc_id p
      /\ pp_published_at post = Publisher.utcnow env
      /\ pc_status <$> processed_content (committed s') !! pc_id p
         = Some ContentStatus.PUBLISHED.
Proof.
  intros settings config env id s channel p text_id Hq Hf Hp Hst Hex Hbot Htext
         Hpc Hsc.
  destruct (publish_content_sending settings config env id s channel p text_id
              Hq Hf Hp Hst Hex Hbot Htext)
    as [message [post [Hid [Hat [_ Hrun]]]]].
  rewrite Hpc, Hsc in Hrun.
  exists message, post. eexists. split; [exact Hrun|].
  cbn. repeat split; try assumption.
  rewrite lookup_insert_eq. reflexivity.
Qed.

Lemma X11_witness :
  exists message post s',
    Publisher.publish_content default_settings Publisher.affiliate_config
      Examples.send_ok "c1" (Examples.clean Examples.ready_db) []
    = (true, s', [message])
    /\ pending s' = committed s' /\ failed s' = false
    /\ published_posts (committed s') = [post]
    /\ pp_processed_content_id post = "c1"
    /\ pp_published_at post = 5000
    /\ pc_status <$> processed_content (committed s') !! "c1"
       = Some ContentStatus.PUBLISHED.
Proof.
  apply (X11_successful_publish default_settings Publisher.affiliate_config
           Examples.send_ok "c1" (Examples.clean Examples.ready_db) []
           (Examples.item "c1" ContentStatus.READY (Some "Bitcoin dostig 50k"))
           "4711"); reflexivity.
Defined.

(** X12. A send that succeeds followed by a failing commit of the published
    record: the call returns [False] with the message already in the
    channel, nothing is committed and the session is left in its failed
    transaction. The next call on that session fails at its first query,
    whatever its collaborators would answer: it sends nothing, returns
    [False] and rolls the session back, the item being still ready and
    without record. A call after that whose commits go through sends a
    second message for the same item. *)
Theorem X12_lost_record_leads_to_a_second_send :
  forall (settings : Settings) (config : Publisher.AffiliateConfig)
         (env env2 env3 : Publisher.Env) (id : string) (db : DB)
         (channel : list Publisher.sent_message) (p : ProcessedContent)
         (text_id text_id3 : string),
    processed_content db !! id = Some p ->
    pc_status p = ContentStatus.READY ->
    Publisher.existing_post id db = None ->
    Publisher.query_raises env = false ->
    Publisher.bot_initialized env = true ->
    Publisher.text_message_id env = Some text_id ->
    Publisher.post_commit_raises env = true ->
    Publisher.query_raises env3 = false ->
    Publisher.bot_initialized env3 = true ->
    Publisher.text_message_id env3 = Some text_id3 ->
    Publisher.post_commit_raises env3 = false ->
    Publisher.status_commit_raises env3 = false ->
    exists message message3 post s1 s3,
      Publisher.publish_content settings config env id (Examples.clean db) channel
      = (false, s1, message :: channel)
      /\ committed s1 = db /\ failed s1 = true
      /\ Publisher.publish_content settings config env2 id s1 (message :: channel)
         = (false, Examples.clean db, message :: channel)
      /\ Publisher.publish_content settings config env3 id (Examples.clean db)
           (message :: channel)
         = (true, s3, message3 :: message :: channel)
      /\ published_posts (committed s3) = post :: published_posts db.
Proof.
  intros settings config env env2 env3 id db channel p text_id text_id3 Hp Hst
         Hex Hq Hbot Htext Hpc Hq3 Hbot3 Htext3 Hpc3 Hsc3.
  destruct (publish_content_sending settings config env id (Examples.clean db)
              channel p text_id Hq eq_refl Hp Hst Hex Hbot Htext)
    as [message [post [_ [_ [_ Hrun]]]]].
  rewrite Hpc in Hrun.
  destruct (publish_content_sending settings config env3 id (Examples.clean db)
              (message :: channel) p text_id3 Hq3 eq_refl Hp Hst Hex Hbot3 Htext3)
    as [message3 [post3 [Hid3 [_ [_ Hrun3]]]]].
  rewrite Hpc3, Hsc3 in Hrun3.
  exists message, message3, post3. do 2 eexists.
  split; [exact Hrun|]. split; [reflexivity|]. split; [reflexivity|].
  split.
  { unfold Publisher.publish_content. cbn [failed commit_fails].
    rewrite Bool.orb_true_r. reflexivity. }
  split; [exact Hrun3 | reflexivity].
Qed.

Lemma X12_witness :
  exists message message3 post s1 s3,
    Publisher.publish_content default_settings Publisher.affiliate_config
      Examples.send_lost_record "c1" (Examples.clean Examples.ready_db) []
    = (false, s1, [message])
    /\ committed s1 = Examples.ready_db /\ failed s1 = true
    /\ Publisher.publish_content default_settings Publisher.affiliate_config
         Examples.send_ok "c1" s1 [message]
       = (false, Examples.clean Examples.ready_db, [message])
    /\ Publisher.publish_content default_settings Publisher.affiliate_config
         Examples.send_ok "c1" (Examples.clean Examples.ready_db) [message]
       = (true, s3, [message3; message])
    /\ published_posts (committed s3)
       = post :: published_posts Examples.ready_db.
Proof.
  apply (X12_lost_record_leads_to_a_second_send default_settings
           Publisher.affiliate_config Examples.send_lost_record Examples.send_ok
           Examples.send_ok "c1" Examples.ready_db []
           (Examples.item "c1" ContentStatus.READY (Some "Bitcoin dostig 50k"))
           "4710" "4711"); reflexivity.
Defined.

Lemma existing_post_add (id : string) (post : PublishedPost) (db : DB) :
  pp_processed_content_id post = id ->
  Publisher.existing_post id (add_published post db) = Some post.
Proof.
  intros Hid. unfold Publisher.existing_post. cbn.
  rewrite Hid, String.eqb_refl. reflexivity.
Qed.

(** X13. When the published record is committed but the commit of the new
    status fails (on a session that was not in a failed transaction), the
    call returns [False] and the item stays in status "ready" with its
    record; every later call on it (for a row stored under its own id)
    returns [True] at the existing-record check without sending and without
    changing the store, so the status is never set to "published" by the
    publish operation. *)
Theorem X13_failed_status_commit_is_absorbed_by_the_record_check :
  forall (settings : Settings) (config : Publisher.AffiliateConfig)
         (env : Publisher.Env) (id : string) (s : Session)
         (channel : list Publisher.sent_message) (p : ProcessedContent)
         (text_id : string),
    Publisher.query_raises env = false ->
    failed s = false ->
    processed_content (pending s) !! id = Some p ->
    pc_id p = id ->
    pc_status p = ContentStatus.READY ->
    Publisher.existing_post id (pending s) = None ->
    Publisher.bot_initialized env = true ->
    Publisher.text_message_id env = Some text_id ->
    Publisher.post_commit_raises env = false ->
    Publisher.status_commit_raises env = true ->
    exists message s1,
      Publisher.publish_content settings config env id s channel
      = (false, s1, message :: channel)
      /\ processed_content (committed s1) !! id = Some p
      /\ forall (settings2 : Settings) (config2 : Publisher.AffiliateConfig)
                (env2 : Publisher.Env) (channel2 : list Publisher.sent_message),
           Publisher.query_raises env2 = false ->
           Publisher.publish_content settings2 config2 env2 id s1 channel2
           = (true, s1, channel2).
Proof.
  intros settings config env id s channel p text_id Hq Hf Hp Hkey Hst Hex Hbot
         Htext Hpc Hsc.
  destruct (publish_content_sending settings config env id s channel p text_id
              Hq Hf Hp Hst Hex Hbot Htext)
    as [message [post [Hid [_ [_ Hrun]]]]].
  rewrite Hpc, Hsc in Hrun.
  exists message. eexists. split; [exact Hrun|]. split; [exact Hp|].
  intros settings2 config2 env2 channel2 Hq2.
  unfold Publisher.publish_content. rewrite Hq2.
  cbn [pending failed Examples.clean orb].
  cbn [add_published processed_content]. rewrite Hp, Hst.
  rewrite String.eqb_refl. cbn [negb].
  rewrite (existing_post_add id post (pending s)) by congruence.
  reflexivity.
Qed.

Lemma X13_witness :
  exists message s1,
    Publisher.publish_content default_settings Publisher.affiliate_config
      Examples.send_lost_status "c1" (Examples.clean Examples.ready_db) []
    = (false, s1, [message])
    /\ processed_content (committed s1) !! "c1"
       = Some (Examples.item "c1" ContentStatus.READY (Some "Bitcoin dostig 50k"))
    /\ forall (settings2 : Settings) (config2 : Publisher.AffiliateConfig)
              (env2 : Publisher.Env) (channel2 : list Publisher.sent_message),
         Publisher.query_raises env2 = false ->
         Publisher.publish_content settings2 config2 env2 "c1" s1 channel2
         = (true, s1, channel2).
Proof.
  apply (X13_failed_status_commit_is_absorbed_by_the_record_check
           default_settings Publisher.affiliate_config Examples.send_lost_status
           "c1" (Examples.clean Examples.ready_db) []
           (Examples.item "c1" ContentStatus.READY (Some "Bitcoin dostig 50k"))
           "4711"); reflexivity.
Defined.

(** ** The queues *)

Lemma push_all_state (key : string) (items : list Redis.pyobj) :
  forall (stored : list Redis.rstr) (r : Redis.keyspace),
    fold_left (fun r item => snd (Redis.lpush key item r)) items
      (<[key := Redis.RList stored]> r)
    = <[key := Redis.RList (rev (map RedisClient.encode items) ++ stored)]> r.
Proof.
  induction items as [|item items IH]; intros stored r; [reflexivity|].
  cbn [fold_left]. unfold Redis.lpush at 2, Redis.cmd_lpush.
  rewrite lookup_insert_eq. cbn [snd]. rewrite insert_insert_eq.
  change (match item with
          | Redis.PyStr s => s
          | Redis.PyDict d => Redis.Dumps d
          end) with (RedisClient.encode item).
  rewrite IH. cbn [map rev]. rewrite <- app_assoc. reflexivity.
Qed.

Lemma push_all_absent (key : string) (item : Redis.pyobj)
    (items : list Redis.pyobj) (r : Redis.keyspace) :
  r !! key = None ->
  fold_left (fun r item => snd (Redis.lpush key item r)) (item :: items) r
  = <[key := Redis.RList (rev (map RedisClient.encode (item :: items)))]> r.
Proof.
  intros Hnone. cbn [fold_left]. unfold Redis.lpush at 2, Redis.cmd_lpush.
  rewrite Hnone. cbn [snd].
  change (match item with
          | Redis.PyStr s => s
          | Redis.PyDict d => Redis.Dumps d
          end) with (RedisClient.encode item).
  rewrite push_all_state. cbn [map rev]. reflexivity.
Qed.

(** X14. The list commands of the wrapper make a first-in first-out queue
    that round-trips JSON: after items have been pushed with [lpush] on a
    key that did not exist, [rpop] returns the item pushed first, decoded
    (a [dict] comes back as the same [dict], a text that is no JSON as the
    same text), and leaves the queue as if that item had never been pushed;
    [llen] counts the items pushed. *)
Theorem X14_queue_is_first_in_first_out :
  forall (key : string) (item : Redis.pyobj) (items : list Redis.pyobj)
         (r : Redis.keyspace),
    r !! key = None ->
    RedisClient.rpop key
      (fold_left (fun r item => snd (Redis.lpush key item r)) (item :: items) r)
    = (Some (RedisClient.decode (RedisClient.encode item)),
       fold_left (fun r item => snd (Redis.lpush key item r)) items r)
    /\ RedisClient.llen key
         (fold_left (fun r item => snd (Redis.lpush key item r)) (item :: items) r)
       = Z.of_nat (S (length items))
    /\ (forall d, RedisClient.decode (RedisClient.encode (Redis.PyDict d))
                  = Redis.PyDict d)
    /\ (forall text, RedisClient.decode (RedisClient.encode
                                           (Redis.PyStr (Redis.Plain text)))
                     = Redis.PyStr (Redis.Plain text)).
Proof.
  intros key item items r Hnone.
  rewrite (push_all_absent key item items r Hnone).
  split; [|split; [|split; reflexivity]].
  - unfold RedisClient.rpop, RedisClient.cmd_rpop.
    rewrite lookup_insert_eq, rev_involutive. cbn [map].
    destruct items as [|item2 items].
    + cbn [map fold_left]. rewrite delete_insert_id by exact Hnone. reflexivity.
    + rewrite (push_all_absent key item2 items r Hnone).
      cbn [map]. rewrite insert_insert_eq. reflexivity.
  - unfold RedisClient.llen, RedisClient.cmd_llen.
    rewrite lookup_insert_eq, length_rev, length_map. reflexivity.
Qed.

Lemma X14_witness :
  RedisClient.rpop "content_publishing_queue"
    (fold_left (fun r item => snd (Redis.lpush "content_publishing_queue" item r))
       [Redis.PyDict [("content_id", Redis.DStr "c1")];
        Redis.PyDict [("content_id", Redis.DStr "c2")]] ∅)
  = (Some (RedisClient.decode
             (RedisClient.encode (Redis.PyDict [("content_id", Redis.DStr "c1")]))),
     fold_left (fun r item => snd (Redis.lpush "content_publishing_queue" item r))
       [Redis.PyDict [("content_id", Redis.DStr "c2")]] ∅).
Proof.
  apply (X14_queue_is_first_in_first_out "content_publishing_queue"
           (Redis.PyDict [("content_id", Redis.DStr "c1")])
           [Redis.PyDict [("content_id", Redis.DStr "c2")]] ∅).
  reflexivity.
Defined.

(** X15. A key that holds a value of another kind than a list makes every
    queue operation fail silently: [lpush] returns [False] and stores
    nothing, [rpop] returns [None], [llen] returns 0, all leaving Redis as it
    is; and [schedule_post] still returns [True] although the item was not
    stored. *)
Theorem X15_wrong_type_is_swallowed :
  forall (key : string) (item : Redis.pyobj) (r : Redis.keyspace)
         (held : Redis.rval) (now publish_at : Z) (id : string),
    r !! key = Some held ->
    (forall items, held <> Redis.RList items) ->
    Redis.lpush key item r = (false, r)
    /\ RedisClient.rpop key r = (None, r)
    /\ RedisClient.llen key r = 0
    /\ (key = "scheduled_posts_queue" ->
        Publisher.schedule_post now id publish_at r = (true, r)).
Proof.
  intros key item r held now publish_at id Hheld Hkind.
  assert (Hpush : forall x, Redis.lpush key x r = (false, r)).
  { intros x. unfold Redis.lpush, Redis.cmd_lpush. rewrite Hheld.
    destruct held as [text|items|members]; try reflexivity.
    exfalso. eapply Hkind. reflexivity. }
  split; [apply Hpush|]. split; [|split].
  - unfold RedisClient.rpop, RedisClient.cmd_rpop. rewrite Hheld.
    destruct held as [text|items|members]; try reflexivity.
    exfalso. eapply Hkind. reflexivity.
  - unfold RedisClient.llen, RedisClient.cmd_llen. rewrite Hheld.
    destruct held as [text|items|members]; try reflexivity.
    exfalso. eapply Hkind. reflexivity.
  - intros ->. unfold Publisher.schedule_post. rewrite Hpush. reflexivity.
Qed.

Lemma X15_witness :
  Redis.lpush "scheduled_posts_queue" (Redis.PyStr (Redis.Plain "x"))
    {[ "scheduled_posts_queue" := Redis.RSet [] ]}
  = (false, {[ "scheduled_posts_queue" := Redis.RSet [] ]}).
Proof.
  apply (X15_wrong_type_is_swallowed "scheduled_posts_queue"
           (Redis.PyStr (Redis.Plain "x"))
           {[ "scheduled_posts_queue" := Redis.RSet [] ]} (Redis.RSet []) 0 0 "c1").
  - vm_compute. reflexivity.
  - intros items. discriminate.
Defined.

(** ** More on deduplication *)

Lemma In_firstn {A : Type} (n : nat) (l : list A) (x : A) :
  In x (firstn n l) -> In x l.
Proof.
  revert l. induction n as [|n IH]; intros l H; [destruct H|].
  destruct l as [|y l]; [destruct H|].
  cbn [firstn] in H. destruct H as [->|H]; [left; reflexivity | right; auto].
Qed.

Lemma firstn_sorted {A : Type} (R : A -> A -> Prop) (n : nat) (l : list A) :
  StronglySorted R l -> StronglySorted R (firstn n l).
Proof.
  intros Hs. revert n. induction Hs as [|x l Hs IH Hall]; intros n.
  - rewrite firstn_nil. constructor.
  - destruct n as [|n]; [constructor|]. cbn [firstn]. constructor; [apply IH|].
    apply List.Forall_forall. intros y Hy. apply In_firstn in Hy.
    rewrite List.Forall_forall in Hall. apply Hall. exact Hy.
Qed.

Lemma snippet_bound (content_text : string) :
  Py.len (Similarity.snippet content_text) <= 203.
Proof.
  unfold Similarity.snippet.
  destruct (200 <? Py.len content_text) eqn:E.
  - pose proof (len_cut 200 content_text) as H.
    assert (H200 : Z.of_nat 200 = 200) by reflexivity. lia.
  - apply Z.ltb_ge in E. lia.
Qed.

Section DedupMore.

Variable cosine_similarity : list Q -> list Q -> option Q.

Lemma scan_origin (embedding : list Q) (entries : list ContentArchive)
    (item : Similarity.SimilarItem) :
  In item (Similarity.scan cosine_similarity embedding entries) ->
  exists entry stored content_text,
    In entry entries
    /\ ca_content_embedding entry = Embedding stored
    /\ ca_content_text entry = Some content_text
    /\ cosine_similarity embedding stored = Some (Similarity.si_similarity item)
    /\ (3 # 10 < Similarity.si_similarity item)%Q
    /\ Similarity.si_content_id item = ca_processed_content_id entry
    /\ Similarity.si_snippet item = Similarity.snippet content_text.
Proof.
  induction entries as [|e entries IH]; intros Hin; [destruct Hin|].
  cbn [Similarity.scan] in Hin.
  assert (Hrest : In item (Similarity.scan cosine_similarity embedding entries) ->
                  exists entry stored content_text,
                    In entry (e :: entries)
                    /\ ca_content_embedding entry = Embedding stored
                    /\ ca_content_text entry = Some content_text
                    /\ cosine_similarity embedding stored
                       = Some (Similarity.si_similarity item)
                    /\ (3 # 10 < Similarity.si_similarity item)%Q
                    /\ Similarity.si_content_id item = ca_processed_content_id entry
                    /\ Similarity.si_snippet item
                       = Similarity.snippet content_text).
  { intros H. destruct (IH H) as [entry [stored [content_text [Hentry Hrest]]]].
    exists entry, stored, content_text.
    split; [right; exact Hentry | exact Hrest]. }
  destruct (ca_content_embedding e) as [| |stored] eqn:Estored; try (auto; fail).
  destruct (cosine_similarity embedding stored) as [similarity|] eqn:Ecos; [|auto].
  destruct (Py.gt similarity (3 # 10)) eqn:Egt; [|auto].
  destruct (ca_content_text e) as [content_text|] eqn:Etext; [|auto].
  destruct Hin as [<-|Hin]; [|auto].
  exists e, stored, content_text. cbn. apply gt_true_iff in Egt.
  repeat split; try assumption. left. reflexivity.
Qed.

Lemma find_similar_content_in (query_raises : bool)
    (archive : list ContentArchive) (embedding : list Q) (text : string)
    (limit : nat) (item : Similarity.SimilarItem) :
  In item (Similarity._find_similar_content cosine_similarity query_raises
             archive embedding text limit) ->
  In item (Similarity.scan cosine_similarity embedding
             (Similarity.archive_query archive)).
Proof.
  unfold Similarity._find_similar_content.
  destruct query_raises; [intros []|].
  destruct (Similarity.archive_query archive) as [|e entries]; [intros []|].
  intros H. apply In_firstn in H. apply (proj1 (sort_desc_in _ _)) in H. exact H.
Qed.

(** X16. What [_find_similar_content] returns: at most [limit] items,
    sorted by decreasing similarity, each of them built from a row that the
    archive query read and that has an embedding and a text, with the cosine
    similarity of that row's embedding to the candidate's as its score, a
    score above 0.3, the row's processed item as its id and a snippet of at
    most 203 characters. *)
Theorem X16_similar_items_are_ranked_archive_rows :
  forall (query_raises : bool) (archive : list ContentArchive)
         (embedding : list Q) (text : string) (limit : nat),
    (length (Similarity._find_similar_content cosine_similarity query_raises
               archive embedding text limit) <= limit)%nat
    /\ StronglySorted Similarity.by_similarity
         (Similarity._find_similar_content cosine_similarity query_raises
            archive embedding text limit)
    /\ (forall item,
           In item (Similarity._find_similar_content cosine_similarity
                      query_raises archive embedding text limit) ->
           (3 # 10 < Similarity.si_similarity item)%Q
           /\ Py.len (Similarity.si_snippet item) <= 203
           /\ exists entry stored content_text,
                In entry (Similarity.archive_query archive)
                /\ ca_content_embedding entry = Embedding stored
                /\ ca_content_text entry = Some content_text
                /\ cosine_similarity embedding stored
                   = Some (Similarity.si_similarity item)
                /\ Similarity.si_content_id item = ca_processed_content_id entry
                /\ Similarity.si_snippet item
                   = Similarity.snippet content_text).
Proof.
  intros query_raises archive embedding text limit. split; [|split].
  - unfold Similarity._find_similar_content.
    destruct query_raises; [cbn; lia|].
    destruct (Similarity.archive_query archive); [cbn; lia|].
    apply firstn_le_length.
  - unfold Similarity._find_similar_content.
    destruct query_raises; [constructor|].
    destruct (Similarity.archive_query archive); [constructor|].
    apply firstn_sorted. apply sort_desc_sorted.
  - intros item Hin. apply find_similar_content_in in Hin.
    apply scan_origin in Hin.
    destruct Hin
      as [entry [stored [content_text [Hentry [Hst [Htx [Hcos [Hgt [Hid Hsn]]]]]]]]].
    split; [exact Hgt|]. split; [rewrite Hsn; apply snippet_bound|].
    exists entry, stored, content_text. auto 10.
Qed.

End DedupMore.

Lemma py_max_in (x : Q) (rest : list Q) :
  In (Similarity.py_max (x :: rest)) (x :: rest).
Proof.
  cbn [Similarity.py_max]. revert x.
  induction rest as [|y rest IH]; intros x; cbn [fold_left]; [left; reflexivity|].
  destruct (Py.gt y x).
  - right. apply IH.
  - destruct (IH x) as [H|H]; [left; exact H | right; right; exact H].
Qed.

Section Verdict.

Variable _get_embedding : string -> option (list Q).
Variable cosine_similarity : list Q -> list Q -> option Q.

(** The score reported on a cache miss with the embedding computed. *)
Lemma check_similarity_miss (settings : Settings) (query_raises : bool)
    (archive : list ContentArchive) (text content_id : string) (E : list Q) :
  _get_embedding text = Some E ->
  exists score,
    score
    = match Similarity._find_similar_content cosine_similarity query_raises
              archive E text 10 with
      | [] => 0%Q
      | item :: items =>
          Similarity.py_max (map Similarity.si_similarity (item :: items))
      end
    /\ Similarity.check_similarity _get_embedding cosine_similarity settings
         None query_raises archive text content_id !! "similarity_score"
       = Some (JNum score)
    /\ Similarity.check_similarity _get_embedding cosine_similarity settings
         None query_raises archive text content_id !! "is_duplicate"
       = Some (JBool (Py.gt score (min_similarity_threshold settings))).
Proof.
  intros Hemb. unfold Similarity.check_similarity. rewrite Hemb.
  destruct (Similarity._find_similar_content cosine_similarity query_raises
              archive E text 10) as [|item items];
    eexists; (split; [reflexivity|]); split;
    try apply lookup_insert_eq;
    (rewrite lookup_insert_ne by discriminate;
     rewrite lookup_insert_ne by discriminate;
     rewrite lookup_insert_ne by discriminate;
     apply lookup_insert_eq).
Qed.

(** X17. A duplicate verdict is never made up: with a threshold that is not
    negative, whenever the check (on a cache miss) reports [is_duplicate],
    the embedding was computed and some row read by the archive query has a
    cosine similarity to the candidate above the threshold (and above
    0.3). Failures of the embedding model or of the query therefore never
    produce a duplicate verdict. *)
Theorem X17_duplicate_verdict_has_a_row :
  forall (settings : Settings) (query_raises : bool)
         (archive : list ContentArchive) (text content_id : string),
    (0 <= min_similarity_threshold settings)%Q ->
    Similarity.check_similarity _get_embedding cosine_similarity settings None
      query_raises archive text content_id !! "is_duplicate"
    = Some (JBool true) ->
    exists E entry stored similarity,
      _get_embedding text = Some E
      /\ query_raises = false
      /\ In entry (Similarity.archive_query archive)
      /\ ca_content_embedding entry = Embedding stored
      /\ cosine_similarity E stored = Some similarity
      /\ (min_similarity_threshold settings < similarity)%Q
      /\ (3 # 10 < similarity)%Q.
Proof.
  intros settings query_raises archive text content_id Hthr Hdup.
  destruct (_get_embedding text) as [E|] eqn:Hemb.
  2:{ unfold Similarity.check_similarity in Hdup. rewrite Hemb in Hdup.
      vm_compute in Hdup. discriminate. }
  destruct (check_similarity_miss settings query_raises archive text content_id
              E Hemb) as [score [Hscore [_ Hd]]].
  rewrite Hd in Hdup. inversion Hdup as [Hgt]. apply gt_true_iff in Hgt.
  destruct (Similarity._find_similar_content cosine_similarity query_raises
              archive E text 10) as [|item items] eqn:Efind.
  { subst score. exfalso. exact (Qlt_not_le _ _ Hgt Hthr). }
  assert (Hin : In score (map Similarity.si_similarity (item :: items)))
    by (subst score; apply py_max_in).
  apply in_map_iff in Hin. destruct Hin as [best [Hbest Hinbest]].
  assert (Hq : query_raises = false).
  { destruct query_raises; [|reflexivity].
    unfold Similarity._find_similar_content in Efind. discriminate. }
  rewrite <- Efind in Hinbest. apply find_similar_content_in in Hinbest.
  apply scan_origin in Hinbest.
  destruct Hinbest as [entry [stored [_ [Hentry [Hst [_ [Hcos [Hgt3 _]]]]]]]].
  exists E, entry, stored, (Similarity.si_similarity best).
  rewrite Hbest. repeat split; try assumption.
  - rewrite <- Hbest. exact Hcos.
  - rewrite <- Hbest. exact Hgt3.
Qed.

(** X18. A row that is similar enough is always detected: if a row read by
    the archive query (one of the first 1000 rows whose embedding column is
    not SQL NULL) has a text and an embedding whose cosine similarity to the
    candidate is above 0.3 and above the duplicate threshold, then (on a
    cache miss, the embedding computed and the query answering) the reported
    score is at least that similarity and the verdict is [is_duplicate],
    however many other rows there are and although only the ten best are
    kept. *)
Theorem X18_similar_row_is_detected :
  forall (settings : Settings) (archive : list ContentArchive)
         (text content_id : string) (E stored : list Q)
         (entry : ContentArchive) (similarity : Q),
    _get_embedding text = Some E ->
    In entry (Similarity.archive_query archive) ->
    ca_content_embedding entry = Embedding stored ->
    ca_content_text entry <> None ->
    cosine_similarity E stored = Some similarity ->
    (3 # 10 < similarity)%Q ->
    (min_similarity_threshold settings < similarity)%Q ->
    Similarity.check_similarity _get_embedding cosine_similarity settings None
      false archive text content_id !! "is_duplicate"
    = Some (JBool true)
    /\ exists score,
         Similarity.check_similarity _get_embedding cosine_similarity settings
           None false archive text content_id !! "similarity_score"
         = Some (JNum score)
         /\ (similarity <= score)%Q.
Proof.
  intros settings archive text content_id E stored entry similarity Hemb Hin
         Hst Htx Hcos Hgt3 Hthr.
  destruct (check_similarity_miss settings false archive text content_id E Hemb)
    as [score [Hscore [Hs Hd]]].
  destruct (find_similar_content_head cosine_similarity archive E stored
              similarity entry text Hin Hst Htx Hcos Hgt3) as [h [t [Hfind Hle]]].
  rewrite Hfind in Hscore.
  assert (Hge : (similarity <= score)%Q).
  { subst score. cbn [map].
    eapply Qle_trans; [exact Hle | apply py_max_ge_first]. }
  split.
  - rewrite Hd. do 2 f_equal. apply gt_true_iff.
    eapply Qlt_le_trans; [exact Hthr | exact Hge].
  - exists score. split; [exact Hs | exact Hge].
Qed.

End Verdict.

Lemma X17_witness :
  exists E entry stored similarity,
    Examples.embed_e1 Examples.long_text = Some E
    /\ false = false
    /\ In entry (Similarity.archive_query [Examples.archive_entry "same" [1%Q; 0%Q]])
    /\ ca_content_embedding entry = Embedding stored
    /\ Similarity.dot E stored = Some similarity
    /\ (min_similarity_threshold default_settings < similarity)%Q
    /\ (3 # 10 < similarity)%Q.
Proof.
  apply (X17_duplicate_verdict_has_a_row Examples.embed_e1 Similarity.dot
           default_settings false [Examples.archive_entry "same" [1%Q; 0%Q]]
           Examples.long_text "c2").
  - unfold Qle. cbn. lia.
  - vm_compute. reflexivity.
Defined.

Lemma X18_witness :
  Similarity.check_similarity Examples.embed_e1 Similarity.dot default_settings
    None false [Examples.archive_entry "near" [(4 # 5)%Q; (3 # 5)%Q]]
    Examples.long_text "c2" !! "is_duplicate"
  = Some (JBool true).
Proof.
  apply (X18_similar_row_is_detected Examples.embed_e1 Similarity.dot
           default_settings [Examples.archive_entry "near" [(4 # 5)%Q; (3 # 5)%Q]]
           Examples.long_text "c2" [1%Q; 0%Q] [(4 # 5)%Q; (3 # 5)%Q]
           (Examples.archive_entry "near" [(4 # 5)%Q; (3 # 5)%Q])
           (1 * (4 # 5) + (0 * (3 # 5) + 0))%Q).
  - reflexivity.
  - left. reflexivity.
  - reflexivity.
  - discriminate.
  - reflexivity.
  - reflexivity.
  - reflexivity.
Defined.

(** ** Archive upkeep *)

Lemma update_first_rows (content_id : string) (score : Q)
    (archive : list ContentArchive) :
  Forall2
    (fun before after =>
       ca_processed_content_id after = ca_processed_content_id before
       /\ ca_title after = ca_title before
       /\ ca_content_text after = ca_content_text before
       /\ ca_content_embedding after = ca_content_embedding before
       /\ ca_published_at after = ca_published_at before
       /\ ca_platform after = ca_platform before
       /\ (ca_processed_content_id before <> content_id -> after = before))
    archive (Archive.update_first content_id score archive).
Proof.
  induction archive as [|entry rest IH]; [constructor|].
  cbn [Archive.update_first].
  destruct (String.eqb (ca_processed_content_id entry) content_id) eqn:E.
  - constructor.
    + apply String.eqb_eq in E. cbn. repeat split; congruence.
    + clear IH E. induction rest as [|e rest IH]; constructor; [|exact IH].
      repeat split; reflexivity.
  - constructor; [repeat split; reflexivity | exact IH].
Qed.

Lemma Forall2_same_rows (content_id : string) (archive : list ContentArchive) :
  Forall2
    (fun before after =>
       ca_processed_content_id after = ca_processed_content_id before
       /\ ca_title after = ca_title before
       /\ ca_content_text after = ca_content_text before
       /\ ca_content_embedding after = ca_content_embedding before
       /\ ca_published_at after = ca_published_at before
       /\ ca_platform after = ca_platform before
       /\ (ca_processed_content_id before <> content_id -> after = before))
    archive archive.
Proof.
  induction archive as [|e rest IH]; constructor; [|exact IH].
  repeat split; reflexivity.
Qed.

(** The archive after a call of [update_engagement_score]: up to the order
    of the rows, the archive before with at most an engagement score
    changed. *)
Lemma update_engagement_score_rows
    (engagement_score_of : dict -> option Q)
    (store_order : list ContentArchive -> list ContentArchive)
    (query_raises commit_raises : bool) (content_id : string)
    (engagement_data : dict) (db : DB) :
  (forall rows, Permutation (store_order rows) rows) ->
  exists rows,
    Permutation rows
      (content_archive
         (committed (Archive.update_engagement_score engagement_score_of
                       store_order query_raises commit_raises content_id
                       engagement_data (Examples.clean db))))
    /\ Forall2
         (fun before after =>
            ca_processed_content_id after = ca_processed_content_id before
            /\ ca_title after = ca_title before
            /\ ca_content_text after = ca_content_text before
            /\ ca_content_embedding after = ca_content_embedding before
            /\ ca_published_at after = ca_published_at before
            /\ ca_platform after = ca_platform before
            /\ (ca_processed_content_id before <> content_id -> after = before))
         (content_archive db) rows.
Proof.
  intros Horder.
  assert (Hsame : exists rows,
             Permutation rows (content_archive db)
             /\ Forall2
                  (fun before after =>
                     ca_processed_content_id after = ca_processed_content_id before
                     /\ ca_title after = ca_title before
                     /\ ca_content_text after = ca_content_text before
                     /\ ca_content_embedding after = ca_content_embedding before
                     /\ ca_published_at after = ca_published_at before
                     /\ ca_platform after = ca_platform before
                     /\ (ca_processed_content_id before <> content_id ->
                         after = before))
                  (content_archive db) rows).
  { exists (content_archive db). split; [reflexivity | apply Forall2_same_rows]. }
  unfold Archive.update_engagement_score.
  destruct query_raises; [exact Hsame|].
  cbn [pending Examples.clean].
  destruct (find _ (content_archive db)); [|exact Hsame].
  destruct (engagement_score_of engagement_data) as [score|]; [|exact Hsame].
  destruct commit_raises; [exact Hsame|].
  exists (Archive.update_first content_id score (content_archive db)).
  split; [|apply update_first_rows].
  cbn. symmetry. apply Horder.
Qed.

(** X19. Updating an engagement score never alters the similarity corpus:
    whatever the data and the score computed from it, and whether the query
    or the commit fails, the archive afterwards holds, up to the order in
    which the store returns them, the same rows with the same processed
    item, title, text, embedding, publication time and platform; rows of
    other processed items are untouched altogether, the other tables are
    unchanged and the session has nothing pending. *)
Theorem X19_engagement_update_keeps_the_corpus :
  forall (engagement_score_of : dict -> option Q)
         (store_order : list ContentArchive -> list ContentArchive)
         (query_raises commit_raises : bool) (content_id : string)
         (engagement_data : dict) (db : DB),
    (forall rows, Permutation (store_order rows) rows) ->
    let s' := Archive.update_engagement_score engagement_score_of store_order
                query_raises commit_raises content_id engagement_data
                (Examples.clean db) in
    pending s' = committed s'
    /\ raw_content (committed s') = raw_content db
    /\ processed_content (committed s') = processed_content db
    /\ published_posts (committed s') = published_posts db
    /\ exists rows,
         Permutation rows (content_archive (committed s'))
         /\ Forall2
              (fun before after =>
                 ca_processed_content_id after = ca_processed_content_id before
                 /\ ca_title after = ca_title before
                 /\ ca_content_text after = ca_content_text before
                 /\ ca_content_embedding after = ca_content_embedding before
                 /\ ca_published_at after = ca_published_at before
                 /\ ca_platform after = ca_platform before
                 /\ (ca_processed_content_id before <> content_id ->
                     after = before))
              (content_archive db) rows.
Proof.
  intros engagement_score_of store_order query_raises commit_raises content_id
         engagement_data db Horder s'.
  split; [|split; [|split; [|split]]];
    [| | | | apply update_engagement_score_rows; exact Horder];
    subst s'; unfold Archive.update_engagement_score;
    (destruct query_raises; [reflexivity|]);
    cbn [pending Examples.clean];
    (destruct (find _ (content_archive db)); [|reflexivity]);
    (destruct (engagement_score_of engagement_data); [|reflexivity]);
    destruct commit_raises; reflexivity.
Qed.

Lemma X19_witness :
  exists rows,
    Permutation rows
      (content_archive
         (committed
            (Archive.update_engagement_score Archive.one_fifth
               Archive.last_first false false "same"
               {[ "views" := JNum 10; "likes" := JNum 1 ]}
               (Examples.clean
                  (Archive.set_archive
                     [Examples.archive_entry "old" [0%Q; 1%Q];
                      Examples.archive_entry "same" [1%Q; 0%Q]]
                     Examples.empty_db)))))
    /\ Forall2
         (fun before after =>
            ca_processed_content_id after = ca_processed_content_id before
            /\ ca_title after = ca_title before
            /\ ca_content_text after = ca_content_text before
            /\ ca_content_embedding after = ca_content_embedding before
            /\ ca_published_at after = ca_published_at before
            /\ ca_platform after = ca_platform before
            /\ (ca_processed_content_id before <> "same" -> after = before))
         [Examples.archive_entry "old" [0%Q; 1%Q];
          Examples.archive_entry "same" [1%Q; 0%Q]]
         rows.
Proof.
  apply (X19_engagement_update_keeps_the_corpus Archive.one_fifth
           Archive.last_first false false "same"
           {[ "views" := JNum 10; "likes" := JNum 1 ]}
           (Archive.set_archive
              [Examples.archive_entry "old" [0%Q; 1%Q];
               Examples.archive_entry "same" [1%Q; 0%Q]]
              Examples.empty_db)).
  intros rows. unfold Archive.last_first. symmetry. apply Permutation_rev.
Defined.

Lemma prefix_inv (needle hay : string) :
  String.prefix needle hay = true -> exists after, hay = needle ++ after.
Proof.
  revert hay. induction needle as [|c needle IH]; intros hay H.
  - exists hay. reflexivity.
  - destruct hay as [|d hay]; [discriminate|].
    cbn [String.prefix] in H. destruct (ascii_dec c d) as [->|]; [|discriminate].
    destruct (IH hay H) as [after ->]. exists after. reflexivity.
Qed.

Lemma contains_inv (needle hay : string) :
  Py.contains needle hay = true ->
  exists before after, hay = before ++ needle ++ after.
Proof.
  induction hay as [|c hay IH]; cbn [Py.contains]; intros H.
  - apply prefix_inv in H. destruct H as [after ->]. exists "", after. reflexivity.
  - apply Bool.orb_true_iff in H. destruct H as [H|H].
    + apply prefix_inv in H. destruct H as [after ->]. exists "", after.
      reflexivity.
    + destruct (IH H) as [before [after ->]]. exists (String c before), after.
      reflexivity.
Qed.

Lemma contains_trans (a b c : string) :
  Py.contains a b = true -> Py.contains b c = true -> Py.contains a c = true.
Proof.
  intros Hab Hbc. apply contains_inv in Hbc. destruct Hbc as [before [after ->]].
  apply contains_skip. apply contains_app_l. exact Hab.
Qed.

Lemma topics_of_in (text_lower topic keyword : string) (keywords : list string)
    (table : list (string * list string)) :
  In (topic, keywords) table ->
  In keyword keywords ->
  Py.contains keyword text_lower = true ->
  In topic (Archive.topics_of text_lower table).
Proof.
  intros Hin Hkw Hc. induction table as [|[t ks] table IH]; [destruct Hin|].
  cbn [Archive.topics_of].
  destruct Hin as [Heq|Hin].
  - inversion Heq; subst.
    assert (H : existsb (fun k => Py.contains k text_lower) keywords = true).
    { apply existsb_exists. exists keyword. auto. }
    rewrite H. left. reflexivity.
  - destruct (existsb _ ks); [right|]; apply IH; exact Hin.
Qed.

(** X21. Topics are found by substring, not by word: a topic is reported as
    soon as the lower-cased text contains any word that has one of the
    topic's keywords inside it. So every text mentioning "security" is
    tagged "regulation" (keyword "sec") as well as "security", and every text
    mentioning "smart" is tagged "nft" (keyword "art"). *)
Theorem X21_topics_match_inside_words :
  forall (text topic keyword word : string) (keywords : list string),
    In (topic, keywords) Archive.topic_keywords ->
    In keyword keywords ->
    Py.contains keyword word = true ->
    Py.contains word (Py.lower text) = true ->
    In topic (Archive._extract_topics text).
Proof.
  intros text topic keyword word keywords Hin Hkw Hkeyword Hword.
  unfold Archive._extract_topics.
  eapply topics_of_in; [exact Hin | exact Hkw|].
  eapply contains_trans; [exact Hkeyword | exact Hword].
Qed.

Lemma X21_witness :
  In "regulation" (Archive._extract_topics "A Security audit of the bridge").
Proof.
  apply (X21_topics_match_inside_words "A Security audit of the bridge"
           "regulation" "sec" "security"
           ["regulation"; "legal"; "law"; "government"; "sec"; "compliance"]).
  - cbn. tauto.
  - cbn. tauto.
  - reflexivity.
  - reflexivity.
Defined.

(** ** The review endpoints *)

(** X22. Approving a held item clears the hold, sets the status "ready" and
    hands the item to the publishing queue; a second approval is refused
    with status 400 and changes neither the store nor the queue, so an item
    is queued at most once by approvals. Approving an unknown item returns
    404 and changes nothing. *)
Theorem X22_approve_once :
  forall (env env2 : Api.Env) (content_id : string) (db : DB)
         (r : Redis.keyspace) (content : ProcessedContent),
    Api.query_raises env = false ->
    Api.commit_raises env = false ->
    Api.redis_raises env = false ->
    Api.query_raises env2 = false ->
    processed_content db !! content_id = Some content ->
    pc_requires_hitl content = true ->
    exists db' r',
      Api.approve_content env content_id db r
      = (Api.Ok200 "Content approved and queued for publishing", db', r')
      /\ (exists p, processed_content db' !! content_id = Some p
                    /\ pc_status p = ContentStatus.READY
                    /\ pc_requires_hitl p = false
                    /\ pc_paraphrased_text p = pc_paraphrased_text content)
      /\ (r !! "content_publishing_queue" = None ->
          RedisClient.brpop "content_publishing_queue" 30 r'
          = (Some (Redis.PyDict [("content_id", Redis.DStr content_id);
                                 ("timestamp", Redis.DTime (Api.utcnow env))]),
             r))
      /\ Api.approve_content env2 content_id db' r' = (Api.BadRequest400, db', r')
      /\ (forall other, processed_content db !! other = None ->
                        Api.approve_content env2 other db r
                        = (Api.NotFound404, db, r)).
Proof.
  intros env env2 content_id db r content Hq Hc Hr Hq2 Hlook Hheld.
  unfold Api.approve_content at 1. rewrite Hq, Hlook, Hheld, Hc, Hr.
  cbn [negb]. do 2 eexists. split; [reflexivity|]. split; [|split; [|split]].
  - eexists. split; [apply lookup_insert_eq|]. cbn. auto.
  - intros Hnone. unfold Redis.lpush, Redis.cmd_lpush. rewrite Hnone.
    cbn [snd]. unfold RedisClient.brpop, RedisClient.cmd_rpop.
    rewrite lookup_insert_eq. cbn [rev app RedisClient.decode Redis.json_loads].
    rewrite delete_insert_id by exact Hnone. reflexivity.
  - unfold Api.approve_content. rewrite Hq2. cbn [Api.put_processed processed_content].
    rewrite lookup_insert_eq. reflexivity.
  - intros other Hother. unfold Api.approve_content. rewrite Hq2, Hother.
    reflexivity.
Qed.

Lemma X22_witness :
  exists db' r',
    Api.approve_content Review.api_ok "c1" Review.held_db ∅
    = (Api.Ok200 "Content approved and queued for publishing", db', r')
    /\ (exists p, processed_content db' !! "c1" = Some p
                  /\ pc_status p = ContentStatus.READY
                  /\ pc_requires_hitl p = false
                  /\ pc_paraphrased_text p
                     = pc_paraphrased_text Review.held_item).
Proof.
  destruct (X22_approve_once Review.api_ok Review.api_ok "c1"
              Review.held_db ∅ Review.held_item eq_refl eq_refl eq_refl eq_refl
              eq_refl eq_refl)
    as [db' [r' [Hrun [Hrow _]]]].
  exists db', r'. split; [exact Hrun | exact Hrow].
Defined.

(** X23. From hold to publication: an item that is held, stored under its
    own id and without published record becomes publishable by one approval;
    the publish operation then (bot initialised, text send and commits
    succeeding) sends one message, records it and sets the status
    "published". *)
Theorem X23_approved_item_gets_published :
  forall (settings : Settings) (config : Publisher.AffiliateConfig)
         (api : Api.Env) (env : Publisher.Env) (content_id text_id : string)
         (db : DB) (r : Redis.keyspace) (content : ProcessedContent)
         (channel : list Publisher.sent_message),
    Api.query_raises api = false ->
    Api.commit_raises api = false ->
    processed_content db !! content_id = Some content ->
    pc_id content = content_id ->
    pc_requires_hitl content = true ->
    Publisher.existing_post content_id db = None ->
    Publisher.query_raises env = false ->
    Publisher.bot_initialized env = true ->
    Publisher.text_message_id env = Some text_id ->
    Publisher.post_commit_raises env = false ->
    Publisher.status_commit_raises env = false ->
    (* before the approval the item cannot be published when it is pending *)
    (pc_status content <> ContentStatus.READY ->
     Publisher.publish_content settings config env content_id (Examples.clean db)
       channel = (false, Examples.clean db, channel))
    /\ exists message post s',
         Publisher.publish_content settings config env content_id
           (Examples.clean
              (snd (fst (Api.approve_content api content_id db r))))
           channel
         = (true, s', message :: channel)
         /\ published_posts (committed s') = post :: published_posts db
         /\ pp_processed_content_id post = content_id
         /\ pc_status <$> processed_content (committed s') !! content_id
            = Some ContentStatus.PUBLISHED.
Proof.
  intros settings config api env content_id text_id db r content channel
         Hq Hc Hlook Hkey Hheld Hex Hpq Hbot Htext Hpc Hsc.
  split.
  { intros Hst. unfold Publisher.publish_content.
    rewrite Hpq. cbn [pending failed Examples.clean orb]. rewrite Hlook.
    apply String.eqb_neq in Hst. rewrite Hst. reflexivity. }
  assert (Happ : snd (fst (Api.approve_content api content_id db r))
                 = Api.put_processed content_id
                     (Processor.with_gate false content) db).
  { unfold Api.approve_content. rewrite Hq, Hlook, Hheld, Hc. cbn [negb].
    destruct (Api.redis_raises api); reflexivity. }
  rewrite Happ.
  destruct (publish_content_sending settings config env content_id
              (Examples.clean
                 (Api.put_processed content_id
                    (Processor.with_gate false content) db))
              channel (Processor.with_gate false content) text_id Hpq eq_refl)
    as [message [post [Hid [_ [_ Hrun]]]]]; try assumption.
  { cbn. apply lookup_insert_eq. }
  { reflexivity. }
  rewrite Hpc, Hsc in Hrun.
  assert (Hpost : pp_processed_content_id post = content_id)
    by (rewrite Hid; exact Hkey).
  exists message, post. eexists. split; [exact Hrun|].
  split; [reflexivity|]. split; [exact Hpost|].
  cbn [committed Examples.clean set_processed processed_content].
  change (pc_id (Publisher.with_status ContentStatus.PUBLISHED
                   (Processor.with_gate false content)))
    with (pc_id content).
  rewrite Hkey, lookup_insert_eq. reflexivity.
Qed.

Lemma X23_witness :
  exists message post s',
    Publisher.publish_content default_settings Publisher.affiliate_config
      Examples.send_ok "c1"
      (Examples.clean
         (snd (fst (Api.approve_content Review.api_ok "c1" Review.held_db ∅))))
      []
    = (true, s', [message])
    /\ published_posts (committed s') = post :: published_posts Review.held_db
    /\ pp_processed_content_id post = "c1"
    /\ pc_status <$> processed_content (committed s') !! "c1"
       = Some ContentStatus.PUBLISHED.
Proof.
  apply (X23_approved_item_gets_published default_settings
           Publisher.affiliate_config Review.api_ok Examples.send_ok "c1"
           "4711" Review.held_db ∅ Review.held_item []); reflexivity.
Defined.

(** X24. Rejection is applied to an item whatever its status, also to one
    already published, and is final for the pipeline: afterwards the status
    is "rejected" and the hold flag cleared, the publish operation returns
    [False] without sending or writing, and an approval is refused with
    status 400. *)
Theorem X24_reject_is_final :
  forall (settings : Settings) (config : Publisher.AffiliateConfig)
         (env env2 : Api.Env) (penv : Publisher.Env) (content_id : string)
         (db : DB) (r : Redis.keyspace) (content : ProcessedContent)
         (channel : list Publisher.sent_message),
    Api.query_raises env = false ->
    Api.commit_raises env = false ->
    Api.query_raises env2 = false ->
    Publisher.query_raises penv = false ->
    processed_content db !! content_id = Some content ->
    exists db',
      Api.reject_content env content_id db = (Api.Ok200 "Content rejected", db')
      /\ (exists p, processed_content db' !! content_id = Some p
                    /\ pc_status p = ContentStatus.REJECTED
                    /\ pc_requires_hitl p = false)
      /\ published_posts db' = published_posts db
      /\ Publisher.publish_content settings config penv content_id
           (Examples.clean db') channel
         = (false, Examples.clean db', channel)
      /\ Api.approve_content env2 content_id db' r = (Api.BadRequest400, db', r).
Proof.
  intros settings config env env2 penv content_id db r content channel
         Hq Hc Hq2 Hpq Hlook.
  unfold Api.reject_content. rewrite Hq, Hlook, Hc.
  eexists. split; [reflexivity|]. split; [|split; [reflexivity|split]].
  - eexists. split; [apply lookup_insert_eq|]. cbn. auto.
  - unfold Publisher.publish_content. rewrite Hpq.
    cbn [pending Examples.clean Api.put_processed processed_content].
    rewrite lookup_insert_eq. reflexivity.
  - unfold Api.approve_content. rewrite Hq2.
    cbn [Api.put_processed processed_content].
    rewrite lookup_insert_eq. reflexivity.
Qed.

Lemma X24_witness :
  exists db',
    Api.reject_content Review.api_ok "c1"
      (committed Examples.published_session)
    = (Api.Ok200 "Content rejected", db')
    /\ (exists p, processed_content db' !! "c1" = Some p
                  /\ pc_status p = ContentStatus.REJECTED
                  /\ pc_requires_hitl p = false).
Proof.
  assert (Hlook : processed_content (committed Examples.published_session) !! "c1"
                  = Some (Examples.item "c1" ContentStatus.PUBLISHED
                            (Some "Bitcoin dostig 50k")))
    by (vm_compute; reflexivity).
  destruct (X24_reject_is_final default_settings Publisher.affiliate_config
              Review.api_ok Review.api_ok Examples.send_ok "c1"
              (committed Examples.published_session) ∅
              (Examples.item "c1" ContentStatus.PUBLISHED (Some "Bitcoin dostig 50k"))
              [] eq_refl eq_refl eq_refl eq_refl Hlook)
    as [db' [Hrun [Hrow _]]].
  exists db'. split; [exact Hrun | exact Hrow].
Defined.

(** ** The translation service *)

Lemma machine_translation_fallback (env : Translator.Env)
    (text source_lang target_lang : string) :
  Translator.deepl_initialized env = false
  \/ source_lang = target_lang
  \/ Translator._map_lang_code_for_deepl source_lang = None
  \/ Translator._map_lang_code_for_deepl target_lang = None
  \/ Translator.deepl_text env = None ->
  Translator._get_machine_translation env text source_lang target_lang = text.
Proof.
  unfold Translator._get_machine_translation.
  intros [H|[H|[H|[H|H]]]].
  - rewrite H. reflexivity.
  - subst. rewrite String.eqb_refl, Bool.andb_false_r. reflexivity.
  - rewrite H. destruct (_ && _); reflexivity.
  - rewrite H. destruct (_ && _); [|reflexivity].
    destruct (Translator._map_lang_code_for_deepl source_lang); reflexivity.
  - rewrite H. destruct (_ && _); [|reflexivity].
    destruct (Translator._map_lang_code_for_deepl source_lang); [|reflexivity].
    destruct (Translator._map_lang_code_for_deepl target_lang); reflexivity.
Qed.

(** X25. Translation never blocks on its collaborators. On a cache miss the
    result always carries the six fields; when the enhancement call gives no
    answer or an empty one, the refined rendering is the machine translation,
    and an answer that is not empty and no JSON is taken as the refined
    rendering itself; when DeepL is not initialised, the languages are equal,
    a language code is unknown to DeepL or DeepL raises, the machine
    translation is the source text. With both collaborators failing the text
    passes through unchanged. *)
Theorem X25_translation_degrades_to_the_source_text :
  forall (env : Translator.Env) (text source_lang target_lang : string),
    Translator.cached_translation env = None ->
    (forall field,
        In field ["original_language"; "machine_translation";
                  "human_translation"; "summary"; "glossary"; "quality_score"] ->
        is_Some (Translator.translate_with_llm env text source_lang target_lang
                 !! field))
    /\ (Translator.llm_enhancement env = Processor.NoReply
        \/ Translator.llm_enhancement env = Processor.NotJson "" ->
        Translator.translate_with_llm env text source_lang target_lang
        !! "human_translation"
        = Some (JStr (Translator._get_machine_translation env text source_lang
                        target_lang)))
    /\ (forall response,
           Translator.llm_enhancement env = Processor.NotJson response ->
           response <> "" ->
           Translator.translate_with_llm env text source_lang target_lang
           !! "human_translation" = Some (JStr response))
    /\ (Translator.deepl_initialized env = false
        \/ source_lang = target_lang
        \/ Translator._map_lang_code_for_deepl source_lang = None
        \/ Translator._map_lang_code_for_deepl target_lang = None
        \/ Translator.deepl_text env = None ->
        Translator.translate_with_llm env text source_lang target_lang
        !! "machine_translation" = Some (JStr text)
        /\ (Translator.llm_enhancement env = Processor.NoReply
            \/ Translator.llm_enhancement env = Processor.NotJson "" ->
            Translator.translate_with_llm env text source_lang target_lang
            !! "human_translation" = Some (JStr text))).
Proof.
  intros env text source_lang target_lang Hcache.
  unfold Translator.translate_with_llm. rewrite Hcache.
  split; [|split; [|split]].
  - intros field Hin. cbn in Hin.
    destruct Hin as [<-|[<-|[<-|[<-|[<-|[<-|[]]]]]]];
      repeat (rewrite lookup_insert_ne by discriminate);
      first [rewrite lookup_insert_eq | rewrite lookup_singleton_eq];
      eexists; reflexivity.
  - intros Hllm. unfold Translator._enhance_translation_with_llm.
    destruct Hllm as [->| ->]; cbn [String.eqb];
      rewrite lookup_insert_ne by discriminate;
      rewrite lookup_insert_ne by discriminate;
      rewrite lookup_insert_eq; reflexivity.
  - intros response Hllm Hne. unfold Translator._enhance_translation_with_llm.
    rewrite Hllm. apply String.eqb_neq in Hne. rewrite Hne.
    rewrite lookup_insert_ne by discriminate.
    rewrite lookup_insert_ne by discriminate.
    rewrite lookup_insert_eq. reflexivity.
  - intros Hdeepl.
    rewrite (machine_translation_fallback env text source_lang target_lang Hdeepl).
    split.
    + rewrite lookup_insert_ne by discriminate.
      rewrite lookup_insert_eq. reflexivity.
    + intros Hllm. unfold Translator._enhance_translation_with_llm.
      destruct Hllm as [->| ->]; cbn [String.eqb];
        rewrite lookup_insert_ne by discriminate;
        rewrite lookup_insert_ne by discriminate;
        rewrite lookup_insert_eq; reflexivity.
Qed.

Lemma X25_witness :
  Translator.translate_with_llm Review.translator_down "Bitcoin rallies" "en" "ru"
  !! "human_translation"
  = Some (JStr (Translator._get_machine_translation Review.translator_down
                  "Bitcoin rallies" "en" "ru")).
Proof.
  apply (proj1 (proj2 (X25_translation_degrades_to_the_source_text
                         Review.translator_down "Bitcoin rallies" "en" "ru"
                         eq_refl))).
  right. reflexivity.
Defined.

(** ** From the gate to the channel *)

(** X26. An item that the gate lets through is published by the next call
    of the publish operation: after the orchestrator has processed a raw
    item without hold (no record existing for the new id), a publish call on
    the resulting session with the bot initialised, the text send and both
    commits succeeding returns [True], sends one message and leaves the item
    in status "published" with one record more in the store. *)
Theorem X26_released_item_is_published :
  forall (settings : Settings) (config : Publisher.AffiliateConfig)
         (env : Processor.Env) (penv : Publisher.Env)
         (content_id pid text_id : string) (s s' : Session)
         (r r' : Redis.keyspace) (channel : list Publisher.sent_message),
    Processor.process_single_content settings env content_id s r
    = (Processor.Processed pid false, s', r') ->
    Publisher.existing_post pid (pending s) = None ->
    Publisher.query_raises penv = false ->
    Publisher.bot_initialized penv = true ->
    Publisher.text_message_id penv = Some text_id ->
    Publisher.post_commit_raises penv = false ->
    Publisher.status_commit_raises penv = false ->
    exists message post s'',
      Publisher.publish_content settings config penv pid s' channel
      = (true, s'', message :: channel)
      /\ published_posts (committed s'') = post :: published_posts (pending s)
      /\ pp_processed_content_id post = pid
      /\ pc_status <$> processed_content (committed s'') !! pid
         = Some ContentStatus.PUBLISHED.
Proof.
  intros settings config env penv content_id pid text_id s s' r r' channel
         Hrun Hex Hq Hbot Htext Hpc Hsc.
  apply process_processed_inv in Hrun.
  destruct Hrun as [raw [analysis [processed
    [_ [_ [Hraw [Hproc [Han [Hcreate [Hpid [Hhitl [Hs' Hr']]]]]]]]]]]].
  assert (Hrow : processed_content (pending s') !! pid
                 = Some (Processor.with_gate false processed)).
  { subst pid s'. cbn. apply lookup_insert_eq. }
  assert (Hposts : published_posts (pending s') = published_posts (pending s))
    by (subst s'; reflexivity).
  assert (Hex' : Publisher.existing_post pid (pending s') = None).
  { unfold Publisher.existing_post in *. rewrite Hposts. exact Hex. }
  assert (Hactive : failed s' = false) by (subst s'; reflexivity).
  destruct (publish_content_sending settings config penv pid s' channel
              (Processor.with_gate false processed) text_id Hq Hactive Hrow
              eq_refl Hex' Hbot Htext)
    as [message [post [Hid [_ [_ Hpub]]]]].
  rewrite Hpc, Hsc in Hpub.
  assert (Hpost : pp_processed_content_id post = pid)
    by (rewrite Hid, Hpid; reflexivity).
  exists message, post. eexists. split; [exact Hpub|].
  split; [cbn; rewrite Hposts; reflexivity|]. split; [exact Hpost|].
  cbn [committed Examples.clean set_processed processed_content].
  change (pc_id (Publisher.with_status ContentStatus.PUBLISHED
                   (Processor.with_gate false processed)))
    with (pc_id processed).
  rewrite <- Hpid, lookup_insert_eq. reflexivity.
Qed.

Lemma X26_witness :
  exists message post s'',
    Publisher.publish_content default_settings Publisher.affiliate_config
      Examples.send_ok "p1"
      (snd (fst (Processor.process_single_content default_settings
                   Examples.env_ok "r1" (Examples.clean Examples.raw_db) ∅)))
      []
    = (true, s'', [message])
    /\ published_posts (committed s'')
       = post :: published_posts (pending (Examples.clean Examples.raw_db))
    /\ pp_processed_content_id post = "p1"
    /\ pc_status <$> processed_content (committed s'') !! "p1"
       = Some ContentStatus.PUBLISHED.
Proof.
  apply (X26_released_item_is_published default_settings
           Publisher.affiliate_config Examples.env_ok Examples.send_ok "r1" "p1"
           "4711" (Examples.clean Examples.raw_db) _ ∅
           (snd (Processor.process_single_content default_settings
                   Examples.env_ok "r1" (Examples.clean Examples.raw_db) ∅)) []);
    reflexivity.
Defined.

(** X27. The duplicate threshold acts on the gate in one direction only:
    an item held under a threshold is held under every lower threshold, so
    lowering the threshold never releases an item and raising it never holds
    one. *)
Theorem X27_gate_is_monotone_in_the_threshold :
  forall (low high : Settings) (processed : ProcessedContent) (analysis : dict),
    (min_similarity_threshold low <= min_similarity_threshold high)%Q ->
    Gate._check_hitl_requirements high processed analysis = true ->
    Gate._check_hitl_requirements low processed analysis = true.
Proof.
  intros low high processed analysis Hle.
  unfold Gate._check_hitl_requirements, Gate.check_hitl_body.
  destruct (String.eqb _ _); [reflexivity|].
  destruct (pc_similarity_score processed) as [score|]; [|reflexivity].
  destruct (Py.gt score (min_similarity_threshold high)) eqn:Ehigh.
  - apply gt_true_iff in Ehigh.
    assert (Hlow : Py.gt score (min_similarity_threshold low) = true).
    { apply gt_true_iff. eapply Qle_lt_trans; [exact Hle | exact Ehigh]. }
    rewrite Hlow. reflexivity.
  - destruct (Py.gt score (min_similarity_threshold low)); [reflexivity|].
    intros H. exact H.
Qed.

Lemma X27_witness :
  Gate._check_hitl_requirements Examples.threshold_low
    (Examples.item "c1" ContentStatus.PENDING (Some "The SEC opened a case")) ∅
  = true.
Proof.
  apply (X27_gate_is_monotone_in_the_threshold Examples.threshold_low
           default_settings
           (Examples.item "c1" ContentStatus.PENDING (Some "The SEC opened a case"))
           ∅).
  - unfold Qle. cbn. lia.
  - reflexivity.
Defined.

(** ** Engagement updates and the duplicate verdict *)

Lemma gt_Qeq (a a' b : Q) : (a == a')%Q -> Py.gt a b = Py.gt a' b.
Proof.
  intros H. unfold Py.gt. f_equal. apply Bool.eq_true_iff_eq.
  rewrite !Qle_bool_iff. rewrite H. tauto.
Qed.

Lemma Forall2_In_l {A B : Type} (R : A -> B -> Prop) (l : list A) (l' : list B)
    (x : A) :
  Forall2 R l l' -> In x l -> exists y, In y l' /\ R x y.
Proof.
  induction 1 as [|a b l l' Hab Hl IH]; intros Hin; [destruct Hin|].
  destruct Hin as [->|Hin].
  - exists b. split; [left; reflexivity | exact Hab].
  - destruct (IH Hin) as [y [Hy Hxy]]. exists y. split; [right|]; assumption.
Qed.

Lemma Forall2_In_r {A B : Type} (R : A -> B -> Prop) (l : list A) (l' : list B)
    (y : B) :
  Forall2 R l l' -> In y l' -> exists x, In x l /\ R x y.
Proof.
  induction 1 as [|a b l l' Hab Hl IH]; intros Hin; [destruct Hin|].
  destruct Hin as [->|Hin].
  - exists a. split; [left; reflexivity | exact Hab].
  - destruct (IH Hin) as [x [Hx Hxy]]. exists x. split; [right|]; assumption.
Qed.

Lemma Forall2_filter_length {A : Type} (R : A -> A -> Prop) (f : A -> bool)
    (l l' : list A) :
  (forall x y, R x y -> f y = f x) ->
  Forall2 R l l' ->
  length (List.filter f l') = length (List.filter f l).
Proof.
  intros Hf. induction 1 as [|a b l l' Hab Hl IH]; [reflexivity|].
  cbn [List.filter]. rewrite (Hf a b Hab).
  destruct (f a); cbn [length]; rewrite IH; reflexivity.
Qed.

Lemma Permutation_filter_length {A : Type} (f : A -> bool) (l l' : list A) :
  Permutation l l' -> length (List.filter f l) = length (List.filter f l').
Proof.
  induction 1 as [|x l l' Hp IH|x y l|l l' l'' H1 IH1 H2 IH2].
  - reflexivity.
  - cbn [List.filter]. destruct (f x); cbn [length]; rewrite IH; reflexivity.
  - cbn [List.filter]. destruct (f x), (f y); reflexivity.
  - rewrite IH1. exact IH2.
Qed.

Lemma archive_query_all (archive : list ContentArchive) :
  (length (List.filter Similarity.embedding_is_not_null archive) <= 1000)%nat ->
  Similarity.archive_query archive
  = List.filter Similarity.embedding_is_not_null archive.
Proof. intros H. unfold Similarity.archive_query. apply firstn_all2. exact H. Qed.

Section VerdictStable.

Variable _get_embedding : string -> option (list Q).
Variable cosine_similarity : list Q -> list Q -> option Q.

Lemma covered_filter (rows rows' : list ContentArchive) :
  Similarity.covered rows rows' ->
  Similarity.covered (List.filter Similarity.embedding_is_not_null rows)
    (List.filter Similarity.embedding_is_not_null rows').
Proof.
  intros H entry Hin. apply filter_In in Hin. destruct Hin as [Hin Hp].
  destruct (H entry Hin) as [entry' [Hin' [Hemb Htext]]].
  exists entry'. split; [|split; assumption].
  apply filter_In. split; [exact Hin'|].
  unfold Similarity.embedding_is_not_null in *. rewrite Hemb. exact Hp.
Qed.

Lemma scan_covered (embedding : list Q) (rows rows' : list ContentArchive)
    (item : Similarity.SimilarItem) :
  Similarity.covered rows rows' ->
  In item (Similarity.scan cosine_similarity embedding rows) ->
  exists item',
    In item' (Similarity.scan cosine_similarity embedding rows')
    /\ Similarity.si_similarity item' = Similarity.si_similarity item.
Proof.
  intros Hcov Hin. apply scan_origin in Hin.
  destruct Hin as [entry [stored [content_text [Hentry [Hst [Htx [Hcos [Hgt _]]]]]]]].
  destruct (Hcov entry Hentry) as [entry' [Hentry' [Hemb Htext]]].
  apply (scan_finds cosine_similarity embedding stored _ entry' rows' Hentry').
  - rewrite Hemb. exact Hst.
  - rewrite Htext, Htx. discriminate.
  - exact Hcos.
  - exact Hgt.
Qed.

(** The score of a check: 0 when no row is retained, otherwise the greatest
    similarity of a retained row. *)
Lemma score_is_the_maximum (archive : list ContentArchive) (embedding : list Q)
    (text : string) :
  match Similarity._find_similar_content cosine_similarity false archive
          embedding text 10 with
  | [] =>
      Similarity.scan cosine_similarity embedding
        (Similarity.archive_query archive) = []
  | h :: t =>
      (exists item,
          In item (Similarity.scan cosine_similarity embedding
                     (Similarity.archive_query archive))
          /\ Similarity.si_similarity item
             = Similarity.py_max (map Similarity.si_similarity (h :: t)))
      /\ forall item,
           In item (Similarity.scan cosine_similarity embedding
                      (Similarity.archive_query archive)) ->
           (Similarity.si_similarity item
            <= Similarity.py_max (map Similarity.si_similarity (h :: t)))%Q
  end.
Proof.
  destruct (Similarity._find_similar_content cosine_similarity false archive
              embedding text 10) as [|h t] eqn:Efind.
  - destruct (Similarity.scan cosine_similarity embedding
                (Similarity.archive_query archive)) as [|x items] eqn:Escan;
      [reflexivity|].
    exfalso. unfold Similarity._find_similar_content in Efind.
    destruct (Similarity.archive_query archive) as [|e entries];
      [cbn in Escan; discriminate|].
    rewrite Escan in Efind.
    destruct (sort_desc_head (x :: items) x (or_introl eq_refl))
      as [h [t [Hsort _]]].
    rewrite Hsort in Efind. cbn in Efind. discriminate.
  - split.
    + pose proof (py_max_in (Similarity.si_similarity h)
                    (map Similarity.si_similarity t)) as Hmax.
      change (Similarity.si_similarity h :: map Similarity.si_similarity t)
        with (map Similarity.si_similarity (h :: t)) in Hmax.
      apply in_map_iff in Hmax. destruct Hmax as [best [Hbest Hin]].
      exists best. split; [|exact Hbest].
      rewrite <- Efind in Hin.
      eapply find_similar_content_in. exact Hin.
    + intros item Hin. unfold Similarity._find_similar_content in Efind.
      destruct (Similarity.archive_query archive) as [|e entries];
        [destruct Hin|].
      destruct (sort_desc_head _ item Hin) as [h' [t' [Hsort Hle]]].
      rewrite Hsort in Efind. cbn [firstn] in Efind.
      inversion Efind; subst h' t. cbn [map].
      eapply Qle_trans; [exact Hle | apply py_max_ge_first].
Qed.

(** Two tables that cover each other give the same score. *)
Lemma covered_score (rows rows' : list ContentArchive) (embedding : list Q)
    (text : string) :
  Similarity.covered (Similarity.archive_query rows)
    (Similarity.archive_query rows') ->
  Similarity.covered (Similarity.archive_query rows')
    (Similarity.archive_query rows) ->
  (match Similarity._find_similar_content cosine_similarity false rows'
           embedding text 10 with
   | [] => 0
   | h :: t => Similarity.py_max (map Similarity.si_similarity (h :: t))
   end
   == match Similarity._find_similar_content cosine_similarity false rows
              embedding text 10 with
      | [] => 0
      | h :: t => Similarity.py_max (map Similarity.si_similarity (h :: t))
      end)%Q.
Proof.
  intros Hcov Hcov'.
  pose proof (score_is_the_maximum rows embedding text) as H.
  pose proof (score_is_the_maximum rows' embedding text) as H'.
  destruct (Similarity._find_similar_content cosine_similarity false rows
              embedding text 10) as [|h t];
    destruct (Similarity._find_similar_content cosine_similarity false rows'
                embedding text 10) as [|h' t'].
  - reflexivity.
  - exfalso. destruct H' as [[item [Hin _]] _].
    destruct (scan_covered embedding _ _ item Hcov' Hin) as [item' [Hin' _]].
    rewrite H in Hin'. destruct Hin'.
  - exfalso. destruct H as [[item [Hin _]] _].
    destruct (scan_covered embedding _ _ item Hcov Hin) as [item' [Hin' _]].
    rewrite H' in Hin'. destruct Hin'.
  - destruct H as [[item [Hin Hmax]] Hall].
    destruct H' as [[item' [Hin' Hmax']] Hall'].
    destruct (scan_covered embedding _ _ item Hcov Hin) as [x' [Hx' Hsx']].
    destruct (scan_covered embedding _ _ item' Hcov' Hin') as [x [Hx Hsx]].
    apply Qle_antisym.
    + rewrite <- Hmax', <- Hsx. apply Hall. exact Hx.
    + rewrite <- Hmax, <- Hsx'. apply Hall'. exact Hx'.
Qed.

(** X28. Engagement updates cannot change a duplicate verdict as long as
    the archive query reads the whole archive: when at most 1000 rows have
    an embedding column that is not SQL NULL, then, whatever
    [update_engagement_score] did to the archive and in whatever order the
    store returns the rows afterwards, a similarity check (on a cache miss)
    run on the archive afterwards reports the same score and the same
    verdict as the check run before the update. *)
Theorem X28_engagement_update_keeps_the_verdict :
  forall (settings : Settings) (engagement_score_of : dict -> option Q)
         (store_order : list ContentArchive -> list ContentArchive)
         (check_query_raises query_raises commit_raises : bool)
         (content_id : string) (engagement_data : dict) (db : DB)
         (text checked_id : string),
    (forall rows, Permutation (store_order rows) rows) ->
    (length (List.filter Similarity.embedding_is_not_null (content_archive db))
     <= 1000)%nat ->
    exists score score',
      Similarity.check_similarity _get_embedding cosine_similarity settings None
        check_query_raises (content_archive db) text checked_id
        !! "similarity_score" = Some (JNum score)
      /\ Similarity.check_similarity _get_embedding cosine_similarity settings
           None check_query_raises
           (content_archive
              (committed (Archive.update_engagement_score engagement_score_of
                            store_order query_raises commit_raises content_id
                            engagement_data (Examples.clean db))))
           text checked_id !! "similarity_score" = Some (JNum score')
      /\ (score' == score)%Q
      /\ Similarity.check_similarity _get_embedding cosine_similarity settings
           None check_query_raises
           (content_archive
              (committed (Archive.update_engagement_score engagement_score_of
                            store_order query_raises commit_raises content_id
                            engagement_data (Examples.clean db))))
           text checked_id !! "is_duplicate"
         = Similarity.check_similarity _get_embedding cosine_similarity settings
             None check_query_raises (content_archive db) text checked_id
             !! "is_duplicate".
Proof.
  intros settings engagement_score_of store_order check_query_raises
         query_raises commit_raises content_id engagement_data db text
         checked_id Horder Hsmall.
  destruct (update_engagement_score_rows engagement_score_of store_order
              query_raises commit_raises content_id engagement_data db Horder)
    as [rows [Hperm Hrows]].
  set (archive' := content_archive (committed _)) in *.
  destruct (_get_embedding text) as [E|] eqn:Hemb.
  2:{ exists 0%Q, 0%Q. unfold Similarity.check_similarity. rewrite Hemb.
      repeat split; reflexivity. }
  destruct check_query_raises.
  { exists 0%Q, 0%Q. unfold Similarity.check_similarity. rewrite Hemb.
      repeat split; reflexivity. }
  assert (Hfwd : Similarity.covered (content_archive db) archive').
  { intros entry Hin.
    destruct (Forall2_In_l _ _ _ entry Hrows Hin) as [entry' [Hin' HR]].
    exists entry'. split; [|split; apply HR].
    eapply Permutation_in; [exact Hperm | exact Hin']. }
  assert (Hbwd : Similarity.covered archive' (content_archive db)).
  { intros entry' Hin'.
    assert (Hin : In entry' rows)
      by (eapply Permutation_in; [symmetry; exact Hperm | exact Hin']).
    destruct (Forall2_In_r _ _ _ entry' Hrows Hin) as [entry [Hentry HR]].
    exists entry. split; [exact Hentry|].
    split; symmetry; apply HR. }
  assert (Hsmall' : (length (List.filter Similarity.embedding_is_not_null
                               archive') <= 1000)%nat).
  { rewrite <- (Permutation_filter_length _ _ _ Hperm).
    rewrite (Forall2_filter_length _ Similarity.embedding_is_not_null _ _
               (fun x y HR => f_equal
                  (fun column => match column with
                                 | SqlNull => false
                                 | _ => true
                                 end) (proj1 (proj2 (proj2 (proj2 HR)))))
               Hrows).
    exact Hsmall. }
  pose proof (covered_score (content_archive db) archive' E text) as Hscore.
  rewrite (archive_query_all _ Hsmall), (archive_query_all _ Hsmall') in Hscore.
  specialize (Hscore (covered_filter _ _ Hfwd) (covered_filter _ _ Hbwd)).
  destruct (check_similarity_miss _get_embedding cosine_similarity settings
              false (content_archive db) text checked_id E Hemb)
    as [score [Hs [Hlook Hdup]]].
  destruct (check_similarity_miss _get_embedding cosine_similarity settings
              false archive' text checked_id E Hemb)
    as [score' [Hs' [Hlook' Hdup']]].
  exists score, score'. split; [exact Hlook|]. split; [exact Hlook'|].
  assert (Heq : (score' == score)%Q) by (rewrite Hs, Hs'; exact Hscore).
  split; [exact Heq|]. rewrite Hdup, Hdup'. do 2 f_equal.
  apply gt_Qeq. exact Heq.
Qed.

End VerdictStable.

Lemma X28_witness :
  exists score score',
    Similarity.check_similarity Examples.embed_e1 Similarity.dot default_settings
      None false
      (content_archive
         (Archive.set_archive
            [Examples.archive_entry "old" [0%Q; 1%Q];
             Examples.archive_entry "same" [1%Q; 0%Q]]
            Examples.empty_db))
      Examples.long_text "c2" !! "similarity_score" = Some (JNum score)
    /\ Similarity.check_similarity Examples.embed_e1 Similarity.dot
         default_settings None false
         (content_archive
            (committed
               (Archive.update_engagement_score Archive.one_fifth
                  Archive.last_first false false "same"
                  {[ "views" := JNum 10; "likes" := JNum 1 ]}
                  (Examples.clean
                     (Archive.set_archive
                        [Examples.archive_entry "old" [0%Q; 1%Q];
                         Examples.archive_entry "same" [1%Q; 0%Q]]
                        Examples.empty_db)))))
         Examples.long_text "c2" !! "similarity_score" = Some (JNum score')
    /\ (score' == score)%Q
    /\ Similarity.check_similarity Examples.embed_e1 Similarity.dot
         default_settings None false
         (content_archive
            (committed
               (Archive.update_engagement_score Archive.one_fifth
                  Archive.last_first false false "same"
                  {[ "views" := JNum 10; "likes" := JNum 1 ]}
                  (Examples.clean
                     (Archive.set_archive
                        [Examples.archive_entry "old" [0%Q; 1%Q];
                         Examples.archive_entry "same" [1%Q; 0%Q]]
                        Examples.empty_db)))))
         Examples.long_text "c2" !! "is_duplicate"
       = Similarity.check_similarity Examples.embed_e1 Similarity.dot
           default_settings None false
           (content_archive
              (Archive.set_archive
                 [Examples.archive_entry "old" [0%Q; 1%Q];
                  Examples.archive_entry "same" [1%Q; 0%Q]]
                 Examples.empty_db))
           Examples.long_text "c2" !! "is_duplicate".
Proof.
  apply (X28_engagement_update_keeps_the_verdict Examples.embed_e1
           Similarity.dot default_settings Archive.one_fifth Archive.last_first
           false false false "same"
           {[ "views" := JNum 10; "likes" := JNum 1 ]}
           (Archive.set_archive
              [Examples.archive_entry "old" [0%Q; 1%Q];
               Examples.archive_entry "same" [1%Q; 0%Q]]
              Examples.empty_db)
           Examples.long_text "c2").
  - intros rows. unfold Archive.last_first. symmetry. apply Permutation_rev.
  - cbn. lia.
Defined.
